(** * Price monitoring for a pharmacy catalogue: the resolver and the updater

    A shallow embedding of [scraper_core.py] (the batch resolver, the
    individual search, the detail enricher, the paging of a target and
    the rows of the report), of [atualizador.py] (price extraction,
    percent variation, capped history and the update run) and of the
    list of tracked products of [app.py], followed by the properties
    proved about them.

    Conventions of the embedding:
    - a JSON value handled by the Python code is a [value]; a Python
      [dict] with string keys is a [gmap string value];
    - a Python [float] is a binary64 primitive float; a JSON integer
      literal is identified with the float of the same value, so that
      [0], [0.0] and [-0.0] are all falsy and equal to [0];
    - a Python [str] is the string of its UTF-8 bytes; [len] counts its
      characters ([py_len]);
    - a Python exception is an [exn] carried by [Raise];
    - the two network calls and the wall clock are parameters: a [world]
      answers a request from the requests made so far, a clock gives the
      successive readings of [datetime.now];
    - [log_callback] and [log] only print and are left out. *)

From Stdlib Require Import ZArith String Ascii List Floats Lia.
From stdpp Require Import gmap strings list fin_maps.

Set Warnings "-inexact-float,-register-all".
Open Scope string_scope.
Open Scope list_scope.

(** ** Python values *)

Inductive value : Type :=
| VNone
| VBool (b : bool)
| VNum (x : float)
| VStr (s : string)
| VList (l : list value)
| VDict (d : gmap string value).

Inductive exn : Type :=
| IndexError
| KeyError
| TypeError
| AttributeError
| OtherError.

Inductive outcome (A : Type) : Type :=
| Ok (a : A)
| Raise (e : exn).
Arguments Ok {A} a.
Arguments Raise {A} e.

#[export] Instance outcome_ret : MRet outcome := fun A a => Ok a.
#[export] Instance outcome_bind : MBind outcome := fun A B k o =>
  match o with
  | Ok a => k a
  | Raise e => Raise e
  end.

(** [bool(v)] *)
Definition truthy (v : value) : bool :=
  match v with
  | VNone => false
  | VBool b => b
  | VNum x => negb (PrimFloat.eqb x 0)
  | VStr s => negb (String.eqb s "")
  | VList l => negb (Nat.eqb (length l) 0)
  | VDict d => negb (Nat.eqb (size d) 0)
  end.

(** [a or b] on two values that are both already computed *)
Definition py_or (a b : value) : value := if truthy a then a else b.

Definition is_none (v : value) : bool :=
  match v with
  | VNone => true
  | _ => false
  end.

(** The number a value stands for in arithmetic and comparisons
    ([True] is [1], [False] is [0]); a value with no numeric view makes
    [-], [/] and [>] raise [TypeError]. *)
Definition as_num (v : value) : option float :=
  match v with
  | VNum x => Some x
  | VBool b => Some (if b then 1%float else 0%float)
  | _ => None
  end.

(** [v == 0] *)
Definition py_eq_zero (v : value) : bool :=
  match as_num v with
  | Some x => PrimFloat.eqb x 0
  | None => false
  end.

(** [v == code] for a string [code] *)
Definition py_eq_str (v : value) (code : string) : bool :=
  match v with
  | VStr s => String.eqb s code
  | _ => false
  end.

(** [v.get(k, dflt)]: only a dict has [get] *)
Definition attr_get (v : value) (k : string) (dflt : value) : outcome value :=
  match v with
  | VDict d => Ok (default dflt (d !! k))
  | _ => Raise AttributeError
  end.

(** [v[0]] *)
Definition subscript0 (v : value) : outcome value :=
  match v with
  | VList [] => Raise IndexError
  | VList (x :: _) => Ok x
  | VStr EmptyString => Raise IndexError
  | VStr (String c _) => Ok (VStr (String c EmptyString))
  | VDict _ => Raise KeyError
  | VNone | VBool _ | VNum _ => Raise TypeError
  end.

(** [v[k] = x] for a string key [k] *)
Definition set_item (v : value) (k : string) (x : value) : outcome value :=
  match v with
  | VDict d => Ok (VDict (<[k := x]> d))
  | _ => Raise TypeError
  end.

Fixpoint chars (s : string) : list value :=
  match s with
  | EmptyString => []
  | String c s' => VStr (String c EmptyString) :: chars s'
  end.

(** The elements a [for] loop over [v] visits.  A dict yields its keys;
    every loop of the program calls [.get] on each element first, so the
    order in which the keys come is never observed. *)
Definition py_iter (v : value) : outcome (list value) :=
  match v with
  | VList l => Ok l
  | VStr s => Ok (chars s)
  | VDict d => Ok (VStr <$> (map_to_list d).*1)
  | VNone | VBool _ | VNum _ => Raise TypeError
  end.

(** ** [round(x, 2)] on binary64

    CPython rounds the exact value of [x] to two decimals, ties to even,
    and returns the double nearest to that decimal. *)

(** The integer nearest to [p / q], ties to even ([0 < q]). *)
Definition rne_div (p q : Z) : Z :=
  let d := (p / q)%Z in
  match (2 * (p mod q) ?= q)%Z with
  | Lt => d
  | Gt => (d + 1)%Z
  | Eq => if Z.even d then d else (d + 1)%Z
  end.

(** The integer nearest to [m * 2^e * k]. *)
Definition rne_scaled (m e k : Z) : Z :=
  if (0 <=? e)%Z then (m * 2 ^ e * k)%Z else rne_div (m * k) (2 ^ (- e)).

(** The double nearest to [p / q], ties to even ([0 < p], [0 < q]). *)
Definition float_of_ratio (p q : Z) : float :=
  let lp := Z.log2 p in
  let lq := Z.log2 q in
  let e0 := if (q * 2 ^ lp <=? p * 2 ^ lq)%Z then (lp - lq - 52)%Z else (lp - lq - 53)%Z in
  let e := Z.max e0 (-1074) in
  let m := if (0 <=? e)%Z then rne_div p (q * 2 ^ e) else rne_div (p * 2 ^ (- e)) q in
  match m with
  | Zpos n => SF2Prim (S754_finite false n e)
  | _ => 0%float
  end.

Definition py_round2 (x : float) : float :=
  match Prim2SF x with
  | S754_finite s m e =>
      let n := rne_scaled (Zpos m) e 100 in
      let r := float_of_ratio n 100 in
      if s then (- r)%float else r
  | _ => x
  end.

(** ** atualizador.py: extraction, variation, history *)

Definition MAX_HISTORICO : nat := 30.

(** The body of the [try] block of [extrair_preco_e_nome]. *)
Definition extrair_corpo (resultado : value) : outcome (option float * value) :=
  nf ← attr_get resultado "is_not_found" VNone;
  if truthy nf then Ok (None, VNone) else
  n1 ← attr_get resultado "name" VNone;
  n2 ← attr_get resultado "productName" (VStr "");
  let nome := py_or n1 n2 in
  items ← attr_get resultado "items" (VList []);
  if negb (truthy items) then Ok (None, nome) else
  primeiro_item ← subscript0 items;
  sellers ← attr_get primeiro_item "sellers" (VList []);
  if negb (truthy sellers) then Ok (None, nome) else
  seller ← subscript0 sellers;
  oferta ← attr_get seller "commertialOffer" (VDict ∅);
  if negb (truthy oferta) then Ok (None, nome) else
  p1 ← attr_get oferta "price" VNone;
  p2 ← attr_get oferta "Price" VNone;
  let preco := py_or p1 p2 in
  preco ← (if is_none preco || py_eq_zero preco
           then l1 ← attr_get oferta "listPrice" VNone;
                l2 ← attr_get oferta "ListPrice" VNone;
                Ok (py_or l1 l2)
           else Ok preco);
  if truthy preco then
    match as_num preco with
    | Some x => if PrimFloat.ltb 0 x then Ok (Some (py_round2 x), nome) else Ok (None, nome)
    | None => Raise TypeError
    end
  else Ok (None, nome).

(** [except (IndexError, KeyError, TypeError)]: any other exception
    leaves the function. *)
Definition extrair_preco_e_nome (resultado : value) : outcome (option float * value) :=
  match extrair_corpo resultado with
  | Raise IndexError | Raise KeyError | Raise TypeError => Ok (None, VNone)
  | o => o
  end.

Definition calcular_variacao (preco_atual : float) (preco_anterior : value) : outcome float :=
  if is_none preco_anterior || py_eq_zero preco_anterior then Ok 0%float
  else match as_num preco_anterior with
       | Some anterior =>
           Ok (py_round2 (((preco_atual - anterior) / anterior) * 100)%float)
       | None => Raise TypeError
       end.

Definition novo_ponto (data : string) (preco : float) : value :=
  VDict (<["data" := VStr data]> (<["preco" := VNum preco]> ∅)).

(** [h[-MAX_HISTORICO:]] *)
Definition ultimos (h : list value) : list value :=
  drop (length h - MAX_HISTORICO) h.

(** [adicionar_ao_historico(produto, preco)], where [data] is the clock
    reading taken for the new point; [.append] exists on lists only. *)
Definition adicionar_ao_historico (produto : gmap string value) (preco : float)
    (data : string) : outcome (gmap string value) :=
  let produto1 :=
    match produto !! "historico" with
    | None => <["historico" := VList []]> produto
    | Some _ => produto
    end in
  match produto1 !! "historico" with
  | Some (VList h) =>
      let h1 := h ++ [novo_ponto data preco] in
      Ok (if Nat.ltb MAX_HISTORICO (length h1)
          then <["historico" := VList (ultimos h1)]> produto1
          else <["historico" := VList h1]> produto1)
  | _ => Raise AttributeError
  end.

(** ** Effects: a state and exception monad *)

Definition M (S A : Type) : Type := S -> outcome A * S.

#[export] Instance M_ret {S} : MRet (M S) := fun A a s => (Ok a, s).
#[export] Instance M_bind {S} : MBind (M S) := fun A B k m s =>
  match m s with
  | (Ok a, s') => k a s'
  | (Raise e, s') => (Raise e, s')
  end.

Definition lift {S A} (o : outcome A) : M S A := fun s => (o, s).

(** A [for] loop that carries an accumulator. *)
Fixpoint foldM {F : Type -> Type} `{!MBind F, !MRet F} {A B : Type}
    (f : B -> A -> F B) (l : list A) (b : B) : F B :=
  match l with
  | [] => mret b
  | x :: l' => b' ← f b x; foldM f l' b'
  end.

(** ** The outside world of scraper_core.py *)

Inductive event : Type :=
| EProxy (search_term : string)
| EDetail (product_id : value)
| ESleep (tenths : nat).

(** What [fazer_requisicao_api_proxy(search_term, page=1, is_ean=True)]
    and [fetch_product_details(product_id)] return, given the calls made
    so far: [Ok VNone] is the [None] of a transport or decode failure,
    [Ok v] the decoded payload part, [Raise e] an exception the function
    does not catch. *)
Record world : Type := {
  proxy : list event -> string -> outcome value;
  details : list event -> value -> outcome value
}.

Abbreviation T := (M (list event)).

Fixpoint is_substring (p s : string) : bool :=
  String.prefix p s ||
  match s with
  | EmptyString => false
  | String _ s' => is_substring p s'
  end.

(** [code in url] *)
Definition py_contains (code : string) (url : value) : outcome bool :=
  match url with
  | VStr u => Ok (is_substring code u)
  | VList l => Ok (existsb (fun v => py_eq_str v code) l)
  | VDict d => Ok (bool_decide (is_Some (d !! code)))
  | VNone | VBool _ | VNum _ => Raise TypeError
  end.

(** [{'is_not_found': True, 'ean': code}] *)
Definition nao_encontrado (code : string) : value :=
  VDict (<["is_not_found" := VBool true]> (<["ean" := VStr code]> ∅)).

(** [[img.get('imageUrl', '') for img in item.get('images', [])]] *)
Definition image_urls (item : value) : outcome (list value) :=
  images ← attr_get item "images" (VList []);
  imgs ← py_iter images;
  mapM (fun img => attr_get img "imageUrl" (VStr "")) imgs.

Section Scraper.
Variable w : world.

Definition fazer_requisicao_api_proxy (search_term : string) : T value :=
  fun tr => (proxy w tr search_term, tr ++ [EProxy search_term]).

Definition fetch_product_details (product_id : value) : T value :=
  fun tr => (details w tr product_id, tr ++ [EDetail product_id]).

Definition sleep (tenths : nat) : T unit :=
  fun tr => (Ok tt, tr ++ [ESleep tenths]).

(** *** enrich_product_summaries *)

Definition enrich_um (target_name : string) (enriched_products : list value)
    (summary : value) : T (list value) :=
  product_id ← lift (attr_get summary "productId" VNone);
  if negb (truthy product_id) then mret enriched_products else
  detailed_product ← fetch_product_details product_id;
  enriched ← (if truthy detailed_product
              then d ← lift (set_item detailed_product "target_name" (VStr target_name));
                   mret (enriched_products ++ [d])
              else mret enriched_products);
  sleep 1;;
  mret enriched.

Definition enrich_product_summaries (product_summaries : list value)
    (target_name : string) : T (list value) :=
  foldM (enrich_um target_name) product_summaries [].

(** *** process_short_codes_individually *)

(** [for url in image_urls: if code in url: ...; break] *)
Fixpoint any_url (code : string) (urls : list value) : outcome bool :=
  match urls with
  | [] => Ok false
  | url :: rest =>
      c ← py_contains code url;
      if c : bool then Ok true else any_url code rest
  end.

(** The loop over the sub-items of one candidate; [found_product] is
    the variable of that name, [VNone] while nothing matched.  The
    [break] of the image loop leaves that loop only. *)
Fixpoint scan_items (code : string) (product : value) (items : list value)
    (found_product : value) : outcome value :=
  match items with
  | [] => Ok found_product
  | item :: rest =>
      e ← attr_get item "ean" VNone;
      direct ← (if py_eq_str e code then Ok true else
                ref ← attr_get item "referenceId" VNone;
                if truthy ref
                then r0 ← subscript0 ref;
                     v ← attr_get r0 "Value" VNone;
                     Ok (py_eq_str v code)
                else Ok false);
      if direct : bool then Ok product else
      urls ← image_urls item;
      c ← any_url code urls;
      scan_items code product rest (if c : bool then product else found_product)
  end.

Fixpoint scan_products (code : string) (products : list value)
    (found_product : value) : outcome value :=
  match products with
  | [] => Ok found_product
  | product :: rest =>
      its ← attr_get product "items" (VList []);
      items ← py_iter its;
      found ← scan_items code product items found_product;
      if truthy found then Ok found else scan_products code rest found
  end.

Definition individual_um (results : list value) (code : string) : T (list value) :=
  products_page ← fazer_requisicao_api_proxy code;
  if is_none products_page then
    sleep 10;;
    mret (results ++ [nao_encontrado code])
  else
    products ← lift (py_iter products_page);
    found_product ← lift (scan_products code products VNone);
    r ← (if truthy found_product then
           product_id ← lift (attr_get found_product "productId" VNone);
           detailed_product ← fetch_product_details product_id;
           if truthy detailed_product
           then lift (set_item detailed_product "target_name"
                        (VStr (String.append "Busca Código: " code)))
           else mret (nao_encontrado code)
         else mret (nao_encontrado code));
    sleep 10;;
    mret (results ++ [r]).

Definition process_short_codes_individually (short_codes : list string) : T (list value) :=
  foldM individual_um short_codes [].

(** *** process_eans_in_batch *)

Definition BATCH_SIZE : nat := 48.

(** [[eans[i:i + BATCH_SIZE] for i in range(0, len(eans), BATCH_SIZE)]] *)
Fixpoint chunks_aux (fuel : nat) (eans : list string) : list (list string) :=
  match fuel, eans with
  | S fuel', _ :: _ => take BATCH_SIZE eans :: chunks_aux fuel' (drop BATCH_SIZE eans)
  | _, _ => []
  end.

Definition chunks (eans : list string) : list (list string) :=
  chunks_aux (length eans) eans.

(** [ean_found and ean_found in batch]: the code of the batch that
    [ean_found] is, if any. *)
Definition ean_no_lote (ean_found : value) (batch : list string) : option string :=
  match ean_found with
  | VStr s => if truthy ean_found && bool_decide (s ∈ batch) then Some s else None
  | _ => None
  end.

(** [found_products_map] gives, for a code of the batch, the position
    in the page of the product mapped to it: the dict holds the product
    object itself, and one object may be held under several codes. *)
Definition map_urls (batch : list string) (i : nat) (urls : list value)
    (found_products_map : gmap string nat) : outcome (gmap string nat) :=
  foldM (fun m url =>
    foldM (fun (m : gmap string nat) ean_in_batch =>
      c ← py_contains ean_in_batch url;
      Ok (if c : bool
          then match m !! ean_in_batch with
               | None => <[ean_in_batch := i]> m
               | Some _ => m
               end
          else m)) batch m) urls found_products_map.

Definition map_item (batch : list string) (i : nat)
    (found_products_map : gmap string nat) (item : value) : outcome (gmap string nat) :=
  ean_found ← attr_get item "ean" VNone;
  match ean_no_lote ean_found batch with
  | Some s => Ok (<[s := i]> found_products_map)
  | None =>
      if negb (truthy ean_found)
      then urls ← image_urls item; map_urls batch i urls found_products_map
      else Ok found_products_map
  end.

Fixpoint map_products (batch : list string) (i : nat) (products : list value)
    (found_products_map : gmap string nat) : outcome (gmap string nat) :=
  match products with
  | [] => Ok found_products_map
  | product :: rest =>
      its ← attr_get product "items" (VList []);
      items ← py_iter its;
      m ← foldM (map_item batch i) items found_products_map;
      map_products batch (S i) rest m
  end.

(** A record of [results]: a dict made for it, or the product at a
    position of the page, which is shared with the page and the map. *)
Inductive entry : Type :=
| Fresh (v : value)
| Shared (i : nat).

Record batch_state : Type := {
  store : list value;
  results : list entry;
  eans_not_found_in_batch : list string
}.

Definition label_ean (ean : string) : string := String.append "Busca EAN: " ean.

(** The body of [for ean in batch].  A position kept in the map is
    below the length of the page, so the [None] branch of the lookup
    in the store is never taken. *)
Definition batch_um (found_products_map : gmap string nat) (st : batch_state)
    (ean : string) : T batch_state :=
  match found_products_map !! ean with
  | Some i =>
      match store st !! i with
      | Some product_summary =>
          product_id ← lift (attr_get product_summary "productId" VNone);
          if truthy product_id then
            enriched_products ← enrich_product_summaries [product_summary] (label_ean ean);
            match enriched_products with
            | _ :: _ =>
                mret {| store := store st;
                        results := results st ++ (Fresh <$> enriched_products);
                        eans_not_found_in_batch := eans_not_found_in_batch st |}
            | [] =>
                s ← lift (set_item product_summary "target_name" (VStr (label_ean ean)));
                mret {| store := <[i := s]> (store st);
                        results := results st ++ [Shared i];
                        eans_not_found_in_batch := eans_not_found_in_batch st |}
            end
          else
            mret {| store := store st;
                    results := results st;
                    eans_not_found_in_batch := eans_not_found_in_batch st ++ [ean] |}
      | None => lift (Raise IndexError)
      end
  | None =>
      mret {| store := store st;
              results := results st;
              eans_not_found_in_batch := eans_not_found_in_batch st ++ [ean] |}
  end.

(** What a record of [results] is once the loop over the batch is
    over and the page is no longer written. *)
Definition resolve (page : list value) (e : entry) : value :=
  match e with
  | Fresh v => v
  | Shared i => default VNone (page !! i)
  end.

(** The body of [for i, batch in enumerate(ean_batches)]. *)
Definition process_batch (all_results : list value) (batch : list string) : T (list value) :=
  products_page ← fazer_requisicao_api_proxy (String.concat ", " batch);
  if is_none products_page then
    sleep 10;;
    mret (all_results ++ (nao_encontrado <$> batch))
  else
    products ← lift (py_iter products_page);
    found_products_map ← lift (map_products batch 0 products ∅);
    st ← foldM (batch_um found_products_map) batch
           {| store := products; results := []; eans_not_found_in_batch := [] |};
    individual_results ←
      match eans_not_found_in_batch st with
      | [] => mret []
      | _ :: _ => process_short_codes_individually (eans_not_found_in_batch st)
      end;
    sleep 10;;
    mret (all_results ++ (resolve (store st) <$> results st) ++ individual_results).

Definition process_eans_in_batch (eans : list string) : T (list value) :=
  foldM process_batch (chunks eans) [].

(** *** scrape_by_eans *)

(** [len(s)].  A [str] is held as its UTF-8 bytes, and its length is
    the number of its characters: the bytes that are not continuation
    bytes ([10xxxxxx]). *)
Definition continuacao (c : ascii) : bool :=
  let n := nat_of_ascii c in Nat.leb 128 n && Nat.ltb n 192.

Fixpoint py_len (s : string) : nat :=
  match s with
  | EmptyString => 0
  | String c s' => (if continuacao c then 0 else 1) + py_len s'
  end.

Definition scrape_by_eans (eans : list string) : T (list value) :=
  let valid_eans := filter (fun ean => py_len ean = 13) eans in
  let short_codes := filter (fun ean => py_len ean < 13) eans in
  r1 ← match valid_eans with
       | [] => mret []
       | _ :: _ => process_eans_in_batch valid_eans
       end;
  r2 ← match short_codes with
       | [] => mret []
       | _ :: _ => process_short_codes_individually short_codes
       end;
  mret (r1 ++ r2).

End Scraper.

(** ** atualizador.py: the update run *)

(** A tracked product of [produtos.json].  Its ['ean'] entry is a string
    (app.py stores nothing else there, and the resolver takes a list of
    strings); [campos] holds the other entries of the JSON object.  No
    statement of the run writes ['ean']. *)
Record produto : Type := {
  ean : string;
  campos : gmap string value
}.

(** The readings of [datetime.now(BR_TZ).isoformat()] that end up in the
    data, in the order they are taken; the state counts them. *)
Abbreviation C := (M nat).

Section Run.
Variable relogio : nat -> string.

Definition agora : C string := fun n => (Ok (relogio n), S n).

(** [for item in resultado.get('items', []): if item.get('ean'): ...; break] *)
Fixpoint primeiro_ean (items : list value) : outcome value :=
  match items with
  | [] => Ok VNone
  | item :: rest =>
      e ← attr_get item "ean" VNone;
      if truthy e then Ok e else primeiro_ean rest
  end.

(** [ean_resultado] *)
Definition chave_resultado (resultado : value) : outcome value :=
  nf ← attr_get resultado "is_not_found" VNone;
  if truthy nf then attr_get resultado "ean" VNone
  else its ← attr_get resultado "items" (VList []);
       items ← py_iter its;
       primeiro_ean items.

(** [if ean_resultado: resultados_por_ean[ean_resultado] = resultado].
    The dict is only ever read at the ['ean'] of a product, a string,
    which no number or boolean key equals: such a key is not kept.  A
    list or a dict is not hashable. *)
Definition indexar (resultados_por_ean : gmap string value) (resultado : value)
    : outcome (gmap string value) :=
  ean_resultado ← chave_resultado resultado;
  if truthy ean_resultado then
    match ean_resultado with
    | VStr s => Ok (<[s := resultado]> resultados_por_ean)
    | VList _ | VDict _ => Raise TypeError
    | VNone | VBool _ | VNum _ => Ok resultados_por_ean
    end
  else Ok resultados_por_ean.

Definition indexar_resultados (resultados : list value) : outcome (gmap string value) :=
  foldM indexar resultados ∅.

(** [produto['status'] = status; produto['ultima_verificacao'] = now] *)
Definition marcar (status : string) (p : produto) : C produto :=
  t ← agora;
  mret {| ean := ean p;
          campos := <["ultima_verificacao" := VStr t]>
                      (<["status" := VStr status]> (campos p)) |}.

(** The body of [for produto in produtos] of the update. *)
Definition atualizar_um (resultados_por_ean : gmap string value) (p : produto) : C produto :=
  match resultados_por_ean !! ean p with
  | None => marcar "Não Encontrado" p
  | Some resultado =>
      if negb (truthy resultado) then marcar "Não Encontrado" p else
      nf ← lift (attr_get resultado "is_not_found" VNone);
      if truthy nf then marcar "Não Encontrado" p else
      '(novo_preco, nome) ← lift (extrair_preco_e_nome resultado);
      let c1 := if truthy nome then <["nome" := nome]> (campos p) else campos p in
      match novo_preco with
      | Some preco =>
          if truthy (VNum preco) then
            let preco_anterior := default VNone (c1 !! "preco_atual") in
            let c2 := <["preco_atual" := VNum preco]>
                        (<["preco_anterior" := preco_anterior]> c1) in
            t ← agora;
            let c3 := <["status" := VStr "Monitorando"]>
                        (<["ultima_verificacao" := VStr t]> c2) in
            data ← agora;
            c4 ← lift (adicionar_ao_historico c3 preco data);
            if truthy preco_anterior then
              variacao ← lift (calcular_variacao preco preco_anterior);
              mret {| ean := ean p; campos := <["variacao" := VNum variacao]> c4 |}
            else
              mret {| ean := ean p; campos := <["variacao" := VNone]> c4 |}
          else marcar "Erro" {| ean := ean p; campos := c1 |}
      | None => marcar "Erro" {| ean := ean p; campos := c1 |}
      end
  end.

(** [atualizar_produtos()], from the list [carregar_produtos] returned
    to what [salvar_produtos] writes: [Ok None] when the run returns
    without saving, [Ok (Some l)] when it saves [l], [Raise e] when an
    exception leaves the run before the save.  The summary printed
    after the save is left out. *)
Definition atualizar_produtos (w : world) (produtos : list produto)
    : outcome (option (list produto)) :=
  match produtos with
  | [] => Ok None
  | _ :: _ =>
      match scrape_by_eans w (ean <$> produtos) [] with
      | (Raise _, _) =>
          ps ← fst (mapM (marcar "Erro") produtos 0);
          Ok (Some ps)
      | (Ok resultados, _) =>
          resultados_por_ean ← indexar_resultados resultados;
          ps ← fst (mapM (atualizar_um resultados_por_ean) produtos 0);
          Ok (Some ps)
      end
  end.

End Run.

(** ** Reading the claims: what the specification says, in its words *)

(** The number under the key [k] of an offer, when there is one and it
    is not zero. *)
Definition lido (oferta : gmap string value) (k : string) : option float :=
  match oferta !! k with
  | Some (VNum x) => if PrimFloat.eqb x 0 then None else Some x
  | _ => None
  end.

(** The price read: ['price'], then ['Price']; when both are zero or
    absent, the list price: ['listPrice'], then ['ListPrice']. *)
Definition preco_lido (oferta : gmap string value) : option float :=
  match lido oferta "price", lido oferta "Price" with
  | Some x, _ => Some x
  | None, Some x => Some x
  | None, None =>
      match lido oferta "listPrice", lido oferta "ListPrice" with
      | Some x, _ => Some x
      | None, o => o
      end
  end.

(** A price read is valid only when strictly positive, and is then
    rounded to two decimals. *)
Definition preco_valido (o : option float) : option float :=
  match o with
  | Some x => if PrimFloat.ltb 0 x then Some (py_round2 x) else None
  | None => None
  end.

(** A field that holds a number, holds [null], or is absent. *)
Definition campo_numerico (oferta : gmap string value) (k : string) : Prop :=
  oferta !! k = None ∨ oferta !! k = Some VNone ∨ ∃ x, oferta !! k = Some (VNum x).

(** The commercial offer of the first seller of the first sub-item. *)
Definition oferta_de (r : gmap string value) : option (gmap string value) :=
  match r !! "items" with
  | Some (VList (VDict item :: _)) =>
      match item !! "sellers" with
      | Some (VList (VDict seller :: _)) =>
          match seller !! "commertialOffer" with
          | Some (VDict oferta) => Some oferta
          | _ => None
          end
      | _ => None
      end
  | _ => None
  end.

(** [resultado.get('name') or resultado.get('productName', '')] *)
Definition nome_de (r : gmap string value) : value :=
  py_or (default VNone (r !! "name")) (default (VStr "") (r !! "productName")).

(** The history a product holds ([[]] when it has none). *)
Definition historico_de (c : gmap string value) : list value :=
  match c !! "historico" with
  | Some (VList h) => h
  | _ => []
  end.

(** [produto['status'] = status; produto['ultima_verificacao'] = t] *)
Definition marcado (status t : string) (p : produto) : produto :=
  {| ean := ean p;
     campos := <["ultima_verificacao" := VStr t]> (<["status" := VStr status]> (campos p)) |}.

(** A record with no [is_not_found] mark whose sub-items all lack a
    non-empty ['ean']. *)
Definition subitens_sem_ean (r : value) : Prop :=
  exists d items,
    r = VDict d /\
    truthy (default VNone (d !! "is_not_found")) = false /\
    py_iter (default (VList []) (d !! "items")) = Ok items /\
    Forall (fun item => exists di, item = VDict di /\
                                   truthy (default VNone (di !! "ean")) = false) items.

(** ** Concrete inputs *)

Definition oferta_exemplo : gmap string value :=
  <["price" := VNum 0]> (<["listPrice" := VNum 15.9]> ∅).

Definition resultado_exemplo : gmap string value :=
  <["name" := VStr "Dipirona 500mg"]>
  (<["items" := VList [VDict (<["sellers" :=
       VList [VDict (<["commertialOffer" := VDict oferta_exemplo]> ∅)]]> ∅)]]> ∅).

(** A record as the detail lookup gives it, with its code and a price. *)
Definition resultado_detalhado : gmap string value :=
  <["productName" := VStr "Dipirona 500mg"]>
  (<["items" := VList [VDict (<["ean" := VStr "7891000000010"]>
       (<["sellers" := VList [VDict (<["commertialOffer" :=
            VDict (<["Price" := VNum 15.9]> ∅)]> ∅)]]> ∅))]]> ∅).

(** Catalog summaries: without identifier, with one, found under a short
    code, with two sub-items, and with a code that only shows in the
    name of an image. *)
Definition resumo_sem_id : gmap string value :=
  <["productName" := VStr "Dipirona 500mg"]>
  (<["items" := VList [VDict (<["ean" := VStr "7891000000010"]> ∅)]]> ∅).

Definition resumo_com_id : gmap string value :=
  <["productId" := VStr "42"]> resumo_sem_id.

Definition resumo_curto : gmap string value :=
  <["productId" := VStr "42"]>
  (<["productName" := VStr "Dipirona 500mg"]>
  (<["items" := VList [VDict (<["ean" := VStr "123"]> ∅)]]> ∅)).

Definition resumo_dois_skus : gmap string value :=
  <["productId" := VStr "42"]>
  (<["productName" := VStr "Dipirona 500mg"]>
  (<["items" := VList [VDict (<["ean" := VStr "7891000000010"]> ∅);
                       VDict (<["ean" := VStr "7891000000027"]> ∅)]]> ∅)).

Definition resumo_via_imagem : gmap string value :=
  <["productId" := VStr "42"]>
  (<["productName" := VStr "Dipirona 500mg"]>
  (<["items" := VList [VDict (<["ean" := VStr ""]>
       (<["images" := VList [VDict (<["imageUrl" :=
            VStr "https://cdn.example/arquivos/7891000000010_1.jpg"]> ∅)]]> ∅))]]> ∅)).

(** Worlds: every request fails; the term search raises; the term search
    always answers with the page [page] and the detail lookup fails. *)
Definition w0 : world :=
  {| proxy := fun _ _ => Ok VNone; details := fun _ _ => Ok VNone |}.

Definition w_erro : world :=
  {| proxy := fun _ _ => Raise OtherError; details := fun _ _ => Ok VNone |}.

Definition w_pagina (page : list value) : world :=
  {| proxy := fun _ _ => Ok (VList page); details := fun _ _ => Ok VNone |}.

Definition dez_codigos : list string :=
  ["7891000000010"; "7891000000027"; "7891000000034"; "7891000000041"; "7891000000058";
   "7891000000065"; "7891000000072"; "7891000000089"; "7891000000096"; "7891000000102"].

Definition historico_cheio : list value :=
  replicate 30 (novo_ponto "2026-01-01T08:00:00-03:00" 12.5).

Definition produto_exemplo : produto :=
  {| ean := "123";
     campos := <["nome" := VStr "Dipirona 500mg"]> (<["preco_atual" := VNum 12.5]>
               (<["preco_anterior" := VNum 11]> (<["variacao" := VNum 13.64]>
               (<["status" := VStr "Monitorando"]>
               (<["historico" := VList [novo_ponto "2026-01-01T08:00:00-03:00" 12.5]]> ∅))))) |}.

(** A product as app.py creates it, never priced yet. *)
Definition produto_13 : produto :=
  {| ean := "7891000000010";
     campos := <["nome" := VStr ""]> (<["preco_atual" := VNone]>
               (<["preco_anterior" := VNone]> (<["variacao" := VNone]>
               (<["ultima_verificacao" := VNone]> (<["status" := VStr "Pendente"]>
               (<["historico" := VList []]> ∅)))))) |}.

Definition relogio_exemplo (n : nat) : string :=
  match n with
  | 0 => "2026-01-02T08:00:00-03:00"
  | _ => "2026-01-02T08:00:01-03:00"
  end.

(** ** What a match rests on *)

(** The sub-items a loop over [product.get('items', [])] visits. *)
Definition itens_de (product : value) (items : list value) : Prop :=
  exists its, attr_get product "items" (VList []) = Ok its /\ py_iter its = Ok items.

(** In a bulk answer, a sub-item shows a code when its ['ean'] is the
    code, or when its ['ean'] is empty and one of its image URLs
    contains the code. *)
Definition item_mostra_lote (c : string) (item : value) : Prop :=
  exists e, attr_get item "ean" VNone = Ok e /\
    (e = VStr c \/
     (truthy e = false /\
      exists urls url, image_urls item = Ok urls /\ url ∈ urls /\ py_contains c url = Ok true)).

Definition produto_mostra_lote (c : string) (product : value) : Prop :=
  exists items item, itens_de product items /\ item ∈ items /\ item_mostra_lote c item.

(** In an individual answer, a sub-item shows the code by its ['ean'],
    by the ['Value'] of its first ['referenceId'], or by an image URL. *)
Definition item_mostra (c : string) (item : value) : Prop :=
  attr_get item "ean" VNone = Ok (VStr c) \/
  (exists ref r0, attr_get item "referenceId" VNone = Ok ref /\ truthy ref = true /\
                  subscript0 ref = Ok r0 /\ attr_get r0 "Value" VNone = Ok (VStr c)) \/
  (exists urls url, image_urls item = Ok urls /\ url ∈ urls /\ py_contains c url = Ok true).

Definition produto_mostra (c : string) (product : value) : Prop :=
  exists items item, itens_de product items /\ item ∈ items /\ item_mostra c item.

(** ** What a record of the resolver is *)

(** [f"Busca Código: {code}"] *)
Definition label_codigo (code : string) : string := String.append "Busca Código: " code.

(** The search terms of a trace, in the order the requests were made. *)
Definition termos (tr : list event) : list string :=
  omap (fun e => match e with EProxy t => Some t | _ => None end) tr.

(** A record made from the answer of the detail lookup: the dict that
    [fetch_product_details] returned, with its ['target_name'] set to
    [label]. *)
Definition registro_detalhado (w : world) (label : string) (r : value) : Prop :=
  exists tr pid det,
    details w tr pid = Ok (VDict det) /\ truthy (VDict det) = true /\
    r = VDict (<["target_name" := VStr label]> det).

(** The record of the individual search for [code]: the mark of not
    found for that code, or the answer of the detail lookup labelled with
    the search of that code. *)
Definition registro_individual (w : world) (code : string) (r : value) : Prop :=
  r = nao_encontrado code \/ registro_detalhado w (label_codigo code) r.

(** A catalog summary that the batch loop kept for [code]: one of its
    own sub-items shows [code], and its ['target_name'] is the label of
    the bulk search of a code of [eans] (the one written last on that
    summary). *)
Definition resumo_mantido (eans : list string) (code : string) (r : value) : Prop :=
  exists d c, r = VDict d /\ c ∈ eans /\
    d !! "target_name" = Some (VStr (label_ean c)) /\
    produto_mostra_lote code r.

(** The record the resolver returns for [code]: its mark of not found,
    the answer of the detail lookup labelled with the bulk or the
    individual search of [code], or a catalog summary kept for it. *)
Definition registro_do_codigo (w : world) (eans : list string) (code : string)
    (r : value) : Prop :=
  r = nao_encontrado code \/
  registro_detalhado w (label_ean code) r \/
  registro_detalhado w (label_codigo code) r \/
  resumo_mantido eans code r.

(** A record of the batch loop for [code], before the page is read
    again: the labelled answer of the detail lookup, or the position
    that the map gives for [code]. *)
Definition entrada_do_codigo (w : world) (found_products_map : gmap string nat)
    (code : string) (e : entry) : Prop :=
  match e with
  | Fresh v => registro_detalhado w (label_ean code) v
  | Shared i => found_products_map !! code = Some i
  end.

(** Two pages whose products have the same sub-items. *)
Definition mesmos_itens (page1 page2 : list value) : Prop :=
  Forall2 (fun a b => attr_get a "items" (VList []) = attr_get b "items" (VList []))
          page1 page2.

(** A record of the batch loop, read in the page [page]: a dict
    labelled with the bulk search of one of the codes [codes]. *)
Definition entrada_rotulada (codes : list string) (page : list value) (e : entry) : Prop :=
  exists d c, resolve page e = VDict d /\ c ∈ codes /\
              d !! "target_name" = Some (VStr (label_ean c)).

(** The trace of requests that all fail: each request, then its pause
    of one second. *)
Definition eventos_falha (terms : list string) : list event :=
  terms ≫= (fun t => [EProxy t; ESleep 10]).

(** A world where the catalogue cannot be reached: every term search
    gives the [None] of a transport failure. *)
Definition fora_do_ar (w : world) : Prop :=
  forall tr t, proxy w tr t = Ok VNone.

(** The three values the update writes to ['status']. *)
Definition status_da_atualizacao : list string :=
  ["Monitorando"; "Não Encontrado"; "Erro"].

(** A product the update has gone through: its status is one of the
    three, its last check is a reading of the clock. *)
Definition verificado (p : produto) : Prop :=
  (exists s, campos p !! "status" = Some (VStr s) /\ s ∈ status_da_atualizacao) /\
  exists t, campos p !! "ultima_verificacao" = Some (VStr t).

(** ** More concrete inputs *)

Definition tres_codigos : list string := ["7891000000010"; "123"; "78912345678901"].

(** A tracked product with a price and one point of history. *)
Definition produto_com_preco : produto :=
  {| ean := "7891000000010";
     campos := <["nome" := VStr "Dipirona"]> (<["preco_atual" := VNum 12.5]>
               (<["preco_anterior" := VNone]> (<["variacao" := VNone]>
               (<["ultima_verificacao" := VStr "2026-01-01T08:00:00-03:00"]>
               (<["status" := VStr "Monitorando"]>
               (<["historico" := VList [novo_ponto "2026-01-01T08:00:00-03:00" 12.5]]> ∅)))))) |}.

Definition item_sem_ean : value :=
  VDict (<["ean" := VStr ""]>
        (<["images" := VList [VDict (<["imageUrl" :=
             VStr "https://cdn.example/arquivos/7891000000010_1.jpg"]> ∅)]]> ∅)).

(** ** Requests and pauses *)

(** The pauses of one second of a trace. *)
Definition segundos (tr : list event) : list unit :=
  omap (fun e => match e with ESleep 10 => Some tt | _ => None end) tr.

(** A code of a batch goes to the individual search when the map holds
    no product for it, or holds a product that has no identifier. *)
Definition escalado (found_products_map : gmap string nat) (products : list value)
    (code : string) : bool :=
  match found_products_map !! code with
  | None => true
  | Some i =>
      match products !! i with
      | Some product_summary =>
          match attr_get product_summary "productId" VNone with
          | Ok product_id => negb (truthy product_id)
          | Raise _ => false
          end
      | None => false
      end
  end.

(** Two pages whose products have the same identifiers. *)
Definition mesmos_ids (page1 page2 : list value) : Prop :=
  Forall2 (fun a b => attr_get a "productId" VNone = attr_get b "productId" VNone)
          page1 page2.

(** ** scraper_core.py: scrape_target *)

Definition PRODUTOS_POR_PAGINA : nat := 50.

(** The entries of [variables] that change from a target or a page to
    the next; the others are constants. *)
Record variables : Type := {
  v_map : string;
  v_query : string;
  v_from : nat;
  v_to : nat;
  v_selected_facets : list (string * string)
}.

Inductive evento_alvo : Type :=
| EVtex (v : variables)
| EPausa.

(** What [fazer_requisicao_api_vtex(variables)] does, given the calls
    made so far: it returns a value ([None] on a request that fails) or
    raises. *)
Record world_vtex : Type := {
  vtex : list evento_alvo -> variables -> outcome value
}.

(** [s.split(sep)] for a separator of one character *)
Fixpoint split_em (sep : ascii) (s : string) : list string :=
  match s with
  | EmptyString => [EmptyString]
  | String c s' =>
      if Ascii.eqb c sep then EmptyString :: split_em sep s'
      else match split_em sep s' with
           | h :: t => String c h :: t
           | [] => [String c EmptyString]
           end
  end.

(** [variables] for the page [current_page] of a target *)
Definition variables_da_pagina (map_param query_path : string) (current_page : nat)
    : variables :=
  {| v_map := map_param;
     v_query := query_path;
     v_from := current_page * PRODUTOS_POR_PAGINA;
     v_to := (current_page + 1) * PRODUTOS_POR_PAGINA - 1;
     v_selected_facets := zip (split_em "," map_param) (split_em "/" query_path) |}.

Section Alvo.
Variable wv : world_vtex.

(** The call inside [try ... except Exception: products_page = None] *)
Definition requisicao_vtex (v : variables) : M (list evento_alvo) value :=
  fun tr =>
    (Ok match vtex wv tr v with
        | Ok products_page => products_page
        | Raise _ => VNone
        end, tr ++ [EVtex v]).

Definition pausa : M (list evento_alvo) unit := fun tr => (Ok tt, tr ++ [EPausa]).

(** The [while True] loop; [None] when [fuel] pages were read and the
    loop has not ended. *)
Fixpoint paginas (fuel : nat) (target_name : value) (map_param query_path : string)
    (current_page : nat) (all_products : list value)
    : M (list evento_alvo) (option (list value)) :=
  match fuel with
  | 0 => mret None
  | S fuel' =>
      products_page ← requisicao_vtex (variables_da_pagina map_param query_path current_page);
      if is_none products_page then mret (Some all_products)
      else if negb (truthy products_page) then mret (Some all_products)
      else
        products ← lift (py_iter products_page);
        labelled ← lift (mapM (fun product => set_item product "target_name" target_name)
                              products);
        pausa;;
        paginas fuel' target_name map_param query_path (S current_page)
                (all_products ++ labelled)
  end.

Definition scrape_target (fuel : nat) (target : gmap string value)
    : M (list evento_alvo) (option (list value)) :=
  let target_name := default (VStr "Desconhecido") (target !! "name") in
  let query_path := default VNone (target !! "query") in
  let map_param := default VNone (target !! "map") in
  if negb (truthy query_path) || negb (truthy map_param) then mret (Some [])
  else
    match map_param, query_path with
    | VStr m, VStr q => paginas fuel target_name m q 0 []
    | _, _ => lift (Raise AttributeError)
    end.

End Alvo.

(** A page of products, each labelled with the name of the target. *)
Definition rotulados (target_name : value) (page : list (gmap string value)) : list value :=
  (fun d => VDict (<["target_name" := target_name]> d)) <$> page.

(** A call that ends the pagination: it raises, or gives [None] or
    another falsy value (the empty list). *)
Definition fim_da_paginacao (o : outcome value) : Prop :=
  (exists v, o = Ok v /\ truthy v = false) \/ exists e, o = Raise e.

(** The trace of a pagination that read [k] full pages from the page
    [i] on, and then the page that ended it. *)
Fixpoint eventos_paginas (map_param query_path : string) (i k : nat) : list evento_alvo :=
  match k with
  | 0 => [EVtex (variables_da_pagina map_param query_path i)]
  | S k' => EVtex (variables_da_pagina map_param query_path i) :: EPausa
            :: eventos_paginas map_param query_path (S i) k'
  end.

Definition alvo_exemplo : gmap string value :=
  <["name" := VStr "Vitaminas"]>
  (<["query" := VStr "saude/vitaminas"]> (<["map" := VStr "c,c"]> ∅)).

(** A catalogue of two full pages of one product each. *)
Definition wv_duas_paginas : world_vtex :=
  {| vtex := fun _ v =>
       match v_from v with
       | 0 => Ok (VList [VDict (<["productId" := VStr "1"]> ∅)])
       | 50 => Ok (VList [VDict (<["productId" := VStr "2"]> ∅)])
       | _ => Ok (VList [])
       end |}.

Definition paginas_exemplo (i : nat) : list (gmap string value) :=
  match i with
  | 0 => [<["productId" := VStr "1"]> ∅]
  | _ => [<["productId" := VStr "2"]> ∅]
  end.

(** ** app.py: the list of tracked products *)

(** [novo_produto] of [adicionar_produto] and [adicionar_produtos_em_lote] *)
Definition novo_produto (ean0 : string) : produto :=
  {| ean := ean0;
     campos := <["nome" := VStr ""]> (<["preco_atual" := VNone]>
               (<["preco_anterior" := VNone]> (<["variacao" := VNone]>
               (<["ultima_verificacao" := VNone]> (<["status" := VStr "Pendente"]>
               (<["historico" := VList []]> ∅)))))) |}.

(** [adicionar_produto(ean)], from the list [carregar_produtos] gave to
    the value returned and the list in the file afterwards. *)
Definition adicionar_produto (ean0 : string) (produtos : list produto)
    : (bool * string) * list produto :=
  if existsb (fun p => String.eqb (ean p) ean0) produtos
  then ((false, String.append "O EAN " (String.append ean0 " já está sendo monitorado.")),
        produtos)
  else ((true, String.append "Produto " (String.append ean0 " adicionado com sucesso!")),
        produtos ++ [novo_produto ean0]).

(** [remover_produto(ean)]: the list is saved only when it got shorter. *)
Definition remover_produto (ean0 : string) (produtos : list produto) : bool * list produto :=
  let produtos_filtrados := filter (fun p => ean p <> ean0) produtos in
  if Nat.ltb (length produtos_filtrados) (length produtos)
  then (true, produtos_filtrados)
  else (false, produtos).

Record lote_state : Type := {
  l_produtos : list produto;
  l_existentes : gset string;
  l_adicionados : nat;
  l_duplicados : nat;
  l_erros : list string
}.

Section Lote.
(** Python's [str.strip] and [str.isdigit] *)
Variable str_strip : string -> string.
Variable str_isdigit : string -> bool.

(** The body of [for ean in eans] *)
Definition lote_um (st : lote_state) (ean_bruto : string) : lote_state :=
  let e := str_strip ean_bruto in
  if String.eqb e "" then st
  else if negb (str_isdigit e) then
    {| l_produtos := l_produtos st; l_existentes := l_existentes st;
       l_adicionados := l_adicionados st; l_duplicados := l_duplicados st;
       l_erros := l_erros st ++ [String.append e " (não é numérico)"] |}
  else if bool_decide (e ∈ l_existentes st) then
    {| l_produtos := l_produtos st; l_existentes := l_existentes st;
       l_adicionados := l_adicionados st; l_duplicados := S (l_duplicados st);
       l_erros := l_erros st |}
  else
    {| l_produtos := l_produtos st ++ [novo_produto e];
       l_existentes := {[e]} ∪ l_existentes st;
       l_adicionados := S (l_adicionados st); l_duplicados := l_duplicados st;
       l_erros := l_erros st |}.

(** [adicionar_produtos_em_lote(eans)]: the triple returned and the
    list in the file afterwards. *)
Definition adicionar_produtos_em_lote (eans : list string) (produtos : list produto)
    : (nat * nat * list string) * list produto :=
  let st := foldl lote_um
              {| l_produtos := produtos; l_existentes := list_to_set (ean <$> produtos);
                 l_adicionados := 0; l_duplicados := 0; l_erros := [] |} eans in
  ((l_adicionados st, l_duplicados st, l_erros st), l_produtos st).

End Lote.

(** ASCII stand-ins for the two string methods, for concrete inputs. *)
Definition digito (c : ascii) : bool :=
  let n := nat_of_ascii c in Nat.leb 48 n && Nat.leb n 57.

Fixpoint so_digitos (s : string) : bool :=
  match s with
  | EmptyString => true
  | String c s' => digito c && so_digitos s'
  end.

Definition isdigit_ascii (s : string) : bool :=
  negb (String.eqb s "") && so_digitos s.

Definition strip_nada (s : string) : string := s.


Definition lista_exemplo : list produto := [produto_exemplo; produto_13].

(** ** scraper_core.py: the rows of the report

    [create_excel_report] returns [b""] for an empty list of results;
    otherwise it fills [excel_data] with one dict per row and hands the
    list to the spreadsheet writer, which is not modelled. *)

(** One row of [excel_data] *)
Definition linha (ean0 categoria nome original oferta tipo validade : value) : value :=
  VDict (<["EAN" := ean0]> (<["Categoria/Subcategoria" := categoria]>
        (<["Nome" := nome]> (<["Preco Original" := original]>
        (<["Preco Oferta" := oferta]> (<["Tipo de Oferta" := tipo]>
        (<["Data de Validade" := validade]> ∅))))))).

(** [v > 0] *)
Definition maior_que_zero (v : value) : outcome bool :=
  match as_num v with
  | Some x => Ok (PrimFloat.ltb 0 x)
  | None => Raise TypeError
  end.

(** [round(v, 2)] *)
Definition round2 (v : value) : outcome float :=
  match as_num v with
  | Some x => Ok (py_round2 x)
  | None => Raise TypeError
  end.

(** [for seller in item.get('sellers', [])]: the loop goes on past a
    seller whose offer is falsy and breaks at the first truthy offer,
    kept as [valid_offer] only when it is available. *)
Fixpoint oferta_valida (sellers : list value) : outcome value :=
  match sellers with
  | [] => Ok VNone
  | seller :: rest =>
      offer ← attr_get seller "commertialOffer" VNone;
      if truthy offer then
        tem ← py_contains "AvailableQuantity" offer;
        is_available_new_api ←
          (if tem : bool then Ok false
           else p ← attr_get offer "price" (VNum 0); maior_que_zero p);
        q ← attr_get offer "AvailableQuantity" (VNum 0);
        is_available_old_api ← maior_que_zero q;
        Ok (if is_available_old_api || is_available_new_api then offer else VNone)
      else oferta_valida rest
  end.

(** [offer_price], [original_price] and [offer_type] of a SKU *)
Definition precos (valid_offer : value) : outcome (float * float * value) :=
  if truthy valid_offer then
    p1 ← attr_get valid_offer "price" VNone;
    p2 ← attr_get valid_offer "Price" (VNum 0);
    let offer_price_raw := py_or p1 p2 in
    l1 ← attr_get valid_offer "listPrice" VNone;
    l2 ← attr_get valid_offer "ListPrice" VNone;
    let original_price_raw := py_or l1 (py_or l2 offer_price_raw) in
    offer_price ← round2 offer_price_raw;
    original_price ← round2 original_price_raw;
    let original_price :=
      if PrimFloat.ltb original_price offer_price then offer_price else original_price in
    teasers ← attr_get valid_offer "teasers" (VList []);
    ts ← py_iter teasers;
    offer_type ← match ts with
                 | [] => Ok (VStr "N/A")
                 | t :: _ => attr_get t "name" (VStr "Oferta")
                 end;
    Ok (offer_price, original_price, offer_type)
  else Ok (0%float, 0%float, VStr "N/A").

(** ["sem preco" if price == 0.0 else price] *)
Definition celula_preco (x : float) : value :=
  if PrimFloat.eqb x 0 then VStr "sem preco" else VNum x.

Section Relatorio.
(** [re.sub(r'<.*?>', '', s)], [str.isdigit] and
    [pd.to_datetime(int(s), unit='ms').strftime('%d/%m/%Y')] *)
Variable sem_tags : string -> string.
Variable str_isdigit : string -> bool.
Variable data_legivel : string -> outcome string.

(** The body of [for item in items] up to the row it appends *)
Definition linha_do_item (product target_name base_product_name item : value)
    : outcome value :=
  n1 ← attr_get item "name" VNone;
  n2 ← attr_get item "nameComplete" VNone;
  let sku_name := py_or n1 (py_or n2 base_product_name) in
  let sku_name := match sku_name with
                  | VStr s => if truthy sku_name then VStr (sem_tags s) else sku_name
                  | _ => sku_name
                  end in
  e ← attr_get item "ean" (VStr "N/A");
  let ean0 := if truthy e then e else VStr "N/A" in
  release_date_raw ← attr_get product "releaseDate" VNone;
  release_date ← (if truthy release_date_raw then
                    match release_date_raw with
                    | VStr s => if str_isdigit s
                                then d ← data_legivel s; Ok (VStr d)
                                else Ok (VStr "N/A")
                    | _ => Raise AttributeError
                    end
                  else Ok (VStr "N/A"));
  sellers ← attr_get item "sellers" (VList []);
  ss ← py_iter sellers;
  valid_offer ← oferta_valida ss;
  pr ← precos valid_offer;
  Ok (linha ean0 target_name sku_name (celula_preco (snd (fst pr)))
        (celula_preco (fst (fst pr))) (snd pr) release_date).

Definition anexar (row : value) : M (list value) unit :=
  fun excel_data => (Ok tt, excel_data ++ [row]).

(** The [try] block of one product *)
Definition corpo_do_produto (product : value) : M (list value) unit :=
  target_name ← lift (attr_get product "target_name" (VStr "N/A"));
  n1 ← lift (attr_get product "name" VNone);
  n2 ← lift (attr_get product "productName" (VStr "N/A"));
  let base_product_name := py_or n1 n2 in
  items ← lift (attr_get product "items" (VList []));
  if negb (truthy items) then mret tt else
  its ← lift (py_iter items);
  foldM (fun _ item =>
           row ← lift (linha_do_item product target_name base_product_name item);
           anexar row) its tt.

(** The body of [for product in results]; the rows appended before an
    exception stay in [excel_data]. *)
Definition linhas_do_resultado (product : value) : M (list value) unit :=
  nf ← lift (attr_get product "is_not_found" VNone);
  if truthy nf then
    e ← lift (attr_get product "ean" (VStr "N/A"));
    anexar (linha e (VStr "NÃO ENCONTRADO") (VStr "") (VStr "") (VStr "") (VStr "")
              (VStr ""))
  else fun excel_data =>
    match corpo_do_produto product excel_data with
    | (Raise IndexError, rows) | (Raise KeyError, rows) | (Raise TypeError, rows) =>
        (Ok tt, rows)
    | r => r
    end.

(** [excel_data] when the loop of [create_excel_report] ends *)
Definition excel_data (results : list value) : outcome (list value) :=
  match foldM (fun _ product => linhas_do_resultado product) results tt [] with
  | (Ok _, rows) => Ok rows
  | (Raise e, _) => Raise e
  end.

End Relatorio.

(** The price a cell of the report shows: ["sem preco"] stands for
    zero, a number for itself, and a number is never zero. *)
Definition preco_da_celula (v : value) : option float :=
  match v with
  | VStr s => if String.eqb s "sem preco" then Some 0%float else None
  | VNum x => if PrimFloat.eqb x 0 then None else Some x
  | _ => None
  end.

(** The row of a code that was not found *)
Definition linha_nao_encontrado (e : value) : value :=
  linha e (VStr "NÃO ENCONTRADO") (VStr "") (VStr "") (VStr "") (VStr "") (VStr "").

(** What every row of the report is: the row of a code not found, or
    the row of a SKU, whose code is never falsy, whose prices are
    ["sem preco"] or a number other than zero, the original one never
    below the offer, and whose date is a string. *)
Definition linha_bem_formada (row : value) : Prop :=
  (exists e, row = linha_nao_encontrado e) \/
  (exists ean0 categoria nome original oferta tipo validade xo xf,
     row = linha ean0 categoria nome original oferta tipo (VStr validade) /\
     truthy ean0 = true /\
     preco_da_celula original = Some xo /\
     preco_da_celula oferta = Some xf /\
     PrimFloat.ltb xo xf = false).

(** [re.sub(r'<.*?>', '', s)] read from the right: the text without
    its tags, and the text that follows the first ['>'] of the line
    without its tags, when the line has one. *)
Fixpoint tags_aux (s : string) : string * option string :=
  match s with
  | EmptyString => (EmptyString, None)
  | String c s' =>
      let r := fst (tags_aux s') in
      let f := snd (tags_aux s') in
      (if Ascii.eqb c "<"
       then match f with Some x => x | None => String c r end
       else String c r,
       if Ascii.eqb c ">" then Some r
       else if Ascii.eqb c "010" then None else f)
  end.

Definition tira_tags (s : string) : string := fst (tags_aux s).

(** A stand-in for the conversion of a date, for concrete inputs. *)
Definition data_crua (s : string) : outcome string := Ok s.

(** A detailed product with one SKU, a name with tags, a seller without
    offer before the seller with the price, and a list price below it. *)
Definition vendedor_sem_oferta : value := VDict ∅.

Definition vendedor_com_oferta : value :=
  VDict (<["commertialOffer" :=
            VDict (<["price" := VNum 12.5]> (<["listPrice" := VNum 10]> ∅))]> ∅).

Definition vendedor_mais_barato : value :=
  VDict (<["commertialOffer" := VDict (<["price" := VNum 9.9]> ∅)]> ∅).

Definition sku_relatorio : gmap string value :=
  <["name" := VStr "<b>Dipirona</b> 500mg"]> (<["ean" := VStr "7891000000010"]> ∅).

Definition resultado_relatorio : gmap string value :=
  <["productName" := VStr "Dipirona"]>
  (<["target_name" := VStr "Busca EAN: 7891000000010"]>
  (<["releaseDate" := VStr "1700000000000"]>
  (<["items" := VList [VDict (<["sellers" :=
       VList [vendedor_sem_oferta; vendedor_com_oferta; vendedor_mais_barato]]>
       sku_relatorio)]]> ∅))).

(** ** More concrete inputs *)

(** Codes as a user may type them: of 13 characters, of 7 characters
    that are digits outside ASCII, and of 14 characters. *)
Definition codigos_mistos : list string :=
  ["7891000000010"; "١٢٣٤٥٦٧"; "78912345678901"].

(** The term search answers with a summary found under a short code and
    the detail lookup answers with a detailed record. *)
Definition w_detalhe : world :=
  {| proxy := fun _ _ => Ok (VList [VDict resumo_curto]);
     details := fun _ _ => Ok (VDict resultado_detalhado) |}.

(** A summary with its own code, and the record the detail lookup gives
    for it, whose first sub-item carries the code of another product. *)
Definition resumo_27 : gmap string value :=
  <["productId" := VStr "43"]>
  (<["productName" := VStr "Paracetamol 750mg"]>
  (<["items" := VList [VDict (<["ean" := VStr "7891000000027"]> ∅)]]> ∅)).

Definition detalhe_cruzado : gmap string value :=
  <["productName" := VStr "Paracetamol 750mg"]>
  (<["items" := VList [VDict (<["ean" := VStr "7891000000010"]>
       (<["sellers" := VList [VDict (<["commertialOffer" :=
            VDict (<["Price" := VNum 2.5]> ∅)]> ∅)]]> ∅))]]> ∅).

(** A record with its own code, as the detail lookup gives it. *)
Definition resultado_27 : gmap string value :=
  <["productName" := VStr "Paracetamol 750mg"]>
  (<["items" := VList [VDict (<["ean" := VStr "7891000000027"]>
       (<["sellers" := VList [VDict (<["commertialOffer" :=
            VDict (<["Price" := VNum 2.5]> ∅)]> ∅)]]> ∅))]]> ∅).

(** The bulk search answers with the summary matched through an image
    and the summary above; the detail lookup fails for the first and
    gives the crossed record for the second. *)
Definition w_cruzado : world :=
  {| proxy := fun _ _ => Ok (VList [VDict resumo_via_imagem; VDict resumo_27]);
     details := fun _ product_id =>
       if py_eq_str product_id "43" then Ok (VDict detalhe_cruzado) else Ok VNone |}.

Definition produto_27 : produto := novo_produto "7891000000027".
(** * Properties *)

(** ** Extraction *)

(** C10: [extrair_preco_e_nome] applied to a record marked as not found
    ([is_not_found] truthy) returns [(None, None)]; it raises nothing. *)
Theorem extrair_nao_encontrado (d : gmap string value) :
  truthy (default VNone (d !! "is_not_found")) = true ->
  extrair_preco_e_nome (VDict d) = Ok (None, VNone).
Proof.
  intros H. unfold extrair_preco_e_nome, extrair_corpo. cbn. rewrite H. reflexivity.
Qed.

Lemma extrair_nao_encontrado_witness :
  extrair_preco_e_nome (nao_encontrado "7891234567890") = Ok (None, VNone).
Proof. apply extrair_nao_encontrado. reflexivity. Defined.

Ltac caso_campo H :=
  destruct H as [H | [H | [? H]]]; rewrite ?H.

(** C7: the price is read from ['price'], then ['Price']; when that is
    zero or absent, from ['listPrice'], then ['ListPrice']; it is returned,
    rounded to two decimals, only when strictly positive, and the result
    is [(None, name)] otherwise.  Each of the four fields holds a number,
    [null] or nothing. *)
Theorem extrair_preco_da_oferta (r oferta : gmap string value) :
  truthy (default VNone (r !! "is_not_found")) = false ->
  oferta_de r = Some oferta ->
  campo_numerico oferta "price" -> campo_numerico oferta "Price" ->
  campo_numerico oferta "listPrice" -> campo_numerico oferta "ListPrice" ->
  extrair_preco_e_nome (VDict r) = Ok (preco_valido (preco_lido oferta), nome_de r).
Proof.
  intros Hnf Hof H1 H2 H3 H4.
  unfold extrair_preco_e_nome, extrair_corpo, oferta_de, nome_de in *.
  cbn [attr_get mbind outcome_bind]. rewrite Hnf.
  destruct (r !! "items") as [[| | | |[|[| | | | |item] ?]|]|]; try discriminate.
  cbn in Hof |- *.
  destruct (item !! "sellers") as [[| | | |[|[| | | | |seller] ?]|]|]; try discriminate.
  cbn in Hof |- *.
  destruct (seller !! "commertialOffer") as [[| | | | |o]|]; try discriminate.
  injection Hof as ->. cbn [default truthy negb]. unfold id. cbn [truthy].
  destruct (Nat.eqb (size oferta) 0) eqn:E; cbn [negb].
  - apply Nat.eqb_eq, map_size_empty_iff in E. subst. reflexivity.
  - cbn [attr_get mbind outcome_bind]. unfold preco_lido, preco_valido, lido, py_or.
    caso_campo H1; caso_campo H2; caso_campo H3; caso_campo H4;
      cbn [default id truthy is_none orb negb py_eq_zero as_num mbind outcome_bind];
      repeat match goal with
             | |- context [PrimFloat.eqb ?x 0] =>
                 destruct (PrimFloat.eqb x 0) eqn:?;
                 cbn [default id truthy is_none orb negb py_eq_zero as_num mbind outcome_bind]
             end;
      try reflexivity.
    all: repeat match goal with
             | |- context [PrimFloat.ltb 0 ?x] => destruct (PrimFloat.ltb 0 x) eqn:?
             end; try reflexivity; try congruence.
Qed.

(** The scenario of the specification: [price = 0] and
    [listPrice = 15.90] give the price [15.9]. *)
Lemma extrair_preco_da_oferta_witness :
  extrair_preco_e_nome (VDict resultado_exemplo) = Ok (Some 15.9%float, VStr "Dipirona 500mg").
Proof.
  apply (extrair_preco_da_oferta resultado_exemplo oferta_exemplo).
  - reflexivity.
  - reflexivity.
  - right; right; eexists; reflexivity.
  - left; reflexivity.
  - right; right; eexists; reflexivity.
  - left; reflexivity.
Defined.

(** A price came out only of a dict that is not marked as not found. *)
Lemma extrair_com_preco (v : value) (x : float) (nome : value) :
  extrair_preco_e_nome v = Ok (Some x, nome) ->
  exists d, v = VDict d /\
            truthy (default VNone (d !! "is_not_found")) = false /\
            truthy v = true.
Proof.
  intros H. destruct v as [| | | | |d]; try discriminate H.
  exists d. split; [done|].
  unfold extrair_preco_e_nome, extrair_corpo in H. cbn [attr_get mbind outcome_bind] in H.
  destruct (truthy (default VNone (d !! "is_not_found"))) eqn:Hnf; [discriminate H|].
  split; [done|].
  cbn [truthy]. destruct (Nat.eqb (size d) 0) eqn:E; [|done].
  apply Nat.eqb_eq, map_size_empty_iff in E. subst d.
  rewrite !lookup_empty in H. discriminate H.
Qed.

(** ** Variation *)

(** C2 (amended): with a previous price that is a number other than zero,
    the variation is [round(((new - old) / old) * 100, 2)]; from 100.00
    to 110.00 it is 10.0, from 100.00 to 90.00 it is -10.0. *)
Theorem calcular_variacao_formula :
  (forall novo anterior : float,
      PrimFloat.eqb anterior 0 = false ->
      calcular_variacao novo (VNum anterior)
      = Ok (py_round2 (((novo - anterior) / anterior) * 100)%float)) /\
  calcular_variacao 110 (VNum 100) = Ok 10%float /\
  calcular_variacao 90 (VNum 100) = Ok (-10)%float.
Proof.
  split; [|split; reflexivity].
  intros novo anterior H. unfold calcular_variacao, py_eq_zero. cbn [is_none as_num orb].
  rewrite H. reflexivity.
Qed.

Lemma calcular_variacao_formula_witness :
  calcular_variacao 15.9 (VNum 12.5) = Ok 27.2%float.
Proof. exact (proj1 calcular_variacao_formula 15.9%float 12.5%float eq_refl). Defined.

(** C2 as stated fails: from 100.00 to 110.00 the variation is not 11.0. *)
Lemma calcular_variacao_nao_11 :
  calcular_variacao 110 (VNum 100) <> Ok 11%float.
Proof.
  intros H.
  apply (f_equal (fun o => match o with Ok x => PrimFloat.eqb x 11 | Raise _ => false end)) in H.
  vm_compute in H. discriminate.
Qed.

(** ** History *)

(** Appending succeeds on a product with no history or with a list, and
    writes no other field. *)
Lemma adicionar_ao_historico_frame (c : gmap string value) (preco : float) (data : string) :
  (c !! "historico" = None \/ exists h, c !! "historico" = Some (VList h)) ->
  exists c', adicionar_ao_historico c preco data = Ok c' /\
             forall k, k <> "historico" -> c' !! k = c !! k.
Proof.
  intros H. unfold adicionar_ao_historico.
  destruct H as [H | [h H]]; rewrite H.
  - rewrite lookup_insert_eq.
    destruct (Nat.ltb _ _); eexists; (split; [reflexivity|]);
      intros k Hk; by rewrite !lookup_insert_ne.
  - rewrite H.
    destruct (Nat.ltb _ _); eexists; (split; [reflexivity|]);
      intros k Hk; by rewrite !lookup_insert_ne.
Qed.

(** C8: a point is always appended at the end; when the length then
    exceeds 30 the oldest points are dropped from the front, which leaves
    exactly the last 30 in their order; the length never exceeds 30 and
    nothing is deduplicated.  The product has no history yet or a list. *)
Theorem adicionar_ao_historico_janela (c : gmap string value) (preco : float) (data : string) :
  (c !! "historico" = None \/ exists h, c !! "historico" = Some (VList h)) ->
  exists c',
    adicionar_ao_historico c preco data = Ok c' /\
    c' !! "historico" = Some (VList (historico_de c')) /\
    historico_de c'
    = drop (length (historico_de c) + 1 - 30) (historico_de c ++ [novo_ponto data preco]) /\
    length (historico_de c') = Nat.min (length (historico_de c) + 1) 30 /\
    last (historico_de c') = Some (novo_ponto data preco) /\
    forall k, k <> "historico" -> c' !! k = c !! k.
Proof.
  intros H. unfold adicionar_ao_historico.
  set (c1 := match c !! "historico" with None => _ | Some _ => c end).
  assert (Hc1 : c1 !! "historico" = Some (VList (historico_de c)) /\
                forall k, k <> "historico" -> c1 !! k = c !! k).
  { unfold c1, historico_de. destruct H as [H | [h H]]; rewrite H.
    - split; [apply lookup_insert_eq | intros; by apply lookup_insert_ne].
    - by split. }
  destruct Hc1 as [Hh Hk]. rewrite Hh. clearbody c1.
  set (h := historico_de c) in *. set (pt := novo_ponto data preco).
  assert (Hlen : length (h ++ [pt]) = length h + 1) by (rewrite length_app; reflexivity).
  assert (Hd : forall l, (<["historico" := VList l]> c1 : gmap string value) !! "historico"
                         = Some (VList l))
    by (intros; apply lookup_insert_eq).
  unfold ultimos, MAX_HISTORICO. rewrite Hlen.
  destruct (Nat.ltb 30 (length h + 1)) eqn:E; eexists; (split; [reflexivity|]);
    unfold historico_de at 1 2 3 4; rewrite !Hd.
  - apply Nat.ltb_lt in E. repeat split.
    + rewrite length_drop, Hlen. lia.
    + rewrite drop_app_le by lia. apply last_snoc.
    + intros k Hne. rewrite lookup_insert_ne by done. by apply Hk.
  - apply Nat.ltb_ge in E. replace (length h + 1 - 30) with 0 by lia. rewrite drop_0.
    repeat split.
    + rewrite Hlen. lia.
    + apply last_snoc.
    + intros k Hne. rewrite lookup_insert_ne by done. by apply Hk.
Qed.

(** A 31st point on a history of 30: the oldest point goes, 30 remain. *)
Lemma adicionar_ao_historico_janela_witness :
  exists c',
    adicionar_ao_historico (<["historico" := VList historico_cheio]> ∅) 15.9
      "2026-01-02T08:00:00-03:00" = Ok c' /\
    historico_de c'
    = drop 1 historico_cheio ++ [novo_ponto "2026-01-02T08:00:00-03:00" 15.9] /\
    length (historico_de c') = 30.
Proof.
  destruct (adicionar_ao_historico_janela (<["historico" := VList historico_cheio]> ∅) 15.9
              "2026-01-02T08:00:00-03:00") as (c' & H1 & _ & H2 & H3 & _).
  - right. eexists. reflexivity.
  - exists c'. split; [exact H1|]. split; [exact H2 | exact H3].
Defined.

(** ** The resolver *)

Lemma app_trace {A} (tr : list A) (x y : A) : (tr ++ [x]) ++ [y] = tr ++ [x; y].
Proof. by rewrite <- app_assoc. Qed.

Lemma filter_nenhum (P : string -> Prop) `{!forall x, Decision (P x)} (eans : list string) :
  Forall (fun e => ~ P e) eans -> filter P eans = [].
Proof.
  induction 1 as [|e l He _ IH]; [done|].
  by rewrite filter_cons_False.
Qed.

Lemma filter_todos (P : string -> Prop) `{!forall x, Decision (P x)} (eans : list string) :
  Forall P eans -> filter P eans = eans.
Proof.
  induction 1 as [|e l He _ IH]; [done|].
  rewrite filter_cons_True by done. by rewrite IH.
Qed.

(** C1: a code of 14 characters is in neither part of the input: no
    request is made for it and the result holds no record for it. *)
Theorem scrape_by_eans_codigo_longo (w : world) (tr : list event) :
  scrape_by_eans w ["78912345678901"] tr = (Ok [], tr).
Proof. reflexivity. Qed.

(** The same for any list of codes longer than 13. *)
Lemma scrape_by_eans_codigos_longos (w : world) (eans : list string) (tr : list event) :
  Forall (fun e => 13 < py_len e) eans ->
  scrape_by_eans w eans tr = (Ok [], tr).
Proof.
  intros H. unfold scrape_by_eans.
  rewrite !filter_nenhum; [done| |]; eapply Forall_impl; eauto; cbn; lia.
Qed.

(** Codes shorter than 13 go to the individual search and nowhere else. *)
Lemma scrape_by_eans_codigos_curtos (w : world) (eans : list string) (tr : list event) :
  Forall (fun e => py_len e < 13) eans ->
  scrape_by_eans w eans tr = process_short_codes_individually w eans tr.
Proof.
  intros H. unfold scrape_by_eans.
  rewrite (filter_nenhum (fun e => py_len e = 13))
    by (eapply Forall_impl; eauto; cbn; lia).
  rewrite filter_todos by done.
  unfold mbind, M_bind, mret, M_ret. destruct eans as [|e eans]; [done|].
  by destruct (process_short_codes_individually w (e :: eans) tr) as [[?|?] ?].
Qed.

(** C5: when the bulk request of a batch returns [None], every code of
    the batch is marked as not found at once, the only calls made for
    the batch are that request and the pause (no individual search, no
    detail lookup), and the loop goes on with the remaining batches. *)
Theorem lote_com_falha_de_transporte (w : world) (batch : list string)
    (rest : list (list string)) (all_results : list value) (tr : list event) :
  proxy w tr (String.concat ", " batch) = Ok VNone ->
  process_batch w all_results batch tr
  = (Ok (all_results ++ (nao_encontrado <$> batch)),
     tr ++ [EProxy (String.concat ", " batch); ESleep 10]) /\
  foldM (process_batch w) (batch :: rest) all_results tr
  = foldM (process_batch w) rest (all_results ++ (nao_encontrado <$> batch))
      (tr ++ [EProxy (String.concat ", " batch); ESleep 10]) /\
  forall code, code ∈ batch ->
    attr_get (nao_encontrado code) "is_not_found" VNone = Ok (VBool true) /\
    attr_get (nao_encontrado code) "ean" VNone = Ok (VStr code).
Proof.
  intros H.
  assert (Hb : process_batch w all_results batch tr
               = (Ok (all_results ++ (nao_encontrado <$> batch)),
                  tr ++ [EProxy (String.concat ", " batch); ESleep 10])).
  { unfold process_batch, fazer_requisicao_api_proxy, sleep, mbind, M_bind, mret, M_ret.
    rewrite H. cbn [is_none]. by rewrite app_trace. }
  split; [exact Hb|]. split.
  - cbn [foldM]. unfold mbind at 1, M_bind at 1. by rewrite Hb.
  - intros code _. split; reflexivity.
Qed.

(** The scenario of the specification: a batch of 10 codes whose bulk
    request fails. *)
Lemma lote_com_falha_de_transporte_witness :
  process_eans_in_batch w0 dez_codigos []
  = (Ok (nao_encontrado <$> dez_codigos),
     [EProxy (String.concat ", " dez_codigos); ESleep 10]).
Proof.
  exact (proj1 (proj2 (lote_com_falha_de_transporte w0 dez_codigos [] [] [] eq_refl))).
Defined.

(** *** Enrichment *)

(** The enricher adds nothing for a summary without identifier, and
    makes no call for it. *)
Lemma enrich_sem_id (w : world) (d : gmap string value) (target_name : string)
    (tr : list event) :
  truthy (default VNone (d !! "productId")) = false ->
  enrich_product_summaries w [VDict d] target_name tr = (Ok [], tr).
Proof.
  intros Hid. unfold enrich_product_summaries. cbn [foldM].
  unfold enrich_um, mbind, M_bind, lift, mret, M_ret.
  cbn [attr_get]. by rewrite Hid.
Qed.

(** The enricher adds nothing either when the detail lookup gives no
    record. *)
Lemma enrich_sem_detalhes (w : world) (d : gmap string value) (target_name : string)
    (tr : list event) :
  let product_id := default VNone (d !! "productId") in
  truthy product_id = true ->
  (exists v, details w tr product_id = Ok v /\ truthy v = false) ->
  enrich_product_summaries w [VDict d] target_name tr
  = (Ok [], tr ++ [EDetail product_id; ESleep 1]).
Proof.
  intros product_id Hid (v & Hv & Hf).
  unfold enrich_product_summaries. cbn [foldM].
  unfold enrich_um, mbind, M_bind, lift, fetch_product_details, sleep, mret, M_ret.
  cbn [attr_get]. fold product_id. rewrite Hid. cbn [negb]. rewrite Hv, Hf.
  by rewrite app_trace.
Qed.

(** The batch loop then keeps the summary itself, labelled. *)
Lemma batch_um_sem_detalhes (w : world) (found_products_map : gmap string nat)
    (st : batch_state) (code : string) (i : nat) (d : gmap string value) (tr : list event) :
  found_products_map !! code = Some i ->
  store st !! i = Some (VDict d) ->
  let product_id := default VNone (d !! "productId") in
  truthy product_id = true ->
  (exists v, details w tr product_id = Ok v /\ truthy v = false) ->
  batch_um w found_products_map st code tr
  = (Ok {| store := <[i := VDict (<["target_name" := VStr (label_ean code)]> d)]> (store st);
           results := results st ++ [Shared i];
           eans_not_found_in_batch := eans_not_found_in_batch st |},
     tr ++ [EDetail product_id; ESleep 1]).
Proof.
  intros Hm Hs product_id Hid Hdet.
  unfold batch_um. rewrite Hm, Hs.
  unfold mbind at 1, M_bind at 1, lift at 1. cbn [attr_get]. fold product_id. rewrite Hid.
  unfold mbind at 1, M_bind at 1.
  rewrite (enrich_sem_detalhes w d (label_ean code) tr Hid Hdet). reflexivity.
Qed.

(** A summary without identifier is not kept: its code is queued for the
    individual search. *)
Lemma batch_um_sem_id (w : world) (found_products_map : gmap string nat)
    (st : batch_state) (code : string) (i : nat) (d : gmap string value) (tr : list event) :
  found_products_map !! code = Some i ->
  store st !! i = Some (VDict d) ->
  truthy (default VNone (d !! "productId")) = false ->
  batch_um w found_products_map st code tr
  = (Ok {| store := store st;
           results := results st;
           eans_not_found_in_batch := eans_not_found_in_batch st ++ [code] |}, tr).
Proof.
  intros Hm Hs Hid. unfold batch_um. rewrite Hm, Hs.
  unfold mbind at 1, M_bind at 1, lift at 1. cbn [attr_get]. by rewrite Hid.
Qed.

(** C3 as stated fails.  The enricher returns nothing for a summary
    without identifier, and nothing when the detail lookup fails; with
    no identifier the batch path returns what the individual search
    gives, here a not-found mark; on the individual path a failed detail
    lookup gives a not-found mark as well. *)
Lemma enriquecimento_descarta_resumo :
  enrich_product_summaries w0 [VDict resumo_sem_id] (label_ean "7891000000010") []
  = (Ok [], []) /\
  enrich_product_summaries w0 [VDict resumo_com_id] (label_ean "7891000000010") []
  = (Ok [], [EDetail (VStr "42"); ESleep 1]) /\
  process_eans_in_batch (w_pagina [VDict resumo_sem_id]) ["7891000000010"] []
  = (Ok [nao_encontrado "7891000000010"],
     [EProxy "7891000000010"; EProxy "7891000000010"; EDetail VNone; ESleep 10; ESleep 10]) /\
  process_short_codes_individually (w_pagina [VDict resumo_curto]) ["123"] []
  = (Ok [nao_encontrado "123"], [EProxy "123"; EDetail (VStr "42"); ESleep 10]).
Proof. repeat split; vm_compute; reflexivity. Qed.

(** C3 (amended): on the batch path, for a code mapped to a summary of
    the page: when the summary has an identifier and the detail lookup
    gives no record, the enricher returns nothing and the loop adds the
    summary itself to the results, unchanged but for ['target_name'],
    which is set to the label of the search; when the summary has no
    identifier, the enricher returns nothing, the summary is not added
    and the code is queued for the individual search. *)
Theorem lote_resumo_sem_detalhes (w : world) (found_products_map : gmap string nat)
    (st : batch_state) (code : string) (i : nat) (d : gmap string value) (tr : list event) :
  found_products_map !! code = Some i ->
  store st !! i = Some (VDict d) ->
  let product_id := default VNone (d !! "productId") in
  let kept := VDict (<["target_name" := VStr (label_ean code)]> d) in
  (truthy product_id = true ->
   (exists v, details w tr product_id = Ok v /\ truthy v = false) ->
   let st' := {| store := <[i := kept]> (store st);
                 results := results st ++ [Shared i];
                 eans_not_found_in_batch := eans_not_found_in_batch st |} in
   batch_um w found_products_map st code tr
   = (Ok st', tr ++ [EDetail product_id; ESleep 1]) /\
   resolve (store st') (Shared i) = kept /\
   enrich_product_summaries w [VDict d] (label_ean code) tr
   = (Ok [], tr ++ [EDetail product_id; ESleep 1])) /\
  (truthy product_id = false ->
   batch_um w found_products_map st code tr
   = (Ok {| store := store st;
            results := results st;
            eans_not_found_in_batch := eans_not_found_in_batch st ++ [code] |}, tr) /\
   enrich_product_summaries w [VDict d] (label_ean code) tr = (Ok [], tr)).
Proof.
  intros Hm Hs product_id kept. split.
  - intros Hid Hdet st'. split; [|split].
    + by apply batch_um_sem_detalhes.
    + cbn [resolve store st']. rewrite list_lookup_insert_eq; [done|].
      by eapply lookup_lt_Some.
    + by apply enrich_sem_detalhes.
  - intros Hid. split.
    + by eapply batch_um_sem_id.
    + by apply enrich_sem_id.
Qed.

Lemma lote_resumo_sem_detalhes_witness :
  batch_um w0 {["7891000000010" := 0]}
    {| store := [VDict resumo_com_id]; results := []; eans_not_found_in_batch := [] |}
    "7891000000010" []
  = (Ok {| store := [VDict (<["target_name" := VStr "Busca EAN: 7891000000010"]> resumo_com_id)];
           results := [Shared 0];
           eans_not_found_in_batch := [] |},
     [EDetail (VStr "42"); ESleep 1]).
Proof.
  refine (proj1 (proj1 (lote_resumo_sem_detalhes w0 {["7891000000010" := 0]}
            {| store := [VDict resumo_com_id]; results := []; eans_not_found_in_batch := [] |}
            "7891000000010" 0 resumo_com_id [] _ _) _ _)).
  - reflexivity.
  - reflexivity.
  - reflexivity.
  - exists VNone. split; reflexivity.
Defined.

(** A batch of one code, from the bulk request to the record returned. *)
Lemma lote_unitario_resumo (w : world) (all_results products : list value) (code : string)
    (m : gmap string nat) (i : nat) (d : gmap string value) (tr : list event) :
  proxy w tr code = Ok (VList products) ->
  map_products [code] 0 products ∅ = Ok m ->
  m !! code = Some i ->
  products !! i = Some (VDict d) ->
  truthy (default VNone (d !! "productId")) = true ->
  (exists v, details w (tr ++ [EProxy code]) (default VNone (d !! "productId")) = Ok v /\
             truthy v = false) ->
  process_batch w all_results [code] tr
  = (Ok (all_results ++ [VDict (<["target_name" := VStr (label_ean code)]> d)]),
     tr ++ [EProxy code; EDetail (default VNone (d !! "productId")); ESleep 1; ESleep 10]).
Proof.
  intros Hp Hmap Hm Hs Hid Hdet.
  unfold process_batch. cbn [String.concat].
  unfold mbind at 1, M_bind at 1, fazer_requisicao_api_proxy at 1. rewrite Hp. cbn [is_none].
  unfold mbind at 1, M_bind at 1, lift at 1. cbn [py_iter].
  unfold mbind at 1, M_bind at 1, lift at 1. rewrite Hmap.
  cbn [foldM].
  pose proof (batch_um_sem_detalhes w m
    {| store := products; results := []; eans_not_found_in_batch := [] |}
    code i d (tr ++ [EProxy code]) Hm Hs Hid Hdet) as Hstep.
  unfold mbind at 1, M_bind at 1. unfold mbind at 1, M_bind at 1.
  rewrite Hstep. cbn [mret M_ret eans_not_found_in_batch results store].
  unfold mbind, M_bind, sleep, mret, M_ret.
  cbn [app fmap list_fmap resolve].
  rewrite list_lookup_insert_eq by (by eapply lookup_lt_Some).
  cbn [default]. rewrite <- !app_assoc. reflexivity.
Qed.

(** One product object mapped to two codes of a batch: both records of
    the result are that object, and carry the label written last. *)
Lemma lote_resumo_compartilhado :
  fst (process_eans_in_batch (w_pagina [VDict resumo_dois_skus])
         ["7891000000010"; "7891000000027"] [])
  = Ok [VDict (<["target_name" := VStr "Busca EAN: 7891000000027"]> resumo_dois_skus);
        VDict (<["target_name" := VStr "Busca EAN: 7891000000027"]> resumo_dois_skus)].
Proof. vm_compute. reflexivity. Qed.

(** ** The update run *)

Lemma mapM_marcar (relogio : nat -> string) (status : string) (l : list produto) (n : nat) :
  mapM (marcar relogio status) l n
  = (Ok (imap (fun i p => marcado status (relogio (n + i)) p) l), n + length l).
Proof.
  revert n. induction l as [|p l IH]; intros n.
  - cbn. unfold mret, M_ret. by rewrite Nat.add_0_r.
  - cbn [mapM imap length]. unfold mbind at 1, M_bind at 1.
    unfold marcar at 1, agora, mbind at 1, M_bind at 1, mret at 1, M_ret at 1.
    unfold mbind at 1, M_bind at 1. rewrite IH.
    unfold mret, M_ret. rewrite Nat.add_0_r. f_equal; [|lia].
    f_equal. f_equal. apply imap_ext. intros i x _. cbn. unfold marcado. do 4 f_equal. lia.
Qed.

(** C9: when the call of the resolver raises, every tracked product gets
    the status ['Erro'] and the reading of the clock taken for it, the
    list is saved, and every other field of every product (name, current
    and previous price, variation, history) is as it was. *)
Theorem falha_ao_chamar_o_scraper (relogio : nat -> string) (w : world)
    (produtos : list produto) (e : exn) :
  produtos <> [] ->
  fst (scrape_by_eans w (ean <$> produtos) []) = Raise e ->
  exists salvos,
    atualizar_produtos relogio w produtos = Ok (Some salvos) /\
    length salvos = length produtos /\
    forall i p, produtos !! i = Some p ->
      exists p', salvos !! i = Some p' /\
        ean p' = ean p /\
        campos p' !! "status" = Some (VStr "Erro") /\
        campos p' !! "ultima_verificacao" = Some (VStr (relogio i)) /\
        forall k, k <> "status" -> k <> "ultima_verificacao" ->
                  campos p' !! k = campos p !! k.
Proof.
  intros Hne Hraise. unfold atualizar_produtos.
  destruct produtos as [|p0 ps]; [done|].
  destruct (scrape_by_eans w (ean <$> p0 :: ps) []) as [[rs|e'] tr']; [discriminate|].
  rewrite mapM_marcar. cbn [fst mbind outcome_bind].
  eexists. split; [reflexivity|]. split; [by rewrite length_imap|].
  intros i p Hp. exists (marcado "Erro" (relogio i) p).
  rewrite list_lookup_imap, Hp. cbn [fmap option_fmap option_map marcado ean campos].
  repeat split.
  - rewrite lookup_insert_ne by done. apply lookup_insert_eq.
  - apply lookup_insert_eq.
  - intros k H1 H2. by rewrite !lookup_insert_ne.
Qed.

Lemma falha_ao_chamar_o_scraper_witness :
  exists salvos,
    atualizar_produtos relogio_exemplo w_erro [produto_exemplo] = Ok (Some salvos) /\
    length salvos = 1 /\
    forall i p, [produto_exemplo] !! i = Some p ->
      exists p', salvos !! i = Some p' /\
        ean p' = ean p /\
        campos p' !! "status" = Some (VStr "Erro") /\
        campos p' !! "ultima_verificacao" = Some (VStr (relogio_exemplo i)) /\
        forall k, k <> "status" -> k <> "ultima_verificacao" ->
                  campos p' !! k = campos p !! k.
Proof.
  apply (falha_ao_chamar_o_scraper relogio_exemplo w_erro [produto_exemplo] OtherError).
  - discriminate.
  - reflexivity.
Defined.

(** C6: a product with no current price stored ([preco_atual] absent or
    [null]) whose record gives a price gets that price, the status
    ['Monitorando'], and the variation [None], not [0.0]. *)
Theorem primeira_leitura_sem_variacao (relogio : nat -> string)
    (resultados_por_ean : gmap string value) (p : produto) (resultado : value)
    (preco : float) (nome : value) (n : nat) :
  resultados_por_ean !! ean p = Some resultado ->
  extrair_preco_e_nome resultado = Ok (Some preco, nome) ->
  PrimFloat.eqb preco 0 = false ->
  (campos p !! "preco_atual" = None \/ campos p !! "preco_atual" = Some VNone) ->
  (campos p !! "historico" = None \/ exists h, campos p !! "historico" = Some (VList h)) ->
  exists p',
    atualizar_um relogio resultados_por_ean p n = (Ok p', S (S n)) /\
    ean p' = ean p /\
    campos p' !! "variacao" = Some VNone /\
    campos p' !! "preco_atual" = Some (VNum preco) /\
    campos p' !! "preco_anterior" = Some VNone /\
    campos p' !! "status" = Some (VStr "Monitorando").
Proof.
  intros Hm Hext Hz Hprev Hhist.
  destruct (extrair_com_preco _ _ _ Hext) as (d & -> & Hnf & Htr).
  unfold atualizar_um. rewrite Hm, Htr. cbn [negb].
  unfold mbind at 1, M_bind at 1, lift at 1. cbn [attr_get]. rewrite Hnf.
  unfold mbind at 1, M_bind at 1, lift at 1. rewrite Hext.
  cbn [truthy]. rewrite Hz. cbn [negb].
  set (c1 := if truthy nome then _ else campos p).
  assert (Hc1 : forall k, k <> "nome" -> c1 !! k = campos p !! k).
  { intros k Hk. unfold c1. destruct (truthy nome); [by rewrite lookup_insert_ne|done]. }
  assert (Hant : default VNone (c1 !! "preco_atual") = VNone).
  { rewrite Hc1 by done. by destruct Hprev as [-> | ->]. }
  rewrite Hant. cbn [truthy].
  unfold mbind at 1, M_bind at 1, agora at 1.
  unfold mbind at 1, M_bind at 1, agora at 1.
  set (c3 := <["status" := _]> _).
  destruct (adicionar_ao_historico_frame c3 preco (relogio (S n))) as (c4 & Hc4 & Hfr).
  { unfold c3. rewrite !lookup_insert_ne by done. by rewrite Hc1. }
  unfold mbind at 1, M_bind at 1, lift at 1. rewrite Hc4.
  eexists. split; [reflexivity|]. cbn [ean campos].
  split; [done|]. split; [apply lookup_insert_eq|].
  rewrite !lookup_insert_ne by done. rewrite !Hfr by done. unfold c3.
  repeat split.
  - rewrite !lookup_insert_ne by done. apply lookup_insert_eq.
  - rewrite !lookup_insert_ne by done. apply lookup_insert_eq.
  - apply lookup_insert_eq.
Qed.

Lemma primeira_leitura_sem_variacao_witness :
  exists p',
    atualizar_um relogio_exemplo (<["7891000000010" := VDict resultado_detalhado]> ∅)
      produto_13 0 = (Ok p', 2) /\
    ean p' = "7891000000010" /\
    campos p' !! "variacao" = Some VNone /\
    campos p' !! "preco_atual" = Some (VNum 15.9) /\
    campos p' !! "preco_anterior" = Some VNone /\
    campos p' !! "status" = Some (VStr "Monitorando").
Proof.
  apply (primeira_leitura_sem_variacao relogio_exemplo _ produto_13
           (VDict resultado_detalhado) 15.9%float (VStr "Dipirona 500mg") 0).
  - reflexivity.
  - reflexivity.
  - reflexivity.
  - right. reflexivity.
  - right. eexists. reflexivity.
Defined.

(** *** Joining the results back to the products *)

Lemma primeiro_ean_sem_ean (items : list value) :
  Forall (fun item => exists di, item = VDict di /\
                                 truthy (default VNone (di !! "ean")) = false) items ->
  primeiro_ean items = Ok VNone.
Proof.
  induction 1 as [|item l (di & -> & Hf) _ IH]; [done|].
  cbn [primeiro_ean attr_get mbind outcome_bind]. by rewrite Hf.
Qed.

Lemma chave_sem_ean (r : value) : subitens_sem_ean r -> chave_resultado r = Ok VNone.
Proof.
  intros (d & items & -> & Hnf & Hit & Hall).
  unfold chave_resultado. cbn [attr_get mbind outcome_bind]. rewrite Hnf, Hit.
  cbn [mbind outcome_bind]. by apply primeiro_ean_sem_ean.
Qed.

(** Every entry of [resultados_por_ean] sits under the key computed from
    the record itself. *)
Lemma indexar_lookup (resultados : list value) (m0 m : gmap string value)
    (c : string) (r : value) :
  foldM indexar resultados m0 = Ok m ->
  m !! c = Some r ->
  m0 !! c = Some r \/ (r ∈ resultados /\ chave_resultado r = Ok (VStr c)).
Proof.
  revert m0. induction resultados as [|r0 rs IH]; intros m0 Hf Hl.
  - cbn in Hf. injection Hf as <-. by left.
  - cbn [foldM] in Hf. destruct (indexar m0 r0) as [m1|] eqn:Hi; [|discriminate Hf].
    cbn [mbind outcome_bind] in Hf.
    destruct (IH _ Hf Hl) as [H1 | [Hin Hk]].
    + unfold indexar in Hi.
      destruct (chave_resultado r0) as [k|] eqn:Hk; [|discriminate Hi].
      cbn [mbind outcome_bind] in Hi.
      destruct (truthy k); [|injection Hi as <-; by left].
      destruct k as [| | |s| |]; try discriminate Hi;
        injection Hi as <-; try (by left).
      destruct (decide (s = c)) as [->|Hne].
      * rewrite lookup_insert_eq in H1. injection H1 as <-.
        right. split; [apply list_elem_of_here|done].
      * rewrite lookup_insert_ne in H1 by done. by left.
    + right. split; [by apply list_elem_of_further|done].
Qed.

Lemma indexar_is_Some (m m' : gmap string value) (r : value) (c : string) :
  indexar m r = Ok m' -> is_Some (m !! c) -> is_Some (m' !! c).
Proof.
  unfold indexar. destruct (chave_resultado r) as [k|]; [|discriminate].
  cbn [mbind outcome_bind]. destruct (truthy k); [|by intros [= <-]].
  destruct k as [| | |s| |]; try discriminate; try (by intros [= <-]).
  intros [= <-] H. destruct (decide (s = c)) as [->|Hne].
  - rewrite lookup_insert_eq. by eexists.
  - by rewrite lookup_insert_ne.
Qed.

(** A record whose key is a non-empty string has an entry under that
    key in [resultados_por_ean]. *)
Lemma indexar_presente (resultados : list value) :
  forall (m0 m : gmap string value) (r : value) (c : string),
  foldM indexar resultados m0 = Ok m ->
  is_Some (m0 !! c) \/ (r ∈ resultados /\ chave_resultado r = Ok (VStr c) /\ c <> "") ->
  is_Some (m !! c).
Proof.
  induction resultados as [|r0 rs IH]; intros m0 m r c Hf H.
  - cbn in Hf. injection Hf as <-. destruct H as [H | [H _]]; [done|].
    by apply elem_of_nil in H.
  - cbn [foldM] in Hf. destruct (indexar m0 r0) as [m1|] eqn:Hi; [|discriminate Hf].
    cbn [mbind outcome_bind] in Hf. eapply (IH m1 m r c Hf).
    destruct H as [H | (Hin & Hk & Hc)].
    + left. by eapply indexar_is_Some.
    + apply elem_of_cons in Hin as [-> | Hin]; [|by right].
      left. unfold indexar in Hi. rewrite Hk in Hi. cbn [mbind outcome_bind truthy] in Hi.
      destruct (String.eqb c "") eqn:E; [by apply String.eqb_eq in E|].
      cbn [negb] in Hi. injection Hi as <-. rewrite lookup_insert_eq. by eexists.
Qed.

(** C4 as stated fails.  The bulk search resolves the first code to a
    summary matched through an image, whose sub-items lack a non-empty
    ['ean'], and the second code to a detailed record whose first
    sub-item carries the first code.  The product of the first code is
    joined to that second record: it is saved as monitored, with the
    price of that record, and the product of the second code is the one
    saved as not found. *)
Lemma resultado_sem_ean_monitorado :
  exists r r2 p1 p2,
    fst (scrape_by_eans w_cruzado ["7891000000010"; "7891000000027"] []) = Ok [r; r2] /\
    r = VDict (<["target_name" := VStr (label_ean "7891000000010")]> resumo_via_imagem) /\
    subitens_sem_ean r /\
    atualizar_produtos relogio_exemplo w_cruzado [produto_13; produto_27]
    = Ok (Some [p1; p2]) /\
    ean p1 = "7891000000010" /\
    campos p1 !! "status" = Some (VStr "Monitorando") /\
    campos p1 !! "preco_atual" = Some (VNum 2.5) /\
    ean p2 = "7891000000027" /\
    campos p2 !! "status" = Some (VStr "Não Encontrado") /\
    campos p2 !! "preco_atual" = Some VNone.
Proof.
  eexists _, _, _, _. split; [vm_compute; reflexivity|]. split; [vm_compute; reflexivity|].
  split.
  { eexists _, _. split; [reflexivity|]. split; [reflexivity|]. split; [reflexivity|].
    repeat constructor. eexists. split; reflexivity. }
  split; [vm_compute; reflexivity|].
  repeat split; vm_compute; reflexivity.
Qed.

(** C4 (amended): the index of the results holds a record under the
    ['ean'] of its first sub-item that has a non-empty one, whatever code
    was searched: every entry of the index is a record of the results
    under its own key, and every record with such a key has an entry.  A
    record without the mark of not found whose sub-items all lack a
    non-empty ['ean'] is therefore in the index under no code; when no
    other record of the results has the code of the product as its key,
    the product gets the status ['Não Encontrado'] and the clock
    reading, and none of its other fields is written: name, prices,
    variation and history stay. *)
Theorem resultado_sem_ean_nao_encontrado (relogio : nat -> string)
    (rs1 rs2 : list value) (r : value) (resultados_por_ean : gmap string value)
    (p : produto) (n : nat) :
  subitens_sem_ean r ->
  indexar_resultados (rs1 ++ r :: rs2) = Ok resultados_por_ean ->
  (forall c r', resultados_por_ean !! c = Some r' ->
                r' ∈ rs1 ++ rs2 /\ chave_resultado r' = Ok (VStr c)) /\
  (forall c r', r' ∈ rs1 ++ rs2 -> chave_resultado r' = Ok (VStr c) -> c <> "" ->
                is_Some (resultados_por_ean !! c)) /\
  ((forall r', r' ∈ rs1 ++ rs2 -> chave_resultado r' <> Ok (VStr (ean p))) ->
   resultados_por_ean !! ean p = None /\
   atualizar_um relogio resultados_por_ean p n
   = (Ok (marcado "Não Encontrado" (relogio n) p), S n) /\
   forall k, k <> "status" -> k <> "ultima_verificacao" ->
             campos (marcado "Não Encontrado" (relogio n) p) !! k = campos p !! k).
Proof.
  intros Hr Hidx.
  assert (Hkey : forall c r', resultados_por_ean !! c = Some r' ->
                   r' ∈ rs1 ++ rs2 /\ chave_resultado r' = Ok (VStr c)).
  { intros c r' Hl. destruct (indexar_lookup _ _ _ _ _ Hidx Hl) as [H | [Hin Hk]];
      [by rewrite lookup_empty in H|].
    split; [|done]. apply elem_of_app in Hin as [Hin | Hin].
    - apply elem_of_app. by left.
    - apply elem_of_cons in Hin as [-> | Hin].
      + rewrite (chave_sem_ean _ Hr) in Hk. discriminate Hk.
      + apply elem_of_app. by right. }
  split; [exact Hkey|]. split.
  { intros c r' Hin Hk Hc. eapply (indexar_presente _ _ _ r' c Hidx). right.
    split; [|done]. apply elem_of_app in Hin as [Hin | Hin]; apply elem_of_app;
      [by left|right; by apply list_elem_of_further]. }
  intros Hout.
  assert (Hnone : resultados_por_ean !! ean p = None).
  { destruct (resultados_por_ean !! ean p) as [r'|] eqn:Hl; [|done].
    destruct (Hkey _ _ Hl) as [Hin Hk]. exfalso. by apply (Hout r'). }
  split; [exact Hnone|]. split.
  - unfold atualizar_um. rewrite Hnone. reflexivity.
  - intros k H1 H2. cbn [marcado campos]. by rewrite !lookup_insert_ne.
Qed.

(** A summary matched through the name of an image, kept as the record
    of its code, beside a record with a code of its own: the second is
    in the index under its code, the first is not, and the product of
    the first code is marked as not found. *)
Lemma resultado_sem_ean_nao_encontrado_witness :
  is_Some (({["7891000000027" := VDict resultado_27]} : gmap string value)
             !! "7891000000027") /\
  ({["7891000000027" := VDict resultado_27]} : gmap string value) !! "7891000000010" = None /\
  atualizar_um relogio_exemplo {["7891000000027" := VDict resultado_27]} produto_13 0
  = (Ok (marcado "Não Encontrado" (relogio_exemplo 0) produto_13), 1).
Proof.
  assert (Hr : subitens_sem_ean (VDict resumo_via_imagem)).
  { exists resumo_via_imagem. eexists. split; [reflexivity|].
    split; [reflexivity|]. split; [reflexivity|].
    repeat constructor. eexists. split; reflexivity. }
  destruct (resultado_sem_ean_nao_encontrado relogio_exemplo
              [] [VDict resultado_27] (VDict resumo_via_imagem)
              {["7891000000027" := VDict resultado_27]} produto_13 0 Hr eq_refl)
    as (_ & H2 & H3).
  split.
  { apply (H2 "7891000000027" (VDict resultado_27)).
    - apply list_elem_of_here.
    - reflexivity.
    - discriminate. }
  destruct H3 as (H4 & H5 & _).
  { intros r' Hin. apply list_elem_of_singleton in Hin as ->. vm_compute. discriminate. }
  split; [exact H4|exact H5].
Defined.

(** The whole run on that case: the bulk search answers with a summary
    whose code only shows in the name of an image, the detail lookup
    fails, the resolver returns the summary, and the product is saved as
    not found with its fields as they were. *)
Lemma atualizar_produtos_via_imagem :
  fst (scrape_by_eans (w_pagina [VDict resumo_via_imagem]) ["7891000000010"] [])
  = Ok [VDict (<["target_name" := VStr "Busca EAN: 7891000000010"]> resumo_via_imagem)] /\
  atualizar_produtos relogio_exemplo (w_pagina [VDict resumo_via_imagem]) [produto_13]
  = Ok (Some [marcado "Não Encontrado" (relogio_exemplo 0) produto_13]).
Proof. split; vm_compute; reflexivity. Qed.

(** * Further properties of the resolver *)

(** ** Loops *)

Lemma foldM_outcome_inv {A B : Type} (f : B -> A -> outcome B) (P : B -> Prop)
    (l : list A) (b b' : B) :
  foldM f l b = Ok b' ->
  P b ->
  (forall b0 x b1, x ∈ l -> P b0 -> f b0 x = Ok b1 -> P b1) ->
  P b'.
Proof.
  revert b. induction l as [|x l IH]; intros b Hf Hb Hstep.
  - cbn in Hf. by injection Hf as <-.
  - cbn [foldM] in Hf. destruct (f b x) as [b1|] eqn:Hx; [|discriminate Hf].
    cbn [mbind outcome_bind] in Hf. eapply IH; [exact Hf| |].
    + eapply Hstep; [apply list_elem_of_here|exact Hb|exact Hx].
    + intros b0 y b2 Hy. apply Hstep. by apply list_elem_of_further.
Qed.

Lemma foldM_M_inv {S A B : Type} (f : B -> A -> M S B) (P : B -> S -> Prop)
    (l : list A) (b b' : B) (s s' : S) :
  foldM f l b s = (Ok b', s') ->
  P b s ->
  (forall b0 x s0 b1 s1, x ∈ l -> P b0 s0 -> f b0 x s0 = (Ok b1, s1) -> P b1 s1) ->
  P b' s'.
Proof.
  revert b s. induction l as [|x l IH]; intros b s Hf Hb Hstep.
  - cbn in Hf. unfold mret, M_ret in Hf. by injection Hf as <- <-.
  - cbn [foldM] in Hf. unfold mbind, M_bind in Hf.
    destruct (f b x s) as [[b1|e] s1] eqn:Hx; [|discriminate Hf].
    eapply IH; [exact Hf| |].
    + eapply Hstep; [apply list_elem_of_here|exact Hb|exact Hx].
    + intros b0 y s0 b2 s2 Hy. apply Hstep. by apply list_elem_of_further.
Qed.

(** ** Batches *)

Lemma chunks_aux_spec (fuel : nat) (eans : list string) :
  length eans <= fuel ->
  concat (chunks_aux fuel eans) = eans /\
  Forall (fun batch => 0 < length batch <= BATCH_SIZE) (chunks_aux fuel eans).
Proof.
  revert eans. induction fuel as [|fuel IH]; intros eans Hlen.
  - destruct eans; [by split|cbn in Hlen; lia].
  - destruct eans as [|e eans]; [by split|].
    cbn [chunks_aux].
    destruct (IH (drop BATCH_SIZE (e :: eans))) as [Hc Hf].
    { rewrite length_drop. cbn [length] in *. unfold BATCH_SIZE. lia. }
    split.
    + cbn [concat]. rewrite Hc. apply take_drop.
    + constructor; [|exact Hf].
      rewrite length_take. cbn [length]. unfold BATCH_SIZE. lia.
Qed.

(** X1: the batches of [process_eans_in_batch] are the input list cut in
    order: joined again they give the list, no batch is empty and none
    has more than 48 codes. *)
Theorem chunks_particao (eans : list string) :
  concat (chunks eans) = eans /\
  Forall (fun batch => 0 < length batch <= 48) (chunks eans).
Proof. apply chunks_aux_spec. done. Qed.

(** ** Matching the answer of a bulk search *)

Lemma map_urls_spec (batch : list string) (i : nat) (urls : list value)
    (m m' : gmap string nat) :
  map_urls batch i urls m = Ok m' ->
  (forall c j, m !! c = Some j -> m' !! c = Some j) /\
  (forall c j, m' !! c = Some j ->
     m !! c = Some j \/
     (j = i /\ c ∈ batch /\ exists url, url ∈ urls /\ py_contains c url = Ok true)).
Proof.
  unfold map_urls. intros H.
  eapply (foldM_outcome_inv _ (fun m1 : gmap string nat =>
    (forall c j, m !! c = Some j -> m1 !! c = Some j) /\
    (forall c j, m1 !! c = Some j ->
       m !! c = Some j \/
       (j = i /\ c ∈ batch /\ exists url, url ∈ urls /\ py_contains c url = Ok true))));
    [exact H|by split; auto|].
  clear H m'. intros m0 url m1 Hurl Hm0 Hin.
  eapply (foldM_outcome_inv _ (fun m1 : gmap string nat =>
    (forall c j, m !! c = Some j -> m1 !! c = Some j) /\
    (forall c j, m1 !! c = Some j ->
       m !! c = Some j \/
       (j = i /\ c ∈ batch /\ exists url, url ∈ urls /\ py_contains c url = Ok true))));
    [exact Hin|exact Hm0|].
  clear Hin Hm0 m0 m1. intros m0 e m1 He [Hpres Hnew] Hstep.
  destruct (py_contains e url) as [[|]|] eqn:Hc; cbn [mbind outcome_bind] in Hstep;
    try discriminate Hstep; injection Hstep as <-; [|by split].
  destruct (m0 !! e) eqn:Hl; [by split|]. split.
  - intros c j Hcj. destruct (decide (e = c)) as [->|Hne].
    + apply Hpres in Hcj. congruence.
    + rewrite lookup_insert_ne by done. by apply Hpres.
  - intros c j Hcj. destruct (decide (e = c)) as [->|Hne].
    + rewrite lookup_insert_eq in Hcj. injection Hcj as <-.
      right. split; [done|]. split; [done|]. by exists url.
    + rewrite lookup_insert_ne in Hcj by done. by apply Hnew.
Qed.

Lemma ean_no_lote_Some (e : value) (batch : list string) (s : string) :
  ean_no_lote e batch = Some s -> e = VStr s /\ s ∈ batch.
Proof.
  unfold ean_no_lote. destruct e as [| | |s'| |]; try discriminate.
  destruct (truthy (VStr s')); [|discriminate]. cbn [andb].
  destruct (bool_decide (s' ∈ batch)) eqn:Hb; [|discriminate].
  intros [= <-]. split; [done|]. by apply bool_decide_eq_true in Hb.
Qed.

Lemma map_item_spec (batch : list string) (i : nat) (m m' : gmap string nat) (item : value) :
  map_item batch i m item = Ok m' ->
  forall c j, m' !! c = Some j ->
    m !! c = Some j \/ (j = i /\ c ∈ batch /\ item_mostra_lote c item).
Proof.
  unfold map_item. intros H c j Hcj.
  destruct (attr_get item "ean" VNone) as [e|] eqn:He; [|discriminate H].
  cbn [mbind outcome_bind] in H.
  destruct (ean_no_lote e batch) as [s|] eqn:Hs.
  - injection H as <-. apply ean_no_lote_Some in Hs as [-> Hin].
    destruct (decide (s = c)) as [->|Hne].
    + rewrite lookup_insert_eq in Hcj. injection Hcj as <-.
      right. split; [done|]. split; [done|]. exists (VStr c). split; [done|]. by left.
    + rewrite lookup_insert_ne in Hcj by done. by left.
  - destruct (truthy e) eqn:Ht; cbn [negb] in H.
    + injection H as <-. by left.
    + destruct (image_urls item) as [urls|] eqn:Hu; [|discriminate H].
      cbn [mbind outcome_bind] in H.
      destruct (map_urls_spec _ _ _ _ _ H) as [_ Hnew].
      destruct (Hnew _ _ Hcj) as [Hold | (-> & Hin & url & Hurl & Hc)]; [by left|].
      right. split; [done|]. split; [done|]. exists e. split; [done|].
      right. split; [done|]. by exists urls, url.
Qed.

Lemma map_products_spec (batch : list string) (products : list value) (i : nat)
    (m m' : gmap string nat) :
  map_products batch i products m = Ok m' ->
  forall c j, m' !! c = Some j ->
    m !! c = Some j \/
    (c ∈ batch /\ i <= j /\
     exists p, products !! (j - i) = Some p /\ produto_mostra_lote c p).
Proof.
  revert i m. induction products as [|product rest IH]; intros i m H c j Hcj.
  - cbn in H. injection H as <-. by left.
  - cbn [map_products] in H.
    destruct (attr_get product "items" (VList [])) as [its|] eqn:Hits; [|discriminate H].
    cbn [mbind outcome_bind] in H.
    destruct (py_iter its) as [items|] eqn:Hit; [|discriminate H].
    cbn [mbind outcome_bind] in H.
    destruct (foldM (map_item batch i) items m) as [m1|] eqn:Hf; [|discriminate H].
    cbn [mbind outcome_bind] in H.
    destruct (IH _ _ H _ _ Hcj) as [Hold | (Hin & Hle & p & Hp & Hshow)].
    + clear Hcj. revert c j Hold.
      eapply (foldM_outcome_inv _ (fun m1 : gmap string nat =>
        forall c j, m1 !! c = Some j ->
          m !! c = Some j \/
          (c ∈ batch /\ i <= j /\
           exists p, (product :: rest) !! (j - i) = Some p /\ produto_mostra_lote c p)));
        [exact Hf|by left|].
      intros m0 item m2 Hitem Hm0 Hstep c j Hl.
      destruct (map_item_spec _ _ _ _ _ Hstep _ _ Hl) as [Hold | (-> & Hin & Hshow)];
        [by apply Hm0|].
      right. split; [done|]. split; [done|]. exists product.
      rewrite Nat.sub_diag. split; [done|]. exists items, item.
      split; [by exists its|]. by split.
    + right. split; [done|]. split; [lia|]. exists p. split; [|done].
      replace (j - i) with (S (j - S i)) by lia. done.
Qed.

(** X2: the map built from a bulk answer only holds codes of the batch,
    each under a product of the page one of whose sub-items shows the
    code, by its ['ean'] or, when that is empty, by an image URL. *)
Theorem map_products_fundado (batch : list string) (products : list value)
    (found_products_map : gmap string nat) :
  map_products batch 0 products ∅ = Ok found_products_map ->
  forall c i, found_products_map !! c = Some i ->
    c ∈ batch /\
    exists product, products !! i = Some product /\ produto_mostra_lote c product.
Proof.
  intros H c i Hci.
  destruct (map_products_spec _ _ _ _ _ H _ _ Hci) as [Hold | (Hin & _ & p & Hp & Hs)].
  - by rewrite lookup_empty in Hold.
  - rewrite Nat.sub_0_r in Hp. split; [done|]. by exists p.
Qed.

(** X3: a sub-item whose ['ean'] is not a code of the batch never
    changes an entry of the map: the image fallback only adds codes that
    have no product yet. *)
Theorem map_item_nao_sobrescreve (batch : list string) (i : nat)
    (m m' : gmap string nat) (item e : value) :
  attr_get item "ean" VNone = Ok e ->
  ean_no_lote e batch = None ->
  map_item batch i m item = Ok m' ->
  forall c j, m !! c = Some j -> m' !! c = Some j.
Proof.
  intros He Hn H c j Hcj. unfold map_item in H. rewrite He in H.
  cbn [mbind outcome_bind] in H. rewrite Hn in H.
  destruct (truthy e); cbn [negb] in H.
  - by injection H as <-.
  - destruct (image_urls item) as [urls|]; [|discriminate H].
    cbn [mbind outcome_bind] in H.
    by apply (map_urls_spec _ _ _ _ _ H).
Qed.

(** ** Matching the answer of an individual search *)

Lemma any_url_true (code : string) (urls : list value) :
  any_url code urls = Ok true ->
  exists url, url ∈ urls /\ py_contains code url = Ok true.
Proof.
  induction urls as [|url rest IH]; [discriminate|].
  cbn [any_url]. destruct (py_contains code url) as [[|]|] eqn:Hc;
    cbn [mbind outcome_bind]; try discriminate.
  - intros _. exists url. split; [apply list_elem_of_here|done].
  - intros H. destruct (IH H) as (u & Hu & Hcu). exists u.
    split; [by apply list_elem_of_further|done].
Qed.

Lemma py_eq_str_true (v : value) (code : string) :
  py_eq_str v code = true -> v = VStr code.
Proof.
  destruct v; try discriminate. cbn. intros H. by apply String.eqb_eq in H as ->.
Qed.

Lemma scan_items_spec (code : string) (product : value) (items : list value)
    (found r : value) :
  scan_items code product items found = Ok r ->
  r = found \/ (r = product /\ exists item, item ∈ items /\ item_mostra code item).
Proof.
  revert found. induction items as [|item rest IH]; intros found H.
  - cbn in H. injection H as <-. by left.
  - cbn [scan_items] in H.
    destruct (attr_get item "ean" VNone) as [e|] eqn:He; [|discriminate H].
    cbn [mbind outcome_bind] in H.
    destruct (py_eq_str e code) eqn:Heq.
    { cbn [mbind outcome_bind] in H. injection H as <-. right. split; [done|].
      exists item. split; [apply list_elem_of_here|]. left.
      by apply py_eq_str_true in Heq as ->. }
    destruct (attr_get item "referenceId" VNone) as [ref|] eqn:Href; [|discriminate H].
    cbn [mbind outcome_bind] in H.
    assert (Hdir : forall b, (if truthy ref
                    then r0 ← subscript0 ref; v ← attr_get r0 "Value" VNone;
                         Ok (py_eq_str v code)
                    else Ok false) = Ok b -> b = true ->
                   item_mostra code item).
    { intros b Hb ->. destruct (truthy ref) eqn:Ht; [|discriminate Hb].
      destruct (subscript0 ref) as [r0|] eqn:Hr0; [|discriminate Hb].
      cbn [mbind outcome_bind] in Hb.
      destruct (attr_get r0 "Value" VNone) as [v|] eqn:Hv; [|discriminate Hb].
      cbn [mbind outcome_bind] in Hb. injection Hb as Hb.
      apply py_eq_str_true in Hb as ->. right. left. by exists ref, r0. }
    destruct (if truthy ref then _ else _) as [[|]|] eqn:Hd; [| |discriminate H];
      cbn [mbind outcome_bind] in H.
    { injection H as <-. right. split; [done|]. exists item.
      split; [apply list_elem_of_here|]. by eapply Hdir. }
    destruct (image_urls item) as [urls|] eqn:Hu; [|discriminate H].
    cbn [mbind outcome_bind] in H.
    destruct (any_url code urls) as [[|]|] eqn:Ha; [| |discriminate H];
      cbn [mbind outcome_bind] in H.
    + destruct (IH _ H) as [-> | (-> & it & Hit & Hs)].
      * right. split; [done|]. exists item. split; [apply list_elem_of_here|].
        right. right. destruct (any_url_true _ _ Ha) as (url & Hurl & Hc).
        by exists urls, url.
      * right. split; [done|]. exists it. split; [by apply list_elem_of_further|done].
    + destruct (IH _ H) as [-> | (-> & it & Hit & Hs)]; [by left|].
      right. split; [done|]. exists it. split; [by apply list_elem_of_further|done].
Qed.

Lemma scan_products_spec (code : string) (products : list value) (found r : value) :
  scan_products code products found = Ok r ->
  r = found \/ (r ∈ products /\ produto_mostra code r).
Proof.
  revert found. induction products as [|product rest IH]; intros found H.
  - cbn in H. injection H as <-. by left.
  - cbn [scan_products] in H.
    destruct (attr_get product "items" (VList [])) as [its|] eqn:Hits; [|discriminate H].
    cbn [mbind outcome_bind] in H.
    destruct (py_iter its) as [items|] eqn:Hit; [|discriminate H].
    cbn [mbind outcome_bind] in H.
    destruct (scan_items code product items found) as [f1|] eqn:Hs; [|discriminate H].
    cbn [mbind outcome_bind] in H.
    assert (Hf1 : f1 = found \/ (f1 ∈ product :: rest /\ produto_mostra code f1)).
    { destruct (scan_items_spec _ _ _ _ _ Hs) as [-> | (-> & item & Hitem & Hshow)];
        [by left|].
      right. split; [apply list_elem_of_here|]. exists items, item.
      split; [by exists its|]. by split. }
    destruct (truthy f1).
    + by injection H as <-.
    + destruct (IH _ H) as [-> | [Hin Hshow]]; [exact Hf1|].
      right. split; [by apply list_elem_of_further|done].
Qed.

(** X4: what the individual search finds on a page is [None] or a
    product of that page one of whose sub-items shows the code, by its
    ['ean'], its first reference id or an image URL. *)
Theorem scan_products_fundado (code : string) (products : list value) (found_product : value) :
  scan_products code products VNone = Ok found_product ->
  found_product = VNone \/
  (found_product ∈ products /\ produto_mostra code found_product).
Proof. apply scan_products_spec. Qed.

(** ** One record per code *)

Lemma termos_app (tr1 tr2 : list event) : termos (tr1 ++ tr2) = termos tr1 ++ termos tr2.
Proof. apply omap_app. Qed.

Lemma individual_um_spec (w : world) (acc : list value) (code : string)
    (tr tr' : list event) (rs : list value) :
  individual_um w acc code tr = (Ok rs, tr') ->
  exists r, rs = acc ++ [r] /\ registro_individual w code r /\
    (tr' = tr ++ [EProxy code; ESleep 10] \/
     exists pid, tr' = tr ++ [EProxy code; EDetail pid; ESleep 10]).
Proof.
  unfold individual_um, fazer_requisicao_api_proxy.
  unfold mbind at 1, M_bind at 1.
  destruct (proxy w tr code) as [page|]; [|discriminate].
  destruct (is_none page).
  { unfold mbind, M_bind, sleep, mret, M_ret. intros [= <- <-].
    eexists. split; [done|]. split; [by left|]. left. by rewrite app_trace. }
  unfold mbind at 1, M_bind at 1, lift at 1.
  destruct (py_iter page) as [products|]; [|discriminate].
  unfold mbind at 1, M_bind at 1, lift at 1.
  destruct (scan_products code products VNone) as [found|]; [|discriminate].
  destruct (truthy found).
  - unfold mbind at 1, M_bind at 1. unfold mbind at 1, M_bind at 1, lift at 1.
    destruct (attr_get found "productId" VNone) as [pid|]; [|discriminate].
    unfold mbind at 1, M_bind at 1, fetch_product_details at 1.
    destruct (details w (tr ++ [EProxy code]) pid) as [det|] eqn:Hdet; [|discriminate].
    destruct (truthy det) eqn:Htd.
    + unfold lift at 1. destruct (set_item det "target_name" _) as [r|] eqn:Hset;
        [|discriminate].
      unfold mbind, M_bind, sleep, mret, M_ret. intros [= <- <-].
      exists r. split; [done|]. split.
      * right. destruct det; try discriminate Hset. cbn in Hset. injection Hset as <-.
        eexists _, _, _. split; [exact Hdet|]. split; [exact Htd|reflexivity].
      * right. exists pid. by rewrite <- !app_assoc.
    + unfold mbind, M_bind, sleep, mret, M_ret. intros [= <- <-].
      eexists. split; [done|]. split; [by left|]. right. exists pid.
      by rewrite <- !app_assoc.
  - unfold mbind, M_bind, sleep, mret, M_ret. intros [= <- <-].
    eexists. split; [done|]. split; [by left|]. left. by rewrite app_trace.
Qed.

Lemma process_short_spec (w : world) (codes : list string) (acc rs : list value)
    (tr tr' : list event) :
  foldM (individual_um w) codes acc tr = (Ok rs, tr') ->
  exists rs', rs = acc ++ rs' /\
    Forall2 (registro_individual w) codes rs' /\
    termos tr' = termos tr ++ codes.
Proof.
  revert acc tr. induction codes as [|code codes IH]; intros acc tr H.
  - cbn in H. unfold mret, M_ret in H. injection H as <- <-.
    exists []. by rewrite !app_nil_r.
  - cbn [foldM] in H. unfold mbind, M_bind in H.
    destruct (individual_um w acc code tr) as [[acc1|] tr1] eqn:Hum; [|discriminate H].
    destruct (individual_um_spec _ _ _ _ _ _ Hum) as (r & -> & Hr & Htr).
    destruct (IH _ _ H) as (rs' & -> & Hall & Hterm).
    exists (r :: rs'). split; [by rewrite <- app_assoc|]. split; [by constructor|].
    rewrite Hterm. destruct Htr as [-> | [pid ->]]; rewrite termos_app; cbn;
      by rewrite <- app_assoc.
Qed.

(** X5: when the individual search returns, it returns one record per
    code, in the order of the codes, each the mark of not found for its
    code or the dict that the detail lookup returned, labelled with the
    search of the code (what is returned is made from the answer of the
    lookup, not from the summary that matched), and it made one term
    search per code, with the code as the term. *)
Theorem process_short_codes_um_por_codigo (w : world) (short_codes : list string)
    (tr tr' : list event) (rs : list value) :
  process_short_codes_individually w short_codes tr = (Ok rs, tr') ->
  Forall2 (registro_individual w) short_codes rs /\
  termos tr' = termos tr ++ short_codes.
Proof.
  intros H. destruct (process_short_spec _ _ _ _ _ _ H) as (rs' & -> & H1 & H2).
  by split.
Qed.

Lemma enrich_um_item (w : world) (target_name : string) (summary : value)
    (tr tr' : list event) (es : list value) :
  enrich_product_summaries w [summary] target_name tr = (Ok es, tr') ->
  es = [] \/ exists r, es = [r] /\ registro_detalhado w target_name r.
Proof.
  unfold enrich_product_summaries. cbn [foldM]. unfold enrich_um.
  unfold mbind at 1, M_bind at 1. unfold mbind at 1, M_bind at 1, lift at 1.
  destruct (attr_get summary "productId" VNone) as [pid|]; [|discriminate].
  destruct (truthy pid); cbn [negb].
  2:{ unfold mret, M_ret. intros [= <- <-]. by left. }
  unfold mbind at 1, M_bind at 1, fetch_product_details at 1.
  destruct (details w tr pid) as [det|] eqn:Hdet; [|discriminate].
  destruct (truthy det) eqn:Htd.
  - unfold mbind at 1, M_bind at 1. unfold mbind at 1, M_bind at 1, lift at 1.
    destruct (set_item det "target_name" (VStr target_name)) as [r|] eqn:Hset;
      [|discriminate].
    unfold mbind, M_bind, sleep, mret, M_ret. intros [= <- <-].
    right. destruct det; try discriminate Hset. cbn in Hset. injection Hset as <-.
    eexists. split; [reflexivity|]. eexists _, _, _.
    split; [exact Hdet|]. split; [exact Htd|reflexivity].
  - unfold mbind, M_bind, sleep, mret, M_ret. intros [= <- <-]. by left.
Qed.

Lemma batch_um_spec (w : world) (m : gmap string nat) (st st' : batch_state)
    (code : string) (tr tr' : list event) :
  batch_um w m st code tr = (Ok st', tr') ->
  (exists r, registro_detalhado w (label_ean code) r /\ store st' = store st /\
     results st' = results st ++ [Fresh r] /\
     eans_not_found_in_batch st' = eans_not_found_in_batch st) \/
  (exists i d, m !! code = Some i /\ store st !! i = Some (VDict d) /\
     store st' = <[i := VDict (<["target_name" := VStr (label_ean code)]> d)]> (store st) /\
     results st' = results st ++ [Shared i] /\
     eans_not_found_in_batch st' = eans_not_found_in_batch st) \/
  (store st' = store st /\ results st' = results st /\
   eans_not_found_in_batch st' = eans_not_found_in_batch st ++ [code]).
Proof.
  unfold batch_um.
  destruct (m !! code) as [i|] eqn:Hm.
  2:{ unfold mret, M_ret. intros [= <- <-]. right. right. done. }
  destruct (store st !! i) as [summary|] eqn:Hs; [|discriminate].
  unfold mbind at 1, M_bind at 1, lift at 1.
  destruct (attr_get summary "productId" VNone) as [pid|]; [|discriminate].
  destruct (truthy pid).
  2:{ unfold mret, M_ret. intros [= <- <-]. right. right. done. }
  unfold mbind at 1, M_bind at 1.
  destruct (enrich_product_summaries w [summary] (label_ean code) tr)
    as [[es|] tr1] eqn:He; [|discriminate].
  destruct (enrich_um_item _ _ _ _ _ _ He) as [-> | (r & -> & Hr)].
  - unfold mbind at 1, M_bind at 1, lift at 1.
    destruct (set_item summary "target_name" (VStr (label_ean code))) as [s|] eqn:Hset;
      [|discriminate].
    unfold mret, M_ret. intros [= <- <-]. right. left.
    destruct summary; try discriminate Hset. cbn in Hset. injection Hset as <-.
    by eexists _, _.
  - unfold mret, M_ret. intros [= <- <-]. left. by exists r.
Qed.

Lemma entrada_rotulada_mono (cs cs' : list string) (page : list value) (e : entry) :
  cs ⊆ cs' -> entrada_rotulada cs page e -> entrada_rotulada cs' page e.
Proof. intros Hsub (d & c & Hr & Hc & Hl). exists d, c. split; [done|]. split; [by apply Hsub|done]. Qed.

Lemma batch_loop_spec (w : world) (m : gmap string nat) (batch : list string)
    (cs : list string) (st st' : batch_state) (tr tr' : list event) :
  foldM (batch_um w m) batch st tr = (Ok st', tr') ->
  Forall (entrada_rotulada cs (store st)) (results st) ->
  exists k,
    eans_not_found_in_batch st' = eans_not_found_in_batch st ++ k /\
    k ⊆ batch /\
    length (results st') + length k = length (results st) + length batch /\
    Forall (entrada_rotulada (cs ++ batch) (store st')) (results st').
Proof.
  revert cs st tr. induction batch as [|code batch IH]; intros cs st tr H Hok.
  - cbn in H. unfold mret, M_ret in H. injection H as <- <-.
    exists []. rewrite !app_nil_r. split; [done|]. split; [done|]. split; [cbn; lia|done].
  - cbn [foldM] in H. unfold mbind, M_bind in H.
    destruct (batch_um w m st code tr) as [[st1|] tr1] eqn:Hum; [|discriminate H].
    assert (Hok1 : Forall (entrada_rotulada (cs ++ [code]) (store st1)) (results st1)).
    { destruct (batch_um_spec _ _ _ _ _ _ _ Hum)
        as [(r & (tr0 & pid & det & _ & _ & ->) & Hst & Hrs & _)
           | [(i & d & _ & Hi & Hst & Hrs & _) | (Hst & Hrs & _)]];
        rewrite Hst, Hrs.
      - apply Forall_app. split.
        + eapply Forall_impl; [exact Hok|]. intros e. apply entrada_rotulada_mono.
          set_solver.
        + constructor; [|done]. eexists _, code. split; [reflexivity|].
          split; [set_solver|apply lookup_insert_eq].
      - apply Forall_app. split.
        + eapply Forall_impl; [exact Hok|]. intros e (d0 & c & Hr & Hc & Hl).
          destruct e as [v|j]; [exists d0, c; split; [done|]; split; [set_solver|done]|].
          unfold entrada_rotulada. cbn [resolve] in *.
          destruct (decide (i = j)) as [->|Hne].
          * eexists _, code. rewrite list_lookup_insert_eq by (by eapply lookup_lt_Some).
            split; [reflexivity|]. split; [set_solver|apply lookup_insert_eq].
          * exists d0, c. rewrite list_lookup_insert_ne by done.
            split; [done|]. split; [set_solver|done].
        + constructor; [|done]. unfold entrada_rotulada. eexists _, code. cbn [resolve].
          rewrite list_lookup_insert_eq by (by eapply lookup_lt_Some).
          split; [reflexivity|]. split; [set_solver|apply lookup_insert_eq].
      - eapply Forall_impl; [exact Hok|]. intros e. apply entrada_rotulada_mono.
        set_solver. }
    destruct (IH _ _ _ H Hok1) as (k & Hnf & Hsub & Hlen & Hall).
    destruct (batch_um_spec _ _ _ _ _ _ _ Hum)
      as [(r & _ & Hst & Hrs & Hn) | [(i & d & _ & Hi & Hst & Hrs & Hn) | (Hst & Hrs & Hn)]].
    + exists k. rewrite Hnf, Hn. split; [done|]. split; [set_solver|].
      split; [rewrite Hrs, length_app in Hlen; cbn in *; lia|].
      by rewrite <- app_assoc in Hall.
    + exists k. rewrite Hnf, Hn. split; [done|]. split; [set_solver|].
      split; [rewrite Hrs, length_app in Hlen; cbn in *; lia|].
      by rewrite <- app_assoc in Hall.
    + exists (code :: k). rewrite Hnf, Hn, <- app_assoc. split; [done|].
      split; [intros x Hx; apply elem_of_cons in Hx as [->|Hx];
              [apply list_elem_of_here|apply list_elem_of_further; by apply Hsub]|].
      split; [rewrite Hrs in Hlen; cbn in *; lia|].
      by rewrite <- app_assoc in Hall.
Qed.

(** The loop over a batch appends one record for each code it keeps,
    in order, and queues the others for the individual search. *)
Lemma batch_loop_posicoes (w : world) (m : gmap string nat) (batch : list string) :
  forall (st st' : batch_state) (tr tr' : list event),
  foldM (batch_um w m) batch st tr = (Ok st', tr') ->
  exists ck k es,
    results st' = results st ++ es /\
    eans_not_found_in_batch st' = eans_not_found_in_batch st ++ k /\
    ck ++ k ≡ₚ batch /\
    Forall2 (entrada_do_codigo w m) ck es.
Proof.
  induction batch as [|code batch IH]; intros st st' tr tr' H.
  - cbn in H. unfold mret, M_ret in H. injection H as <- <-.
    exists [], [], []. rewrite !app_nil_r. repeat split; constructor.
  - cbn [foldM] in H. unfold mbind, M_bind in H.
    destruct (batch_um w m st code tr) as [[st1|] tr1] eqn:Hum; [|discriminate H].
    destruct (IH _ _ _ _ H) as (ck & k & es & Hrs & Hnf & Hperm & Hall).
    destruct (batch_um_spec _ _ _ _ _ _ _ Hum)
      as [(r & Hr & _ & Hrs1 & Hn1) | [(i & d & Hm & _ & _ & Hrs1 & Hn1) | (_ & Hrs1 & Hn1)]].
    + exists (code :: ck), k, (Fresh r :: es).
      rewrite Hrs, Hrs1, Hnf, Hn1, <- app_assoc. split; [done|]. split; [done|].
      split; [cbn; by constructor|]. by constructor.
    + exists (code :: ck), k, (Shared i :: es).
      rewrite Hrs, Hrs1, Hnf, Hn1, <- app_assoc. split; [done|]. split; [done|].
      split; [cbn; by constructor|]. by constructor.
    + exists ck, (code :: k), es.
      rewrite Hrs, Hrs1, Hnf, Hn1, <- app_assoc. split; [done|]. split; [done|].
      split; [|done]. rewrite <- Permutation_middle. by constructor.
Qed.

Lemma batch_loop_itens (w : world) (m : gmap string nat) (products : list value)
    (batch : list string) : forall (st st' : batch_state) (tr tr' : list event),
  foldM (batch_um w m) batch st tr = (Ok st', tr') ->
  mesmos_itens (store st) products ->
  mesmos_itens (store st') products.
Proof.
  induction batch as [|code batch IH]; intros st st' tr tr' H Hit.
  - cbn in H. unfold mret, M_ret in H. by injection H as <- <-.
  - cbn [foldM] in H. unfold mbind, M_bind in H.
    destruct (batch_um w m st code tr) as [[st1|] tr1] eqn:Hum; [|discriminate H].
    eapply IH; [exact H|].
    destruct (batch_um_spec _ _ _ _ _ _ _ Hum)
      as [(r & _ & Hst & _) | [(i & d & _ & Hi & Hst & _) | (Hst & _)]];
      rewrite Hst; [done| |done].
    unfold mesmos_itens. apply Forall2_same_length_lookup. split.
    + rewrite length_insert. by eapply Forall2_length.
    + intros j a b Ha Hb. destruct (decide (i = j)) as [->|Hne].
      * rewrite list_lookup_insert_eq in Ha by (by eapply lookup_lt_Some).
        injection Ha as <-.
        rewrite <- (Forall2_lookup_lr _ _ _ _ _ _ Hit Hi Hb).
        cbn [attr_get]. by rewrite lookup_insert_ne.
      * rewrite list_lookup_insert_ne in Ha by done.
        by eapply (Forall2_lookup_lr _ _ _ _ _ _ Hit).
Qed.

Lemma produto_mostra_lote_itens (c : string) (a b : value) :
  attr_get a "items" (VList []) = attr_get b "items" (VList []) ->
  produto_mostra_lote c b -> produto_mostra_lote c a.
Proof.
  intros Hab (items & item & (its & Hits & Hit) & Hin & Hshow).
  exists items, item. split; [|done]. exists its. by rewrite Hab.
Qed.
Lemma registro_do_codigo_mono (w : world) (cs cs' : list string) (c : string) (r : value) :
  cs ⊆ cs' -> registro_do_codigo w cs c r -> registro_do_codigo w cs' c r.
Proof.
  intros Hsub [H | [H | [H | (d & c' & Hr & Hc & Hl & Hs)]]].
  - by left.
  - right. by left.
  - right. right. by left.
  - right. right. right. exists d, c'. split; [done|]. split; [by apply Hsub|done].
Qed.

Lemma registro_individual_do_codigo (w : world) (cs : list string) (c : string) (r : value) :
  registro_individual w c r -> registro_do_codigo w cs c r.
Proof. intros [H | H]; [by left|]. right. right. by left. Qed.

Lemma Forall2_Forall_r {A B : Type} (P : A -> B -> Prop) (Q : B -> Prop)
    (l : list A) (k : list B) :
  Forall2 P l k -> Forall Q k -> Forall2 (fun x y => P x y /\ Q y) l k.
Proof.
  induction 1 as [|x y l k Hxy _ IH]; intros HQ; [constructor|].
  apply Forall_cons in HQ as [Hy HQ]. constructor; [done|by apply IH].
Qed.

(** One batch: the records added are those of the codes of the batch,
    one for one, the codes kept by the bulk answer first. *)
Lemma process_batch_posicoes (w : world) (acc : list value) (batch : list string)
    (tr tr' : list event) (rs : list value) :
  process_batch w acc batch tr = (Ok rs, tr') ->
  exists codes rs', rs = acc ++ rs' /\ codes ≡ₚ batch /\
                    Forall2 (registro_do_codigo w batch) codes rs'.
Proof.
  unfold process_batch, fazer_requisicao_api_proxy.
  unfold mbind at 1, M_bind at 1.
  destruct (proxy w tr (String.concat ", " batch)) as [page|]; [|discriminate].
  destruct (is_none page).
  { unfold mbind, M_bind, sleep, mret, M_ret. intros [= <- <-].
    exists batch, (nao_encontrado <$> batch). split; [done|]. split; [done|].
    apply Forall2_fmap_r, Forall_Forall2_diag, Forall_forall. intros c _. by left. }
  unfold mbind at 1, M_bind at 1, lift at 1.
  destruct (py_iter page) as [products|]; [|discriminate].
  unfold mbind at 1, M_bind at 1, lift at 1.
  destruct (map_products batch 0 products ∅) as [m|] eqn:Hmp; [|discriminate].
  unfold mbind at 1, M_bind at 1.
  destruct (foldM (batch_um w m) batch _ _) as [[st|] tr1] eqn:Hloop; [|discriminate].
  destruct (batch_loop_spec w m batch [] _ _ _ _ Hloop) as (k0 & _ & _ & _ & Hall);
    [done|]. cbn [app] in Hall.
  destruct (batch_loop_posicoes w m batch _ _ _ _ Hloop)
    as (ck & k & es & Hrs & Hnf & Hperm & Hpos).
  cbn [results eans_not_found_in_batch app] in Hrs, Hnf.
  assert (Hit : mesmos_itens (store st) products).
  { eapply (batch_loop_itens w m products batch); [exact Hloop|]. cbn [store].
    apply Forall2_same_length_lookup. split; [done|]. intros i a b Ha Hb. congruence. }
  assert (Hind : exists ind tr2,
            match eans_not_found_in_batch st with
            | [] => mret []
            | _ :: _ => process_short_codes_individually w (eans_not_found_in_batch st)
            end tr1 = (ind, tr2) /\
            forall ind', ind = Ok ind' -> Forall2 (registro_individual w) k ind').
  { rewrite Hnf. destruct k as [|c k].
    - eexists _, _. split; [reflexivity|]. by intros ind' [= <-].
    - destruct (process_short_codes_individually w (c :: k) tr1) as [ind tr2] eqn:Hp.
      exists ind, tr2. split; [done|]. intros ind' ->.
      by destruct (process_short_spec _ _ _ _ _ _ Hp) as (rs' & -> & Hf & _). }
  destruct Hind as (ind0 & tr2 & Hrun & Hp).
  unfold mbind at 1, M_bind at 1. rewrite Hrun.
  destruct ind0 as [ind|]; [|discriminate]. specialize (Hp _ eq_refl).
  unfold mbind, M_bind, sleep, mret, M_ret. intros [= <- <-].
  exists (ck ++ k), ((resolve (store st) <$> results st) ++ ind).
  split; [done|]. split; [done|]. apply Forall2_app.
  - rewrite Hrs in *. apply Forall2_fmap_r.
    eapply Forall2_impl; [exact (Forall2_Forall_r _ _ _ _ Hpos Hall)|].
    intros c [v|i] [He (d & c' & Hres & Hc' & Hl)]; cbn [entrada_do_codigo] in He.
    + right. by left.
    + right. right. right.
      destruct (map_products_spec _ _ _ _ _ Hmp _ _ He)
        as [Hold | (_ & _ & p & Hp0 & Hshow)]; [by rewrite lookup_empty in Hold|].
      rewrite Nat.sub_0_r in Hp0.
      destruct (Forall2_lookup_r _ _ _ _ _ Hit Hp0) as (a & Ha & Hitems).
      cbn [resolve] in Hres |- *. rewrite Ha in Hres |- *. cbn [from_option id] in Hres |- *.
      subst a. exists d, c'. split; [done|]. split; [done|]. split; [done|].
      by eapply produto_mostra_lote_itens.
  - eapply Forall2_impl; [exact Hp|]. intros c r. apply registro_individual_do_codigo.
Qed.

Lemma process_batches_posicoes (w : world) (batches : list (list string)) :
  forall (acc rs : list value) (tr tr' : list event),
  foldM (process_batch w) batches acc tr = (Ok rs, tr') ->
  exists codes rs', rs = acc ++ rs' /\ codes ≡ₚ concat batches /\
                    Forall2 (registro_do_codigo w (concat batches)) codes rs'.
Proof.
  induction batches as [|batch batches IH]; intros acc rs tr tr' H.
  - cbn in H. unfold mret, M_ret in H. injection H as <- <-.
    exists [], []. rewrite app_nil_r. repeat split; constructor.
  - cbn [foldM] in H. unfold mbind, M_bind in H.
    destruct (process_batch w acc batch tr) as [[acc1|] tr1] eqn:Hb; [|discriminate H].
    destruct (process_batch_posicoes _ _ _ _ _ _ Hb) as (c1 & r1 & -> & Hp1 & Hf1).
    destruct (IH _ _ _ _ H) as (c2 & r2 & -> & Hp2 & Hf2).
    exists (c1 ++ c2), (r1 ++ r2). split; [by rewrite <- app_assoc|]. cbn [concat].
    split; [by rewrite Hp1, Hp2|].
    apply Forall2_app; (eapply Forall2_impl; [eassumption|]);
      intros c r; apply registro_do_codigo_mono; intros x Hx; apply elem_of_app; auto.
Qed.

(** X6: when the resolver returns, its records are, one for one, those
    of the codes of 13 characters of the input taken in some order
    (within a batch the codes kept by the bulk answer come before the
    codes searched again), followed by those of the shorter codes in the
    order of the input.  The record of a code of 13 characters is its
    mark of not found, the answer of the detail lookup labelled with the
    bulk or the individual search of that code, or a catalog summary one
    of whose sub-items shows the code, labelled with the bulk search of
    a code of 13 characters of the input; the record of a shorter code
    is its mark of not found or the answer of the detail lookup labelled
    with the individual search of that code. *)
Theorem scrape_by_eans_um_por_codigo (w : world) (eans : list string)
    (tr tr' : list event) (rs : list value) :
  scrape_by_eans w eans tr = (Ok rs, tr') ->
  let valid_eans := filter (fun ean => py_len ean = 13) eans in
  let short_codes := filter (fun ean => py_len ean < 13) eans in
  exists codes13 r13 r_short,
    rs = r13 ++ r_short /\
    codes13 ≡ₚ valid_eans /\
    Forall2 (registro_do_codigo w valid_eans) codes13 r13 /\
    Forall2 (registro_individual w) short_codes r_short.
Proof.
  unfold scrape_by_eans.
  set (valid := filter (fun ean => py_len ean = 13) eans).
  set (short := filter (fun ean => py_len ean < 13) eans).
  assert (H1 : exists o1 tr1,
            match valid with [] => mret [] | _ :: _ => process_eans_in_batch w valid end tr
            = (o1, tr1) /\
            forall r1, o1 = Ok r1 ->
              exists codes13, codes13 ≡ₚ valid /\
                              Forall2 (registro_do_codigo w valid) codes13 r1).
  { destruct valid as [|v valid0] eqn:Hval.
    - eexists _, _. split; [reflexivity|]. intros r1 [= <-]. exists []. by split.
    - rewrite <- Hval in *.
      destruct (process_eans_in_batch w valid tr) as [o1 tr1] eqn:Hp.
      exists o1, tr1. split; [done|]. intros r1 ->. unfold process_eans_in_batch in Hp.
      destruct (process_batches_posicoes _ _ _ _ _ _ Hp) as (cs & rs' & Heq & Hperm & Hf).
      cbn [app] in Heq. subst rs'.
      destruct (chunks_aux_spec (length valid) valid) as [Hc _]; [done|].
      fold (chunks valid) in Hc. rewrite Hc in Hperm, Hf. by exists cs. }
  destruct H1 as (o1 & tr1 & Hrun1 & H1).
  unfold mbind at 1, M_bind at 1. rewrite Hrun1.
  destruct o1 as [r1|]; [|discriminate]. destruct (H1 _ eq_refl) as (codes13 & Hperm & Hf1).
  assert (H2 : exists o2 tr2,
            match short with
            | [] => mret []
            | _ :: _ => process_short_codes_individually w short
            end tr1 = (o2, tr2) /\
            forall r2, o2 = Ok r2 -> Forall2 (registro_individual w) short r2).
  { destruct short as [|c short0] eqn:Hsh.
    - eexists _, _. split; [reflexivity|]. by intros r2 [= <-].
    - rewrite <- Hsh in *.
      destruct (process_short_codes_individually w short tr1) as [o2 tr2] eqn:Hp.
      exists o2, tr2. split; [done|]. intros r2 ->.
      by destruct (process_short_spec _ _ _ _ _ _ Hp) as (rs' & -> & Hf & _). }
  destruct H2 as (o2 & tr2 & Hrun2 & H2).
  unfold mbind at 1, M_bind at 1. rewrite Hrun2.
  destruct o2 as [r2|]; [|discriminate]. specialize (H2 _ eq_refl).
  unfold mret, M_ret. intros [= <- <-]. by exists codes13, r1, r2.
Qed.

(** ** When the catalogue cannot be reached *)

Lemma process_batch_sem_dados (w : world) (acc : list value) (batch : list string)
    (tr : list event) :
  proxy w tr (String.concat ", " batch) = Ok VNone ->
  process_batch w acc batch tr
  = (Ok (acc ++ (nao_encontrado <$> batch)),
     tr ++ [EProxy (String.concat ", " batch); ESleep 10]).
Proof.
  intros H.
  unfold process_batch, fazer_requisicao_api_proxy, sleep, mbind, M_bind, mret, M_ret.
  rewrite H. cbn [is_none]. by rewrite app_trace.
Qed.

Lemma individual_um_sem_dados (w : world) (acc : list value) (code : string)
    (tr : list event) :
  proxy w tr code = Ok VNone ->
  individual_um w acc code tr
  = (Ok (acc ++ [nao_encontrado code]), tr ++ [EProxy code; ESleep 10]).
Proof.
  intros H.
  unfold individual_um, fazer_requisicao_api_proxy, sleep, mbind, M_bind, mret, M_ret.
  rewrite H. cbn [is_none]. by rewrite app_trace.
Qed.

Lemma process_short_fora_do_ar (w : world) (codes : list string) (acc : list value)
    (tr : list event) :
  fora_do_ar w ->
  foldM (individual_um w) codes acc tr
  = (Ok (acc ++ (nao_encontrado <$> codes)), tr ++ eventos_falha codes).
Proof.
  intros Hw. revert acc tr. induction codes as [|c codes IH]; intros acc tr.
  - cbn. unfold mret, M_ret. by rewrite !app_nil_r.
  - cbn [foldM]. unfold mbind, M_bind. rewrite individual_um_sem_dados by apply Hw.
    rewrite IH. cbn. by rewrite <- !app_assoc.
Qed.

Lemma process_batches_fora_do_ar (w : world) (batches : list (list string))
    (acc : list value) (tr : list event) :
  fora_do_ar w ->
  foldM (process_batch w) batches acc tr
  = (Ok (acc ++ (nao_encontrado <$> concat batches)),
     tr ++ eventos_falha (String.concat ", " <$> batches)).
Proof.
  intros Hw. revert acc tr. induction batches as [|b batches IH]; intros acc tr.
  - cbn. unfold mret, M_ret. by rewrite !app_nil_r.
  - cbn [foldM]. unfold mbind, M_bind. rewrite process_batch_sem_dados by apply Hw.
    rewrite IH. cbn [concat fmap list_fmap]. rewrite fmap_app.
    unfold eventos_falha. cbn. by rewrite <- !app_assoc.
Qed.

Lemma scrape_by_eans_fora_do_ar_aux (w : world) (eans : list string) (tr : list event) :
  fora_do_ar w ->
  let valid_eans := filter (fun ean => py_len ean = 13) eans in
  let short_codes := filter (fun ean => py_len ean < 13) eans in
  scrape_by_eans w eans tr
  = (Ok (nao_encontrado <$> (valid_eans ++ short_codes)),
     tr ++ eventos_falha ((String.concat ", " <$> chunks valid_eans) ++ short_codes)).
Proof.
  intros Hw valid short. unfold scrape_by_eans. fold valid short.
  assert (H1 : match valid with [] => mret [] | _ :: _ => process_eans_in_batch w valid end tr
               = (Ok (nao_encontrado <$> valid),
                  tr ++ eventos_falha (String.concat ", " <$> chunks valid))).
  { destruct valid as [|v valid0] eqn:Hv.
    - cbn. unfold mret, M_ret. by rewrite app_nil_r.
    - rewrite <- Hv. unfold process_eans_in_batch.
      rewrite process_batches_fora_do_ar by done.
      destruct (chunks_aux_spec (length valid) valid) as [Hc _]; [done|].
      fold (chunks valid) in Hc. by rewrite Hc. }
  unfold mbind at 1, M_bind at 1. rewrite H1.
  assert (H2 : forall tr1,
            match short with
            | [] => mret []
            | _ :: _ => process_short_codes_individually w short
            end tr1 = (Ok (nao_encontrado <$> short), tr1 ++ eventos_falha short)).
  { intros tr1. destruct short as [|c short0] eqn:Hs.
    - cbn. unfold mret, M_ret. by rewrite app_nil_r.
    - rewrite <- Hs. unfold process_short_codes_individually.
      by rewrite process_short_fora_do_ar. }
  unfold mbind at 1, M_bind at 1. rewrite H2. unfold mret, M_ret.
  rewrite fmap_app. unfold eventos_falha. rewrite bind_app. by rewrite <- app_assoc.
Qed.

(** X7: when every term search fails, the resolver raises nothing and
    returns the mark of not found for every code of 13 characters, then
    for every shorter code; it makes one request per batch and per short
    code, each followed by its pause, and no detail lookup. *)
Theorem scrape_by_eans_fora_do_ar (w : world) (eans : list string) (tr : list event) :
  fora_do_ar w ->
  let valid_eans := filter (fun ean => py_len ean = 13) eans in
  let short_codes := filter (fun ean => py_len ean < 13) eans in
  scrape_by_eans w eans tr
  = (Ok (nao_encontrado <$> (valid_eans ++ short_codes)),
     tr ++ eventos_falha ((String.concat ", " <$> chunks valid_eans) ++ short_codes)).
Proof. apply scrape_by_eans_fora_do_ar_aux. Qed.

Lemma mapM_ext_M {S A B : Type} (f g : A -> M S B) (l : list A) (s : S) :
  (forall x s0, x ∈ l -> f x s0 = g x s0) -> mapM f l s = mapM g l s.
Proof.
  revert s. induction l as [|x l IH]; intros s H; [done|].
  cbn [mapM]. unfold mbind, M_bind. rewrite H by apply list_elem_of_here.
  destruct (g x s) as [[y|e] s1]; [|done].
  rewrite IH; [done|]. intros y0 s0 Hy. apply H. by apply list_elem_of_further.
Qed.

Lemma indexar_marcas (cs : list string) (m0 : gmap string value) :
  exists m, foldM indexar (nao_encontrado <$> cs) m0 = Ok m /\
    forall c r, m !! c = Some r -> m0 !! c = Some r \/ r = nao_encontrado c.
Proof.
  revert m0. induction cs as [|c0 cs IH]; intros m0.
  - exists m0. split; [done|]. by left.
  - cbn [fmap list_fmap foldM].
    assert (Hi : indexar m0 (nao_encontrado c0)
                 = Ok (if truthy (VStr c0) then <[c0 := nao_encontrado c0]> m0 else m0)).
    { unfold indexar, chave_resultado. cbn [attr_get nao_encontrado].
      rewrite lookup_insert_eq. cbn [default id truthy mbind outcome_bind].
      rewrite lookup_insert_ne by done. rewrite lookup_insert_eq.
      cbn [default id mbind outcome_bind truthy]. by destruct (negb (String.eqb c0 "")). }
    rewrite Hi. cbn [mbind outcome_bind].
    destruct (IH (if truthy (VStr c0) then <[c0 := nao_encontrado c0]> m0 else m0))
      as (m & Hm & Hl).
    exists m. split; [exact Hm|]. intros c r Hcr.
    destruct (Hl _ _ Hcr) as [H | H]; [|by right].
    destruct (truthy (VStr c0)); [|by left].
    destruct (decide (c0 = c)) as [->|Hne].
    + rewrite lookup_insert_eq in H. injection H as <-. by right.
    + rewrite lookup_insert_ne in H by done. by left.
Qed.

Lemma atualizar_um_marca (relogio : nat -> string) (m : gmap string value) (p : produto)
    (n : nat) :
  (forall r, m !! ean p = Some r -> exists c, r = nao_encontrado c) ->
  atualizar_um relogio m p n = marcar relogio "Não Encontrado" p n.
Proof.
  intros H. unfold atualizar_um. destruct (m !! ean p) as [r|]; [|done].
  destruct (H r eq_refl) as [c ->]. reflexivity.
Qed.

(** X8: when every term search fails, the run saves every product with
    the status ['Não Encontrado'] (not ['Erro']) and the clock reading
    taken for it, and writes no other field. *)
Theorem atualizar_produtos_fora_do_ar (relogio : nat -> string) (w : world)
    (produtos : list produto) :
  fora_do_ar w ->
  produtos <> [] ->
  atualizar_produtos relogio w produtos
  = Ok (Some (imap (fun i p => marcado "Não Encontrado" (relogio i) p) produtos)).
Proof.
  intros Hw Hne. unfold atualizar_produtos.
  destruct produtos as [|p0 ps]; [done|].
  rewrite (scrape_by_eans_fora_do_ar_aux w (ean <$> p0 :: ps) [] Hw).
  set (cs := _ ++ _).
  destruct (indexar_marcas cs ∅) as (m & Hm & Hl).
  unfold indexar_resultados. rewrite Hm. cbn [mbind outcome_bind].
  rewrite (mapM_ext_M _ (marcar relogio "Não Encontrado")).
  - rewrite mapM_marcar. reflexivity.
  - intros p s _. apply atualizar_um_marca. intros r Hr.
    destruct (Hl _ _ Hr) as [H | H]; [by rewrite lookup_empty in H|by eexists].
Qed.

(** ** The update of one product *)

Lemma adicionar_ao_historico_spec (c : gmap string value) (preco : float) (data : string) :
  (c !! "historico" = None \/ exists h, c !! "historico" = Some (VList h)) ->
  adicionar_ao_historico c preco data
  = Ok (<["historico" := VList (drop (length (historico_de c) + 1 - 30)
                                     (historico_de c ++ [novo_ponto data preco]))]> c).
Proof.
  intros H. unfold adicionar_ao_historico, historico_de, ultimos, MAX_HISTORICO.
  destruct H as [H | [h H]]; rewrite H.
  - rewrite lookup_insert_eq. cbn [app length Nat.ltb Nat.leb Nat.add Nat.sub drop].
    by rewrite insert_insert_eq.
  - rewrite H. rewrite length_app. cbn [length].
    destruct (Nat.ltb 30 (length h + 1)) eqn:E; [done|].
    apply Nat.ltb_ge in E. replace (length h + 1 - 30) with 0 by lia. done.
Qed.

Lemma adicionar_ao_historico_inv (c c' : gmap string value) (preco : float) (data : string) :
  adicionar_ao_historico c preco data = Ok c' ->
  forall k, k <> "historico" -> c' !! k = c !! k.
Proof.
  unfold adicionar_ao_historico. intros H k Hk.
  destruct (c !! "historico") as [v|] eqn:Hh.
  - rewrite Hh in H. destruct v; try discriminate H.
    destruct (Nat.ltb _ _); injection H as <-; by rewrite lookup_insert_ne.
  - rewrite lookup_insert_eq in H.
    destruct (Nat.ltb _ _); injection H as <-; by rewrite !lookup_insert_ne.
Qed.

(** X9: a product whose code is indexed to a record marked as not
    found gets the status ['Não Encontrado'] and the clock reading; no
    other field is written. *)
Theorem atualizar_um_marcado_nao_encontrado (relogio : nat -> string)
    (resultados_por_ean : gmap string value) (p : produto) (d : gmap string value) (n : nat) :
  resultados_por_ean !! ean p = Some (VDict d) ->
  truthy (default VNone (d !! "is_not_found")) = true ->
  atualizar_um relogio resultados_por_ean p n
  = (Ok (marcado "Não Encontrado" (relogio n) p), S n) /\
  forall k, k <> "status" -> k <> "ultima_verificacao" ->
            campos (marcado "Não Encontrado" (relogio n) p) !! k = campos p !! k.
Proof.
  intros Hm Hnf. split.
  - unfold atualizar_um. rewrite Hm.
    destruct (truthy (VDict d)); cbn [negb]; [|done].
    unfold mbind at 1, M_bind at 1, lift at 1. cbn [attr_get]. by rewrite Hnf.
  - intros k H1 H2. cbn [marcado campos]. by rewrite !lookup_insert_ne.
Qed.

(** X10: when the record of a product gives no price ([None], or a
    price of zero), the product gets the status ['Erro'] and the clock
    reading, and its name when the record has one; its prices, variation
    and history are not written. *)
Theorem atualizar_um_sem_preco (relogio : nat -> string)
    (resultados_por_ean : gmap string value) (p : produto) (d : gmap string value)
    (novo_preco : option float) (nome : value) (n : nat) :
  resultados_por_ean !! ean p = Some (VDict d) ->
  d <> ∅ ->
  truthy (default VNone (d !! "is_not_found")) = false ->
  extrair_preco_e_nome (VDict d) = Ok (novo_preco, nome) ->
  (novo_preco = None \/ exists x, novo_preco = Some x /\ PrimFloat.eqb x 0 = true) ->
  exists p',
    atualizar_um relogio resultados_por_ean p n = (Ok p', S n) /\
    ean p' = ean p /\
    campos p' !! "status" = Some (VStr "Erro") /\
    campos p' !! "ultima_verificacao" = Some (VStr (relogio n)) /\
    campos p' !! "nome" = (if truthy nome then Some nome else campos p !! "nome") /\
    forall k, k <> "status" -> k <> "ultima_verificacao" -> k <> "nome" ->
              campos p' !! k = campos p !! k.
Proof.
  intros Hm Hne Hnf Hext Hp.
  assert (Ht : truthy (VDict d) = true).
  { cbn [truthy]. destruct (Nat.eqb (size d) 0) eqn:E; [|done].
    apply Nat.eqb_eq, map_size_empty_iff in E. done. }
  unfold atualizar_um. rewrite Hm, Ht. cbn [negb].
  unfold mbind at 1, M_bind at 1, lift at 1. cbn [attr_get]. rewrite Hnf.
  unfold mbind at 1, M_bind at 1, lift at 1. rewrite Hext.
  set (c1 := if truthy nome then _ else campos p).
  assert (Hrun : exists p', p' = marcado "Erro" (relogio n) {| ean := ean p; campos := c1 |})
    by (by eexists).
  destruct Hrun as [p' Hp'].
  exists p'. split.
  { destruct Hp as [-> | (x & -> & Hx)]; cbn [truthy]; rewrite ?Hx; cbn [negb];
      by rewrite Hp'. }
  rewrite Hp'. cbn [marcado ean campos].
  split; [done|]. split; [rewrite lookup_insert_ne by done; apply lookup_insert_eq|].
  split; [apply lookup_insert_eq|]. split.
  - rewrite !lookup_insert_ne by done. unfold c1.
    destruct (truthy nome); [apply lookup_insert_eq|done].
  - intros k H1 H2 H3. rewrite !lookup_insert_ne by done. unfold c1.
    destruct (truthy nome); [by rewrite lookup_insert_ne|done].
Qed.

(** X11: when the record gives a price and the product holds a
    previous price that is a number other than zero, the old price moves
    to ['preco_anterior'], the new one is stored, the variation is the
    rounded percent change, the status is ['Monitorando'], and the point
    joins the history, cut to its last 30. *)
Theorem atualizar_um_com_preco_anterior (relogio : nat -> string)
    (resultados_por_ean : gmap string value) (p : produto) (resultado : value)
    (preco anterior : float) (nome : value) (n : nat) :
  resultados_por_ean !! ean p = Some resultado ->
  extrair_preco_e_nome resultado = Ok (Some preco, nome) ->
  PrimFloat.eqb preco 0 = false ->
  campos p !! "preco_atual" = Some (VNum anterior) ->
  PrimFloat.eqb anterior 0 = false ->
  (campos p !! "historico" = None \/ exists h, campos p !! "historico" = Some (VList h)) ->
  exists p',
    atualizar_um relogio resultados_por_ean p n = (Ok p', S (S n)) /\
    ean p' = ean p /\
    campos p' !! "preco_atual" = Some (VNum preco) /\
    campos p' !! "preco_anterior" = Some (VNum anterior) /\
    campos p' !! "variacao"
    = Some (VNum (py_round2 (((preco - anterior) / anterior) * 100)%float)) /\
    campos p' !! "status" = Some (VStr "Monitorando") /\
    campos p' !! "ultima_verificacao" = Some (VStr (relogio n)) /\
    campos p' !! "historico"
    = Some (VList (drop (length (historico_de (campos p)) + 1 - 30)
                        (historico_de (campos p) ++ [novo_ponto (relogio (S n)) preco]))) /\
    campos p' !! "nome" = (if truthy nome then Some nome else campos p !! "nome").
Proof.
  intros Hm Hext Hz Hprev Hza Hhist.
  destruct (extrair_com_preco _ _ _ Hext) as (d & -> & Hnf & Htr).
  unfold atualizar_um. rewrite Hm, Htr. cbn [negb].
  unfold mbind at 1, M_bind at 1, lift at 1. cbn [attr_get]. rewrite Hnf.
  unfold mbind at 1, M_bind at 1, lift at 1. rewrite Hext.
  cbn [truthy]. rewrite Hz. cbn [negb].
  set (c1 := if truthy nome then _ else campos p).
  assert (Hc1 : forall k, k <> "nome" -> c1 !! k = campos p !! k).
  { intros k Hk. unfold c1. destruct (truthy nome); [by rewrite lookup_insert_ne|done]. }
  rewrite (Hc1 "preco_atual") by done. rewrite Hprev. cbn [default id truthy].
  rewrite Hza. cbn [negb].
  unfold mbind at 1, M_bind at 1, agora at 1.
  unfold mbind at 1, M_bind at 1, agora at 1.
  set (c3 := <["status" := _]> _).
  assert (Hh3 : c3 !! "historico" = campos p !! "historico").
  { unfold c3. rewrite !lookup_insert_ne by done. by apply Hc1. }
  unfold mbind at 1, M_bind at 1, lift at 1.
  rewrite adicionar_ao_historico_spec by (by rewrite Hh3).
  unfold mbind at 1, M_bind at 1, lift at 1.
  unfold calcular_variacao, py_eq_zero. cbn [is_none as_num orb]. rewrite Hza.
  unfold mret, M_ret. eexists. split; [reflexivity|]. cbn [ean campos].
  assert (Hhd : historico_de c3 = historico_de (campos p))
    by (unfold historico_de; by rewrite Hh3).
  rewrite Hhd. unfold c3.
  repeat split.
  - rewrite !lookup_insert_ne by done. apply lookup_insert_eq.
  - rewrite !lookup_insert_ne by done. apply lookup_insert_eq.
  - apply lookup_insert_eq.
  - rewrite !lookup_insert_ne by done. apply lookup_insert_eq.
  - rewrite !lookup_insert_ne by done. apply lookup_insert_eq.
  - rewrite lookup_insert_ne by done. apply lookup_insert_eq.
  - rewrite !lookup_insert_ne by done. unfold c1.
    destruct (truthy nome); [apply lookup_insert_eq|done].
Qed.

(** ** What every run keeps *)

Lemma mapM_M_inv {S A B : Type} (f : A -> M S B) (l : list A) (l' : list B) (s s' : S) :
  mapM f l s = (Ok l', s') ->
  Forall2 (fun x y => exists s1 s2, f x s1 = (Ok y, s2)) l l'.
Proof.
  revert l' s. induction l as [|x l IH]; intros l' s H.
  - cbn in H. unfold mret, M_ret in H. injection H as <- <-. constructor.
  - cbn [mapM] in H. unfold mbind at 1, M_bind at 1 in H.
    destruct (f x s) as [[y|e] s1] eqn:Hx; [|discriminate H].
    unfold mbind at 1, M_bind at 1 in H.
    destruct (mapM f l s1) as [[k|e] s2] eqn:Hl; [|discriminate H].
    unfold mret, M_ret in H. injection H as <- <-.
    constructor; [by eexists _, _|]. by eapply IH.
Qed.

Lemma marcar_verificado (relogio : nat -> string) (status : string) (p p' : produto)
    (n n' : nat) :
  status ∈ status_da_atualizacao ->
  marcar relogio status p n = (Ok p', n') ->
  ean p' = ean p /\ verificado p'.
Proof.
  intros Hs [= <- <-]. split; [done|]. split.
  - exists status. split; [|done]. cbn [campos].
    rewrite lookup_insert_ne by done. apply lookup_insert_eq.
  - eexists. cbn [campos]. apply lookup_insert_eq.
Qed.

Lemma atualizar_um_verificado (relogio : nat -> string) (m : gmap string value)
    (p p' : produto) (n n' : nat) :
  atualizar_um relogio m p n = (Ok p', n') ->
  ean p' = ean p /\ verificado p'.
Proof.
  assert (HNE : "Não Encontrado" ∈ status_da_atualizacao) by (right; left).
  assert (HER : "Erro" ∈ status_da_atualizacao) by (right; right; left).
  unfold atualizar_um.
  destruct (m !! ean p) as [r|]; [|by apply marcar_verificado].
  destruct (truthy r); cbn [negb]; [|by apply marcar_verificado].
  unfold mbind at 1, M_bind at 1, lift at 1.
  destruct (attr_get r "is_not_found" VNone) as [nf|]; [|discriminate].
  destruct (truthy nf); [by apply marcar_verificado|].
  unfold mbind at 1, M_bind at 1, lift at 1.
  destruct (extrair_preco_e_nome r) as [[novo nome]|]; [|discriminate].
  set (c1 := if truthy nome then _ else campos p).
  destruct novo as [preco|].
  2:{ intros H. by apply marcar_verificado in H. }
  destruct (truthy (VNum preco)).
  2:{ intros H. by apply marcar_verificado in H. }
  unfold mbind at 1, M_bind at 1, agora at 1.
  unfold mbind at 1, M_bind at 1, agora at 1.
  set (c3 := <["status" := _]> _).
  unfold mbind at 1, M_bind at 1, lift at 1.
  destruct (adicionar_ao_historico c3 preco (relogio (S n))) as [c4|] eqn:Hc4; [|discriminate].
  pose proof (adicionar_ao_historico_inv _ _ _ _ Hc4) as Hfr.
  assert (Hv : forall c5 : gmap string value,
            (forall k, k <> "variacao" -> c5 !! k = c4 !! k) ->
            verificado {| ean := ean p; campos := c5 |}).
  { intros c5 H5. split.
    - exists "Monitorando". split; [|left]. cbn [campos].
      rewrite H5, Hfr by done. apply lookup_insert_eq.
    - eexists. cbn [campos]. rewrite H5, Hfr by done. unfold c3.
      rewrite lookup_insert_ne by done. apply lookup_insert_eq. }
  destruct (truthy (default VNone (c1 !! "preco_atual"))).
  - unfold mbind at 1, M_bind at 1, lift at 1.
    destruct (calcular_variacao _ _) as [v|]; [|discriminate].
    unfold mret, M_ret. intros [= <- <-]. split; [done|]. apply Hv.
    intros k Hk. by rewrite lookup_insert_ne.
  - unfold mret, M_ret. intros [= <- <-]. split; [done|]. apply Hv.
    intros k Hk. by rewrite lookup_insert_ne.
Qed.

(** X12: a run that saves saves the same products, in the same order
    and with the same codes, and each of them with one of the three
    statuses and a clock reading as last check: none stays pending, none
    is added or dropped. *)
Theorem atualizar_produtos_mesmos_produtos (relogio : nat -> string) (w : world)
    (produtos salvos : list produto) :
  atualizar_produtos relogio w produtos = Ok (Some salvos) ->
  ean <$> salvos = ean <$> produtos /\ Forall verificado salvos.
Proof.
  unfold atualizar_produtos. destruct produtos as [|p0 ps]; [discriminate|].
  assert (Hgo : forall (f : produto -> C produto) l l' n n',
            (forall p p' n n', f p n = (Ok p', n') -> ean p' = ean p /\ verificado p') ->
            mapM f l n = (Ok l', n') ->
            ean <$> l' = ean <$> l /\ Forall verificado l').
  { intros f l l' n n' Hf Hm. apply mapM_M_inv in Hm.
    induction Hm as [|x y l l' (s1 & s2 & Hxy) _ [IH1 IH2]]; [done|].
    destruct (Hf _ _ _ _ Hxy) as [He Hv]. cbn [fmap list_fmap]. split.
    - by rewrite He, <- IH1.
    - by constructor. }
  destruct (scrape_by_eans w (ean <$> p0 :: ps) []) as [[rs|e] tr].
  - destruct (indexar_resultados rs) as [m|]; [|discriminate].
    cbn [mbind outcome_bind].
    destruct (mapM (atualizar_um relogio m) (p0 :: ps) 0) as [[l'|e] n'] eqn:Hm;
      [|discriminate].
    cbn [fst mbind outcome_bind]. intros [= <-].
    eapply Hgo; [|exact Hm]. intros p p' n1 n2. apply atualizar_um_verificado.
  - destruct (mapM (marcar relogio "Erro") (p0 :: ps) 0) as [[l'|e'] n'] eqn:Hm;
      [|discriminate].
    cbn [fst mbind outcome_bind]. intros [= <-].
    eapply Hgo; [|exact Hm]. intros p p' n1 n2. apply marcar_verificado.
    right. right. left.
Qed.

(** ** The index of the results *)

Lemma indexar_chave (m : gmap string value) (r : value) (c : string) :
  chave_resultado r = Ok (VStr c) ->
  c <> "" ->
  indexar m r = Ok (<[c := r]> m).
Proof.
  intros Hk Hc. unfold indexar. rewrite Hk. cbn [mbind outcome_bind truthy].
  destruct (String.eqb c "") eqn:E; [by apply String.eqb_eq in E|done].
Qed.

Lemma indexar_outra_chave (m m' : gmap string value) (r : value) (c : string) :
  indexar m r = Ok m' ->
  chave_resultado r <> Ok (VStr c) ->
  m' !! c = m !! c.
Proof.
  unfold indexar. intros H Hk.
  destruct (chave_resultado r) as [k|]; [|discriminate H].
  cbn [mbind outcome_bind] in H.
  destruct (truthy k); [|by injection H as <-].
  destruct k as [| | |s| |]; try discriminate H; injection H as <-; try done.
  rewrite lookup_insert_ne; [done|]. intros ->. by apply Hk.
Qed.

(** X13: when several records have the same key, the product is joined
    to the last one of them in the results. *)
Theorem indexar_resultados_ultimo (rs1 rs2 : list value) (r : value) (c : string)
    (resultados_por_ean : gmap string value) :
  indexar_resultados (rs1 ++ r :: rs2) = Ok resultados_por_ean ->
  chave_resultado r = Ok (VStr c) ->
  c <> "" ->
  (forall r', r' ∈ rs2 -> chave_resultado r' <> Ok (VStr c)) ->
  resultados_por_ean !! c = Some r.
Proof.
  unfold indexar_resultados. generalize (∅ : gmap string value). intros m0.
  revert m0. induction rs1 as [|r1 rs1 IH]; intros m0 H Hk Hc Hrest.
  - cbn [app foldM] in H. rewrite (indexar_chave _ _ _ Hk Hc) in H.
    cbn [mbind outcome_bind] in H.
    assert (Hl : (<[c := r]> m0) !! c = Some r) by apply lookup_insert_eq.
    revert H Hl. generalize (<[c := r]> m0).
    induction rs2 as [|r2 rs2 IH]; intros m H Hl.
    + cbn in H. by injection H as <-.
    + cbn [foldM] in H. destruct (indexar m r2) as [m1|] eqn:Hi; [|discriminate H].
      cbn [mbind outcome_bind] in H. eapply IH; [| exact H|].
      * intros r' Hr'. apply Hrest. by apply list_elem_of_further.
      * rewrite (indexar_outra_chave _ _ _ _ Hi); [done|]. apply Hrest.
        apply list_elem_of_here.
  - cbn [app foldM] in H. destruct (indexar m0 r1) as [m1|]; [|discriminate H].
    cbn [mbind outcome_bind] in H. by eapply IH.
Qed.

(** ** The properties above on concrete inputs *)

Lemma map_products_fundado_witness :
  "7891000000010" ∈ ["7891000000010"] /\
  exists product, [VDict resumo_via_imagem] !! 0 = Some product /\
                  produto_mostra_lote "7891000000010" product.
Proof.
  apply (map_products_fundado ["7891000000010"] [VDict resumo_via_imagem]
           {["7891000000010" := 0]}); reflexivity.
Defined.

Lemma map_item_nao_sobrescreve_witness :
  ({["7891000000010" := 5]} : gmap string nat) !! "7891000000010" = Some 5.
Proof.
  exact (map_item_nao_sobrescreve ["7891000000010"] 0 {["7891000000010" := 5]}
           {["7891000000010" := 5]} item_sem_ean (VStr "") eq_refl eq_refl eq_refl
           "7891000000010" 5 eq_refl).
Defined.

Lemma scan_products_fundado_witness :
  VDict resumo_curto = VNone \/
  (VDict resumo_curto ∈ [VDict resumo_curto] /\ produto_mostra "123" (VDict resumo_curto)).
Proof.
  apply (scan_products_fundado "123" [VDict resumo_curto] (VDict resumo_curto)).
  reflexivity.
Defined.

Lemma process_short_codes_um_por_codigo_witness :
  Forall2 (registro_individual w_detalhe) ["123"]
    [VDict (<["target_name" := VStr "Busca Código: 123"]> resultado_detalhado)] /\
  termos [EProxy "123"; EDetail (VStr "42"); ESleep 10] = [] ++ ["123"].
Proof.
  apply (process_short_codes_um_por_codigo w_detalhe ["123"] []).
  vm_compute. reflexivity.
Defined.

Lemma scrape_by_eans_um_por_codigo_witness :
  exists rs tr',
    scrape_by_eans w_cruzado ["7891000000010"; "123"; "7891000000027"] [] = (Ok rs, tr') /\
    exists codes13 r13 r_short,
      rs = r13 ++ r_short /\
      codes13 ≡ₚ filter (fun ean => py_len ean = 13)
                        ["7891000000010"; "123"; "7891000000027"] /\
      Forall2 (registro_do_codigo w_cruzado
                 (filter (fun ean => py_len ean = 13)
                         ["7891000000010"; "123"; "7891000000027"])) codes13 r13 /\
      Forall2 (registro_individual w_cruzado)
              (filter (fun ean => py_len ean < 13)
                      ["7891000000010"; "123"; "7891000000027"]) r_short.
Proof.
  eexists _, _. split; [vm_compute; reflexivity|].
  eapply (scrape_by_eans_um_por_codigo w_cruzado
            ["7891000000010"; "123"; "7891000000027"] []).
  vm_compute. reflexivity.
Defined.

Lemma scrape_by_eans_fora_do_ar_witness :
  scrape_by_eans w0 codigos_mistos []
  = (Ok [nao_encontrado "7891000000010"; nao_encontrado "١٢٣٤٥٦٧"],
     [EProxy "7891000000010"; ESleep 10; EProxy "١٢٣٤٥٦٧"; ESleep 10]).
Proof.
  exact (scrape_by_eans_fora_do_ar w0 codigos_mistos [] (fun _ _ => eq_refl)).
Defined.

Lemma atualizar_produtos_fora_do_ar_witness :
  atualizar_produtos relogio_exemplo w0 [produto_com_preco]
  = Ok (Some [marcado "Não Encontrado" (relogio_exemplo 0) produto_com_preco]).
Proof.
  apply (atualizar_produtos_fora_do_ar relogio_exemplo w0 [produto_com_preco]).
  - intros tr t. reflexivity.
  - discriminate.
Defined.

Lemma atualizar_um_marcado_nao_encontrado_witness :
  atualizar_um relogio_exemplo {["123" := nao_encontrado "123"]} produto_exemplo 0
  = (Ok (marcado "Não Encontrado" (relogio_exemplo 0) produto_exemplo), 1).
Proof.
  refine (proj1 (atualizar_um_marcado_nao_encontrado relogio_exemplo
            {["123" := nao_encontrado "123"]} produto_exemplo
            (<["is_not_found" := VBool true]> (<["ean" := VStr "123"]> ∅)) 0 _ _));
    reflexivity.
Defined.

Lemma atualizar_um_sem_preco_witness :
  exists p',
    atualizar_um relogio_exemplo {["7891000000010" := VDict resumo_com_id]}
      produto_com_preco 0 = (Ok p', 1) /\
    ean p' = "7891000000010" /\
    campos p' !! "status" = Some (VStr "Erro") /\
    campos p' !! "ultima_verificacao" = Some (VStr (relogio_exemplo 0)) /\
    campos p' !! "nome" = Some (VStr "Dipirona 500mg") /\
    forall k, k <> "status" -> k <> "ultima_verificacao" -> k <> "nome" ->
              campos p' !! k = campos produto_com_preco !! k.
Proof.
  apply (atualizar_um_sem_preco relogio_exemplo {["7891000000010" := VDict resumo_com_id]}
           produto_com_preco resumo_com_id None (VStr "Dipirona 500mg") 0).
  - reflexivity.
  - intros H. apply (f_equal (fun m : gmap string value => m !! "productId")) in H.
    discriminate H.
  - reflexivity.
  - reflexivity.
  - by left.
Defined.

Lemma atualizar_um_com_preco_anterior_witness :
  exists p',
    atualizar_um relogio_exemplo {["7891000000010" := VDict resultado_detalhado]}
      produto_com_preco 0 = (Ok p', 2) /\
    ean p' = "7891000000010" /\
    campos p' !! "preco_atual" = Some (VNum 15.9) /\
    campos p' !! "preco_anterior" = Some (VNum 12.5) /\
    campos p' !! "variacao" = Some (VNum 27.2) /\
    campos p' !! "status" = Some (VStr "Monitorando") /\
    campos p' !! "ultima_verificacao" = Some (VStr "2026-01-02T08:00:00-03:00") /\
    campos p' !! "historico"
    = Some (VList [novo_ponto "2026-01-01T08:00:00-03:00" 12.5;
                   novo_ponto "2026-01-02T08:00:01-03:00" 15.9]) /\
    campos p' !! "nome" = Some (VStr "Dipirona 500mg").
Proof.
  apply (atualizar_um_com_preco_anterior relogio_exemplo
           {["7891000000010" := VDict resultado_detalhado]} produto_com_preco
           (VDict resultado_detalhado) 15.9%float 12.5%float (VStr "Dipirona 500mg") 0).
  - reflexivity.
  - reflexivity.
  - reflexivity.
  - reflexivity.
  - reflexivity.
  - right. eexists. reflexivity.
Defined.

Lemma atualizar_produtos_mesmos_produtos_witness :
  ean <$> [marcado "Erro" (relogio_exemplo 0) produto_exemplo] = ean <$> [produto_exemplo] /\
  Forall verificado [marcado "Erro" (relogio_exemplo 0) produto_exemplo].
Proof.
  apply (atualizar_produtos_mesmos_produtos relogio_exemplo w_erro [produto_exemplo]).
  reflexivity.
Defined.

Lemma indexar_resultados_ultimo_witness :
  (<["7891000000010" := VDict resultado_detalhado]>
     (<["7891000000010" := nao_encontrado "7891000000010"]> ∅) : gmap string value)
    !! "7891000000010" = Some (VDict resultado_detalhado).
Proof.
  apply (indexar_resultados_ultimo [nao_encontrado "7891000000010"] []
           (VDict resultado_detalhado) "7891000000010").
  - reflexivity.
  - reflexivity.
  - discriminate.
  - intros r' H. by apply elem_of_nil in H.
Defined.

(** ** Requests and pauses *)

Lemma segundos_app (tr1 tr2 : list event) :
  segundos (tr1 ++ tr2) = segundos tr1 ++ segundos tr2.
Proof. apply omap_app. Qed.

Lemma process_short_pausas (w : world) (codes : list string) (acc rs : list value)
    (tr tr' : list event) :
  foldM (individual_um w) codes acc tr = (Ok rs, tr') ->
  length (segundos tr') = length (segundos tr) + length codes.
Proof.
  revert acc tr. induction codes as [|code codes IH]; intros acc tr H.
  - cbn in H. unfold mret, M_ret in H. injection H as <- <-. cbn. lia.
  - cbn [foldM] in H. unfold mbind, M_bind in H.
    destruct (individual_um w acc code tr) as [[acc1|] tr1] eqn:Hum; [|discriminate H].
    destruct (individual_um_spec _ _ _ _ _ _ Hum) as (r & -> & Hr & Htr).
    rewrite (IH _ _ H).
    destruct Htr as [-> | [pid ->]]; rewrite segundos_app, length_app; cbn; lia.
Qed.

Lemma enrich_um_item_trace (w : world) (target_name : string) (summary : value)
    (tr tr' : list event) (es : list value) :
  enrich_product_summaries w [summary] target_name tr = (Ok es, tr') ->
  termos tr' = termos tr /\ segundos tr' = segundos tr.
Proof.
  unfold enrich_product_summaries. cbn [foldM]. unfold enrich_um.
  unfold mbind at 1, M_bind at 1. unfold mbind at 1, M_bind at 1, lift at 1.
  destruct (attr_get summary "productId" VNone) as [pid|]; [|discriminate].
  destruct (truthy pid); cbn [negb].
  2:{ unfold mret, M_ret. by intros [= <- <-]. }
  unfold mbind at 1, M_bind at 1, fetch_product_details at 1.
  destruct (details w tr pid) as [det|]; [|discriminate].
  assert (Hev : termos ((tr ++ [EDetail pid]) ++ [ESleep 1]) = termos tr /\
                segundos ((tr ++ [EDetail pid]) ++ [ESleep 1]) = segundos tr).
  { rewrite !termos_app, !segundos_app. cbn. by rewrite !app_nil_r. }
  destruct (truthy det).
  - unfold mbind at 1, M_bind at 1. unfold mbind at 1, M_bind at 1, lift at 1.
    destruct (set_item det "target_name" (VStr target_name)) as [r|]; [|discriminate].
    unfold mbind, M_bind, sleep, mret, M_ret. by intros [= <- <-].
  - unfold mbind, M_bind, sleep, mret, M_ret. by intros [= <- <-].
Qed.

Lemma batch_um_trace (w : world) (m : gmap string nat) (products : list value)
    (st st' : batch_state) (code : string) (tr tr' : list event) :
  batch_um w m st code tr = (Ok st', tr') ->
  mesmos_ids (store st) products ->
  termos tr' = termos tr /\ segundos tr' = segundos tr /\
  mesmos_ids (store st') products /\
  eans_not_found_in_batch st'
  = eans_not_found_in_batch st ++ (if escalado m products code then [code] else []).
Proof.
  unfold batch_um, escalado. intros H Hids.
  destruct (m !! code) as [i|].
  2:{ unfold mret, M_ret in H. by injection H as <- <-. }
  destruct (store st !! i) as [summary|] eqn:Hs; [|discriminate H].
  destruct (Forall2_lookup_l _ _ _ _ _ Hids Hs) as (s0 & Hs0 & Hid). rewrite Hs0, <- Hid.
  unfold mbind at 1, M_bind at 1, lift at 1 in H.
  destruct (attr_get summary "productId" VNone) as [pid|] eqn:Hpid; [|discriminate H].
  destruct (truthy pid); cbn [negb].
  2:{ unfold mret, M_ret in H. by injection H as <- <-. }
  unfold mbind at 1, M_bind at 1 in H.
  destruct (enrich_product_summaries w [summary] (label_ean code) tr)
    as [[es|] tr1] eqn:He; [|discriminate H].
  destruct (enrich_um_item_trace _ _ _ _ _ _ He) as [Ht Hp].
  destruct es as [|e es].
  - unfold mbind at 1, M_bind at 1, lift at 1 in H.
    destruct (set_item summary "target_name" (VStr (label_ean code))) as [s|] eqn:Hset;
      [|discriminate H].
    unfold mret, M_ret in H. injection H as <- <-. cbn [store eans_not_found_in_batch].
    rewrite app_nil_r. repeat split; try done.
    unfold mesmos_ids. apply Forall2_same_length_lookup. split.
    + rewrite length_insert. by eapply Forall2_length.
    + intros j a b Ha Hb. destruct (decide (i = j)) as [->|Hne].
      * rewrite list_lookup_insert_eq in Ha by (by eapply lookup_lt_Some).
        injection Ha as <-. rewrite Hs0 in Hb. injection Hb as <-.
        rewrite <- Hid, <- Hpid. destruct summary; try discriminate Hset.
        cbn in Hset. injection Hset as <-. cbn [attr_get].
        by rewrite lookup_insert_ne.
      * rewrite list_lookup_insert_ne in Ha by done.
        by eapply (Forall2_lookup_lr _ _ _ _ _ _ Hids).
  - unfold mret, M_ret in H. injection H as <- <-. cbn [store eans_not_found_in_batch].
    by rewrite app_nil_r.
Qed.

Lemma batch_loop_trace (w : world) (m : gmap string nat) (products : list value)
    (batch : list string) (st st' : batch_state) (tr tr' : list event) :
  foldM (batch_um w m) batch st tr = (Ok st', tr') ->
  mesmos_ids (store st) products ->
  termos tr' = termos tr /\ segundos tr' = segundos tr /\
  eans_not_found_in_batch st'
  = eans_not_found_in_batch st ++ filter (fun c => escalado m products c) batch.
Proof.
  revert st tr. induction batch as [|code batch IH]; intros st tr H Hids.
  - cbn in H. unfold mret, M_ret in H. injection H as <- <-. by rewrite app_nil_r.
  - cbn [foldM] in H. unfold mbind, M_bind in H.
    destruct (batch_um w m st code tr) as [[st1|] tr1] eqn:Hum; [|discriminate H].
    destruct (batch_um_trace _ _ _ _ _ _ _ _ Hum Hids) as (Ht & Hp & Hids1 & Hnf).
    destruct (IH _ _ H Hids1) as (Ht' & Hp' & Hnf').
    rewrite Ht', Hp', Hnf', Hnf, Ht, Hp. repeat split; try done.
    rewrite <- app_assoc. f_equal. rewrite filter_cons.
    destruct (escalado m products code); by case_decide.
Qed.

Lemma mesmos_ids_refl (page : list value) : mesmos_ids page page.
Proof. apply Forall2_same_length_lookup. split; [done|]. intros i a b Ha Hb. congruence. Qed.

Lemma process_batch_trace (w : world) (acc : list value) (batch : list string)
    (tr tr' : list event) (rs : list value) :
  process_batch w acc batch tr = (Ok rs, tr') ->
  exists k,
    termos tr' = termos tr ++ String.concat ", " batch :: k /\
    length (segundos tr') = length (segundos tr) + S (length k) /\
    forall page products m,
      proxy w tr (String.concat ", " batch) = Ok page ->
      is_none page = false ->
      py_iter page = Ok products ->
      map_products batch 0 products ∅ = Ok m ->
      k = filter (fun c => escalado m products c) batch.
Proof.
  unfold process_batch, fazer_requisicao_api_proxy.
  unfold mbind at 1, M_bind at 1.
  destruct (proxy w tr (String.concat ", " batch)) as [page|]; [|discriminate].
  destruct (is_none page) eqn:Hnone.
  { unfold mbind, M_bind, sleep, mret, M_ret. intros [= <- <-]. exists [].
    rewrite !termos_app, !segundos_app, !length_app. cbn. rewrite app_nil_r.
    split; [done|]. split; [lia|]. intros p ps m [= <-]. congruence. }
  unfold mbind at 1, M_bind at 1, lift at 1.
  destruct (py_iter page) as [products|] eqn:Hit; [|discriminate].
  unfold mbind at 1, M_bind at 1, lift at 1.
  destruct (map_products batch 0 products ∅) as [m|] eqn:Hmp; [|discriminate].
  unfold mbind at 1, M_bind at 1.
  destruct (foldM (batch_um w m) batch _ _) as [[st|] tr1] eqn:Hloop; [|discriminate].
  destruct (batch_loop_trace w m products batch _ _ _ _ Hloop) as (Ht & Hp & Hnf);
    [apply mesmos_ids_refl|]. cbn [eans_not_found_in_batch app] in Hnf.
  set (k := filter (fun c => escalado m products c) batch) in *.
  assert (Hind : exists ind tr2,
            match eans_not_found_in_batch st with
            | [] => mret []
            | _ :: _ => process_short_codes_individually w (eans_not_found_in_batch st)
            end tr1 = (ind, tr2) /\
            forall ind', ind = Ok ind' ->
              termos tr2 = termos tr1 ++ k /\
              length (segundos tr2) = length (segundos tr1) + length k).
  { rewrite Hnf. destruct k as [|c k0] eqn:Hk.
    - eexists _, _. split; [reflexivity|]. intros ind' _.
      split; [by rewrite app_nil_r|cbn; lia].
    - destruct (process_short_codes_individually w (c :: k0) tr1) as [ind tr2] eqn:Hpr.
      exists ind, tr2. split; [done|]. intros ind' ->. split.
      + by destruct (process_short_spec _ _ _ _ _ _ Hpr) as (rs' & _ & _ & ?).
      + by apply process_short_pausas in Hpr. }
  destruct Hind as (ind0 & tr2 & Hrun & Hind).
  unfold mbind at 1, M_bind at 1. rewrite Hrun.
  destruct ind0 as [ind|]; [|discriminate]. destruct (Hind _ eq_refl) as [Ht2 Hp2].
  unfold mbind, M_bind, sleep, mret, M_ret. intros [= <- <-]. exists k.
  rewrite termos_app, segundos_app, length_app, Ht2, Hp2, Ht, Hp.
  rewrite termos_app, segundos_app. cbn. rewrite !app_nil_r, <- app_assoc.
  split; [done|]. split; [lia|].
  intros p ps m' [= <-] _ Hit' Hmp'. rewrite Hit in Hit'. injection Hit' as <-.
  rewrite Hmp in Hmp'. by injection Hmp' as <-.
Qed.

(** X14: after a bulk answer, the term searches made for the batch are
    the bulk request and then one individual search for each code of the
    batch, in order, that the map gives no product or a product without
    identifier; the other codes are not searched again. *)
Theorem process_batch_escalados (w : world) (acc : list value) (batch : list string)
    (tr tr' : list event) (rs page : list value) (m : gmap string nat) :
  proxy w tr (String.concat ", " batch) = Ok (VList page) ->
  map_products batch 0 page ∅ = Ok m ->
  process_batch w acc batch tr = (Ok rs, tr') ->
  termos tr'
  = termos tr ++ String.concat ", " batch :: filter (fun c => escalado m page c) batch.
Proof.
  intros Hp Hm H. destruct (process_batch_trace _ _ _ _ _ _ H) as (k & Ht & _ & Hk).
  rewrite Ht. by rewrite (Hk _ _ _ Hp eq_refl eq_refl Hm).
Qed.

Lemma process_batches_trace (w : world) (batches : list (list string)) (acc rs : list value)
    (tr tr' : list event) :
  foldM (process_batch w) batches acc tr = (Ok rs, tr') ->
  exists n, length (termos tr') = length (termos tr) + n /\
            length (segundos tr') = length (segundos tr) + n.
Proof.
  revert acc tr. induction batches as [|batch batches IH]; intros acc tr H.
  - cbn in H. unfold mret, M_ret in H. injection H as <- <-. exists 0. lia.
  - cbn [foldM] in H. unfold mbind, M_bind in H.
    destruct (process_batch w acc batch tr) as [[acc1|] tr1] eqn:Hb; [|discriminate H].
    destruct (process_batch_trace _ _ _ _ _ _ Hb) as (k & Ht & Hs & _).
    destruct (IH _ _ H) as (n & Ht' & Hs').
    exists (S (length k) + n). rewrite Ht', Hs', Ht, Hs, length_app. cbn [length]. lia.
Qed.

(** X15: when the resolver returns, it has paused one second exactly
    as many times as it has made term searches. *)
Theorem scrape_by_eans_pausas (w : world) (eans : list string)
    (tr tr' : list event) (rs : list value) :
  scrape_by_eans w eans tr = (Ok rs, tr') ->
  exists n, length (termos tr') = length (termos tr) + n /\
            length (segundos tr') = length (segundos tr) + n.
Proof.
  unfold scrape_by_eans.
  set (valid := filter (fun ean => py_len ean = 13) eans).
  set (short := filter (fun ean => py_len ean < 13) eans).
  assert (H1 : exists o1 tr1,
            match valid with [] => mret [] | _ :: _ => process_eans_in_batch w valid end tr
            = (o1, tr1) /\
            forall r1, o1 = Ok r1 ->
              exists n, length (termos tr1) = length (termos tr) + n /\
                        length (segundos tr1) = length (segundos tr) + n).
  { destruct valid as [|v valid0] eqn:Hval.
    - eexists _, _. split; [reflexivity|]. intros r1 _. exists 0. lia.
    - rewrite <- Hval in *.
      destruct (process_eans_in_batch w valid tr) as [o1 tr1] eqn:Hp.
      exists o1, tr1. split; [done|]. intros r1 ->. unfold process_eans_in_batch in Hp.
      by eapply process_batches_trace. }
  destruct H1 as (o1 & tr1 & Hrun1 & H1).
  unfold mbind at 1, M_bind at 1. rewrite Hrun1.
  destruct o1 as [r1|]; [|discriminate]. destruct (H1 _ eq_refl) as (n1 & Ht1 & Hs1).
  assert (H2 : exists o2 tr2,
            match short with
            | [] => mret []
            | _ :: _ => process_short_codes_individually w short
            end tr1 = (o2, tr2) /\
            forall r2, o2 = Ok r2 ->
              length (termos tr2) = length (termos tr1) + length short /\
              length (segundos tr2) = length (segundos tr1) + length short).
  { destruct short as [|c short0] eqn:Hsh.
    - eexists _, _. split; [reflexivity|]. intros r2 _. cbn. lia.
    - rewrite <- Hsh in *.
      destruct (process_short_codes_individually w short tr1) as [o2 tr2] eqn:Hp.
      exists o2, tr2. split; [done|]. intros r2 ->. split.
      + destruct (process_short_spec _ _ _ _ _ _ Hp) as (rs' & _ & _ & ->).
        by rewrite length_app.
      + by apply process_short_pausas in Hp. }
  destruct H2 as (o2 & tr2 & Hrun2 & H2).
  unfold mbind at 1, M_bind at 1. rewrite Hrun2.
  destruct o2 as [r2|]; [|discriminate]. destruct (H2 _ eq_refl) as [Ht2 Hs2].
  unfold mret, M_ret. intros [= <- <-]. exists (n1 + length short). lia.
Qed.

Lemma process_batch_escalados_witness :
  exists rs tr',
    process_batch (w_pagina [VDict resumo_via_imagem]) []
      ["7891000000010"; "7891000000027"] [] = (Ok rs, tr') /\
    termos tr' = [] ++ ["7891000000010, 7891000000027"; "7891000000027"].
Proof.
  eexists _, _. split; [vm_compute; reflexivity|].
  etrans.
  - eapply (process_batch_escalados (w_pagina [VDict resumo_via_imagem]) []
             ["7891000000010"; "7891000000027"] [] _ _ [VDict resumo_via_imagem]
             {["7891000000010" := 0]}).
    + reflexivity.
    + reflexivity.
    + vm_compute. reflexivity.
  - vm_compute. reflexivity.
Defined.

Lemma scrape_by_eans_pausas_witness :
  exists rs tr',
    scrape_by_eans (w_pagina [VDict resumo_via_imagem]) tres_codigos [] = (Ok rs, tr') /\
    exists n, length (termos tr') = length (termos []) + n /\
              length (segundos tr') = length (segundos []) + n.
Proof.
  eexists _, _. split; [vm_compute; reflexivity|].
  eapply (scrape_by_eans_pausas (w_pagina [VDict resumo_via_imagem]) tres_codigos []).
  vm_compute. reflexivity.
Defined.

(** * scrape_target *)

Lemma mapM_set_item (target_name : value) (page : list (gmap string value)) :
  mapM (fun product => set_item product "target_name" target_name) (VDict <$> page)
  = Ok (rotulados target_name page).
Proof.
  induction page as [|d page IH]; [done|].
  cbn [fmap list_fmap mapM]. cbn [set_item mbind outcome_bind]. rewrite IH. done.
Qed.

Lemma paginas_spec (wv : world_vtex) (target_name : value) (m q : string)
    (pages : nat -> list (gmap string value)) (k : nat) :
  forall (i fuel : nat) (acc : list value) (tr : list evento_alvo),
    (forall tr0 j, i <= j < i + k ->
       vtex wv tr0 (variables_da_pagina m q j) = Ok (VList (VDict <$> pages j)) /\
       pages j <> []) ->
    (forall tr0, fim_da_paginacao (vtex wv tr0 (variables_da_pagina m q (i + k)))) ->
    k < fuel ->
    paginas wv fuel target_name m q i acc tr
    = (Ok (Some (acc ++ concat ((fun j => rotulados target_name (pages j)) <$> seq i k))),
       tr ++ eventos_paginas m q i k).
Proof.
  induction k as [|k IH]; intros i fuel acc tr Hpages Hend Hfuel.
  - destruct fuel as [|fuel]; [lia|]. cbn [paginas eventos_paginas seq fmap list_fmap concat].
    unfold mbind at 1, M_bind at 1, requisicao_vtex at 1.
    rewrite Nat.add_0_r in Hend. rewrite app_nil_r.
    destruct (Hend tr) as [(v & -> & Hv) | (e & ->)].
    + destruct (is_none v); [done|]. by rewrite Hv.
    + done.
  - destruct fuel as [|fuel]; [lia|]. cbn [paginas eventos_paginas seq fmap list_fmap concat].
    unfold mbind at 1, M_bind at 1, requisicao_vtex at 1.
    destruct (Hpages tr i) as [Hp Hne]; [lia|]. rewrite Hp. cbn [is_none].
    assert (Ht : truthy (VList (VDict <$> pages i)) = true).
    { cbn [truthy]. rewrite length_fmap. destruct (pages i); [done|reflexivity]. }
    rewrite Ht. cbn [negb].
    unfold mbind at 1, M_bind at 1, lift at 1. cbn [py_iter].
    unfold mbind at 1, M_bind at 1, lift at 1. rewrite mapM_set_item.
    unfold mbind at 1, M_bind at 1, pausa at 1.
    rewrite IH.
    + f_equal; [by rewrite <- app_assoc|]. by rewrite <- !app_assoc.
    + intros tr0 j Hj. apply Hpages. lia.
    + intros tr0. replace (S i + k) with (i + S k) by lia. apply Hend.
    + lia.
Qed.

(** X16: when the catalogue gives [k] pages that are non-empty lists of
    dicts and then a page that is empty, [None] or an exception, the
    loop of [scrape_target] ends: with room for more than [k] pages it
    returns the products of the [k] pages in order, each labelled with
    the name of the target; it asks for the windows [50 j .. 50 j + 49],
    [j] from 0 to [k], and pauses after each page but the last. *)
Theorem scrape_target_paginas (wv : world_vtex) (target : gmap string value)
    (target_name : value) (m q : string) (pages : nat -> list (gmap string value))
    (k fuel : nat) (tr : list evento_alvo) :
  default (VStr "Desconhecido") (target !! "name") = target_name ->
  target !! "map" = Some (VStr m) -> m <> "" ->
  target !! "query" = Some (VStr q) -> q <> "" ->
  (forall tr0 j, j < k ->
     vtex wv tr0 (variables_da_pagina m q j) = Ok (VList (VDict <$> pages j)) /\
     pages j <> []) ->
  (forall tr0, fim_da_paginacao (vtex wv tr0 (variables_da_pagina m q k))) ->
  k < fuel ->
  scrape_target wv fuel target tr
  = (Ok (Some (concat ((fun j => rotulados target_name (pages j)) <$> seq 0 k))),
     tr ++ eventos_paginas m q 0 k) /\
  forall j, v_from (variables_da_pagina m q j) = 50 * j /\
            v_to (variables_da_pagina m q j) = 50 * j + 49.
Proof.
  intros Hname Hm Hmne Hq Hqne Hpages Hend Hfuel. split.
  - unfold scrape_target. rewrite Hname, Hm, Hq. cbn [default id truthy].
    destruct (String.eqb q "") eqn:Eq; [by apply String.eqb_eq in Eq|].
    destruct (String.eqb m "") eqn:Em; [by apply String.eqb_eq in Em|].
    cbn [negb orb].
    rewrite (paginas_spec wv target_name m q pages k 0 fuel [] tr); [done| | |done].
    + intros tr0 j Hj. apply Hpages. lia.
    + exact Hend.
  - intros j. cbn [variables_da_pagina v_from v_to]. unfold PRODUTOS_POR_PAGINA. lia.
Qed.

Lemma scrape_target_paginas_witness :
  scrape_target wv_duas_paginas 3 alvo_exemplo []
  = (Ok (Some [VDict (<["target_name" := VStr "Vitaminas"]> (<["productId" := VStr "1"]> ∅));
               VDict (<["target_name" := VStr "Vitaminas"]> (<["productId" := VStr "2"]> ∅))]),
     eventos_paginas "c,c" "saude/vitaminas" 0 2).
Proof.
  refine (proj1 (scrape_target_paginas wv_duas_paginas alvo_exemplo (VStr "Vitaminas")
            "c,c" "saude/vitaminas" paginas_exemplo 2 3 [] eq_refl eq_refl _ eq_refl _ _ _ _)).
  - discriminate.
  - discriminate.
  - intros tr0 j Hj. destruct j as [|[|j]]; [by split|by split|lia].
  - intros tr0. left. by exists (VList []).
  - lia.
Defined.

Lemma mapM_set_item_inv (target_name : value) (products labelled : list value) :
  mapM (fun product => set_item product "target_name" target_name) products = Ok labelled ->
  Forall (fun r => exists d, r = VDict d /\ d !! "target_name" = Some target_name) labelled.
Proof.
  revert labelled. induction products as [|p products IH]; intros labelled H.
  - cbn in H. injection H as <-. constructor.
  - cbn [mapM] in H. destruct (set_item p "target_name" target_name) as [r|] eqn:Hs;
      [|discriminate H].
    cbn [mbind outcome_bind] in H.
    destruct (mapM _ products) as [l|]; [|discriminate H].
    cbn [mbind outcome_bind] in H. injection H as <-. constructor; [|by apply IH].
    destruct p; try discriminate Hs. cbn in Hs. injection Hs as <-.
    eexists. split; [done|]. apply lookup_insert_eq.
Qed.

Lemma paginas_rotulados (wv : world_vtex) (target_name : value) (m q : string) (fuel : nat) :
  forall (i : nat) (acc ps : list value) (tr tr' : list evento_alvo),
    paginas wv fuel target_name m q i acc tr = (Ok (Some ps), tr') ->
    Forall (fun r => exists d, r = VDict d /\ d !! "target_name" = Some target_name) acc ->
    Forall (fun r => exists d, r = VDict d /\ d !! "target_name" = Some target_name) ps.
Proof.
  induction fuel as [|fuel IH]; intros i acc ps tr tr' H Hacc; [discriminate H|].
  cbn [paginas] in H. unfold mbind at 1, M_bind at 1, requisicao_vtex at 1 in H.
  set (page := match vtex wv tr _ with Ok p => p | Raise _ => VNone end) in H.
  destruct (is_none page); [unfold mret, M_ret in H; by injection H as <- <-|].
  destruct (truthy page); cbn [negb] in H;
    [|unfold mret, M_ret in H; by injection H as <- <-].
  unfold mbind at 1, M_bind at 1, lift at 1 in H.
  destruct (py_iter page) as [products|]; [|discriminate H].
  unfold mbind at 1, M_bind at 1, lift at 1 in H.
  destruct (mapM _ products) as [labelled|] eqn:Hl; [|discriminate H].
  unfold mbind at 1, M_bind at 1, pausa at 1 in H.
  eapply IH; [exact H|]. apply Forall_app. split; [done|].
  by eapply mapM_set_item_inv.
Qed.

(** X17: whatever the catalogue answers, every product [scrape_target]
    returns is a dict whose ['target_name'] is the name of the target
    (['Desconhecido'] when the target has none). *)
Theorem scrape_target_rotulados (wv : world_vtex) (fuel : nat) (target : gmap string value)
    (ps : list value) (tr tr' : list evento_alvo) :
  scrape_target wv fuel target tr = (Ok (Some ps), tr') ->
  Forall (fun r => exists d, r = VDict d /\
            d !! "target_name" = Some (default (VStr "Desconhecido") (target !! "name"))) ps.
Proof.
  unfold scrape_target.
  destruct (negb _ || negb _).
  { unfold mret, M_ret. intros [= <- <-]. constructor. }
  destruct (default VNone (target !! "map")); try discriminate.
  destruct (default VNone (target !! "query")); try discriminate.
  intros H. eapply paginas_rotulados; [exact H|constructor].
Qed.

Lemma scrape_target_rotulados_witness :
  Forall (fun r => exists d, r = VDict d /\
            d !! "target_name" = Some (default (VStr "Desconhecido") (alvo_exemplo !! "name")))
    [VDict (<["target_name" := VStr "Vitaminas"]> (<["productId" := VStr "1"]> ∅));
     VDict (<["target_name" := VStr "Vitaminas"]> (<["productId" := VStr "2"]> ∅))].
Proof.
  eapply (scrape_target_rotulados wv_duas_paginas 3 alvo_exemplo _ []).
  vm_compute. reflexivity.
Defined.

(** * The list of tracked products *)

Lemma existsb_ean (ean0 : string) (produtos : list produto) :
  existsb (fun p => String.eqb (ean p) ean0) produtos = true <-> ean0 ∈ ean <$> produtos.
Proof.
  induction produtos as [|p ps IH]; cbn.
  - split; [discriminate|]. intros H. by apply elem_of_nil in H.
  - rewrite orb_true_iff, IH, elem_of_cons, String.eqb_eq.
    split; (intros [H|H]; [left; by rewrite H | by right]).
Qed.

Lemma filter_ean_length (ean0 : string) (produtos : list produto) :
  length (filter (fun p => ean p <> ean0) produtos) < length produtos
  <-> ean0 ∈ ean <$> produtos.
Proof.
  induction produtos as [|p ps IH].
  - cbn. split; [lia|]. intros H. by apply elem_of_nil in H.
  - rewrite filter_cons. cbn [fmap list_fmap length]. rewrite elem_of_cons.
    pose proof (length_filter (fun p => ean p <> ean0) ps).
    case_decide as Hp; cbn [length].
    + split.
      * intros Hl. right. apply IH. lia.
      * intros [-> | Hin]; [done|]. apply IH in Hin. lia.
    + split; [|lia]. intros _. left. by destruct (decide (ean p = ean0)).
Qed.

Lemma filter_ean_fora (ean0 : string) (produtos : list produto) :
  ean0 ∉ ean <$> filter (fun p => ean p <> ean0) produtos.
Proof.
  intros H. apply list_elem_of_fmap in H as (p & Hp & Hin).
  apply list_elem_of_filter in Hin as [Hne _]. by apply Hne.
Qed.

Lemma filter_ean_NoDup (ean0 : string) (produtos : list produto) :
  NoDup (ean <$> produtos) ->
  NoDup (ean <$> filter (fun p => ean p <> ean0) produtos).
Proof.
  induction produtos as [|p ps IH]; intros H.
  - rewrite filter_nil. cbn. apply NoDup_nil_2.
  - cbn [fmap list_fmap] in H. apply NoDup_cons in H as [Hp Hps].
    rewrite filter_cons. case_decide; [|by apply IH].
    cbn [fmap list_fmap]. apply NoDup_cons. split; [|by apply IH].
    intros Hin. apply Hp. apply list_elem_of_fmap in Hin as (q & Hq & Hin).
    apply list_elem_of_filter in Hin as [_ Hin]. apply list_elem_of_fmap. by exists q.
Qed.

Lemma filter_ean_id (ean0 : string) (produtos : list produto) :
  ean0 ∉ ean <$> produtos ->
  filter (fun p => ean p <> ean0) produtos = produtos.
Proof.
  induction produtos as [|p ps IH]; intros H; [done|].
  cbn [fmap list_fmap] in H. apply not_elem_of_cons in H as [Hp Hps].
  rewrite filter_cons_True by done. by rewrite IH.
Qed.

(** X18 ([adicionar_produto]): on a list that holds no code twice, the
    call answers [True] exactly when the code is not yet in the list;
    then the saved list is the old one followed by a fresh pending
    product for the code, otherwise the list is left as it was.  Either
    way the list still holds no code twice. *)
Theorem adicionar_produto_unico (ean0 : string) (produtos : list produto) :
  NoDup (ean <$> produtos) ->
  NoDup (ean <$> snd (adicionar_produto ean0 produtos)) /\
  (fst (fst (adicionar_produto ean0 produtos)) = true <-> ean0 ∉ ean <$> produtos) /\
  snd (adicionar_produto ean0 produtos)
  = (if fst (fst (adicionar_produto ean0 produtos)) : bool
     then produtos ++ [novo_produto ean0] else produtos).
Proof.
  intros Hnd. unfold adicionar_produto.
  destruct (existsb _ produtos) eqn:E; cbn [fst snd].
  - apply existsb_ean in E. split; [done|]. split; [|done]. split; [discriminate|done].
  - assert (Hn : ean0 ∉ ean <$> produtos).
    { intros H. apply existsb_ean in H. congruence. }
    split; [|by split]. rewrite fmap_app. apply NoDup_app. split; [done|].
    split; [|apply NoDup_singleton].
    intros x Hx Hx'. cbn in Hx'. apply list_elem_of_singleton in Hx' as ->. done.
Qed.

(** X19 ([remover_produto]): the call answers [True] exactly when some
    product of the list has the code; the list afterwards is the old one
    without every product of that code, the others in their order, so
    the code is never in the list afterwards. *)
Theorem remover_produto_remove (ean0 : string) (produtos : list produto) :
  (fst (remover_produto ean0 produtos) = true <-> ean0 ∈ ean <$> produtos) /\
  snd (remover_produto ean0 produtos) = filter (fun p => ean p <> ean0) produtos /\
  ean0 ∉ ean <$> snd (remover_produto ean0 produtos).
Proof.
  pose proof (filter_ean_fora ean0 produtos) as Hnot.
  pose proof (filter_ean_length ean0 produtos) as Hlen.
  unfold remover_produto.
  destruct (Nat.ltb _ _) eqn:E; cbn [fst snd].
  - apply Nat.ltb_lt in E. split; [|by split]. split; [intros _; by apply Hlen|done].
  - apply Nat.ltb_ge in E.
    assert (Hn : ean0 ∉ ean <$> produtos).
    { intros H. apply Hlen in H. lia. }
    split; [split; [discriminate|done]|]. split; [by rewrite filter_ean_id|done].
Qed.

(** X20 ([adicionar_produto] then [remover_produto]): adding a code that
    is not in the list and removing it again answers [True] and gives
    back the list as it was. *)
Theorem adicionar_remover (ean0 : string) (produtos : list produto) :
  ean0 ∉ ean <$> produtos ->
  remover_produto ean0 (snd (adicionar_produto ean0 produtos)) = (true, produtos).
Proof.
  intros Hn. unfold adicionar_produto.
  destruct (existsb _ produtos) eqn:E; [by apply existsb_ean in E|]. cbn [snd].
  assert (Hf : filter (fun p => ean p <> ean0) (produtos ++ [novo_produto ean0]) = produtos).
  { rewrite filter_app, filter_cons_False by (cbn; auto). rewrite filter_nil, app_nil_r.
    by apply filter_ean_id. }
  unfold remover_produto. rewrite Hf, length_app. cbn [length].
  destruct (Nat.ltb _ _) eqn:El; [done|]. apply Nat.ltb_ge in El. lia.
Qed.

(** X21 ([remover_produto]): removing keeps the list free of repeated
    codes. *)
Theorem remover_produto_unico (ean0 : string) (produtos : list produto) :
  NoDup (ean <$> produtos) ->
  NoDup (ean <$> snd (remover_produto ean0 produtos)).
Proof.
  intros Hnd. unfold remover_produto.
  destruct (Nat.ltb _ _); cbn [snd]; [by apply filter_ean_NoDup|done].
Qed.

Section Lote_props.
Variable str_strip : string -> string.
Variable str_isdigit : string -> bool.

Lemma lote_fold_novos (eans : list string) : forall st : lote_state,
  l_existentes st = list_to_set (ean <$> l_produtos st) ->
  exists ns : list string,
    l_produtos (foldl (lote_um str_strip str_isdigit) st eans)
    = l_produtos st ++ (novo_produto <$> ns) /\
    NoDup ns /\
    (forall e, e ∈ ns <->
       (e ∉ l_existentes st) /\ e <> "" /\ str_isdigit e = true /\
       exists r, r ∈ eans /\ str_strip r = e) /\
    l_adicionados (foldl (lote_um str_strip str_isdigit) st eans)
    = l_adicionados st + length ns.
Proof.
  induction eans as [|r rs IH]; intros st Hex.
  - exists []. cbn. rewrite app_nil_r. split; [done|]. split; [apply NoDup_nil_2|].
    split; [|lia]. intros e. split.
    + intros H. by apply elem_of_nil in H.
    + intros (_ & _ & _ & r & Hr & _). by apply elem_of_nil in Hr.
  - cbn [foldl]. unfold lote_um at 2 4.
    destruct (String.eqb (str_strip r) "") eqn:Eb.
    { apply String.eqb_eq in Eb.
      destruct (IH st Hex) as (ns & Hp & Hnd & Hin & Hc). exists ns.
      split; [done|]. split; [done|]. split; [|done].
      intros e. rewrite Hin. split.
      - intros (H1 & H2 & H3 & r' & Hr' & Hs). repeat split; try done.
        exists r'. split; [by apply elem_of_cons; right|done].
      - intros (H1 & H2 & H3 & r' & Hr' & Hs). repeat split; try done.
        apply elem_of_cons in Hr' as [-> | Hr']; [congruence|]. by exists r'. }
    destruct (str_isdigit (str_strip r)) eqn:Ed; cbn [negb].
    2:{ destruct (IH {| l_produtos := l_produtos st; l_existentes := l_existentes st;
                        l_adicionados := l_adicionados st;
                        l_duplicados := l_duplicados st;
                        l_erros := l_erros st ++
                          [String.append (str_strip r) " (não é numérico)"] |} Hex)
          as (ns & Hp & Hnd & Hin & Hc).
        cbn [l_produtos l_existentes l_adicionados] in *. exists ns.
        split; [done|]. split; [done|]. split; [|done].
        intros e. rewrite Hin. split.
        - intros (H1 & H2 & H3 & r' & Hr' & Hs). repeat split; try done.
          exists r'. split; [by apply elem_of_cons; right|done].
        - intros (H1 & H2 & H3 & r' & Hr' & Hs). repeat split; try done.
          apply elem_of_cons in Hr' as [-> | Hr']; [congruence|]. by exists r'. }
    case_bool_decide as Hdup.
    { destruct (IH {| l_produtos := l_produtos st; l_existentes := l_existentes st;
                      l_adicionados := l_adicionados st;
                      l_duplicados := S (l_duplicados st);
                      l_erros := l_erros st |} Hex)
        as (ns & Hp & Hnd & Hin & Hc).
      cbn [l_produtos l_existentes l_adicionados] in *. exists ns.
      split; [done|]. split; [done|]. split; [|done].
      intros e. rewrite Hin. split.
      - intros (H1 & H2 & H3 & r' & Hr' & Hs). repeat split; try done.
        exists r'. split; [by apply elem_of_cons; right|done].
      - intros (H1 & H2 & H3 & r' & Hr' & Hs). repeat split; try done.
        apply elem_of_cons in Hr' as [-> | Hr']; [congruence|]. by exists r'. }
    assert (Hex' : ({[str_strip r]} ∪ l_existentes st : gset string)
                   = list_to_set (ean <$> (l_produtos st ++ [novo_produto (str_strip r)]))).
    { rewrite fmap_app, list_to_set_app_L, <- Hex. cbn.
      rewrite (right_id_L ∅ (∪)). apply (comm_L (∪)). }
    destruct (IH {| l_produtos := l_produtos st ++ [novo_produto (str_strip r)];
                    l_existentes := {[str_strip r]} ∪ l_existentes st;
                    l_adicionados := S (l_adicionados st);
                    l_duplicados := l_duplicados st;
                    l_erros := l_erros st |} Hex')
      as (ns & Hp & Hnd & Hin & Hc).
    cbn [l_produtos l_existentes l_adicionados] in *.
    exists (str_strip r :: ns). split.
    { rewrite Hp, <- app_assoc. done. }
    split.
    { apply NoDup_cons. split; [|done]. intros H. apply Hin in H as [H _].
      apply H. apply elem_of_union_l. by apply elem_of_singleton. }
    split; [|cbn [length]; lia].
    intros e. rewrite elem_of_cons, Hin. split.
    + intros [-> | (H1 & H2 & H3 & r' & Hr' & Hs)].
      * split; [done|]. split; [by apply String.eqb_neq|]. split; [done|].
        exists r. split; [by apply elem_of_cons; left|done].
      * split; [intros H; apply H1; by apply elem_of_union_r|].
        split; [done|]. split; [done|].
        exists r'. split; [by apply elem_of_cons; right|done].
    + intros (H1 & H2 & H3 & r' & Hr' & Hs).
      destruct (decide (e = str_strip r)) as [He|He]; [by left|right].
      split.
      { intros H. apply elem_of_union in H as [H|H]; [|done].
        apply elem_of_singleton in H. done. }
      split; [done|]. split; [done|].
      apply elem_of_cons in Hr' as [-> | Hr']; [congruence|]. by exists r'.
Qed.

Lemma lote_fold_contas (eans : list string) : forall st : lote_state,
  l_adicionados (foldl (lote_um str_strip str_isdigit) st eans)
  + l_duplicados (foldl (lote_um str_strip str_isdigit) st eans)
  + length (filter (fun r => str_strip r = "") eans)
  + length (filter (fun r => str_strip r <> "" /\ str_isdigit (str_strip r) = false) eans)
  = l_adicionados st + l_duplicados st + length eans /\
  l_erros (foldl (lote_um str_strip str_isdigit) st eans)
  = l_erros st ++
    ((fun r => String.append (str_strip r) " (não é numérico)") <$>
     filter (fun r => str_strip r <> "" /\ str_isdigit (str_strip r) = false) eans).
Proof.
  induction eans as [|r rs IH]; intros st.
  - cbn. rewrite app_nil_r. split; [lia|done].
  - cbn [foldl]. rewrite !filter_cons. unfold lote_um at 2 4 6.
    destruct (String.eqb (str_strip r) "") eqn:Eb.
    { apply String.eqb_eq in Eb. destruct (IH st) as [Hc He].
      rewrite decide_True by done.
      rewrite decide_False by (intros [H _]; done).
      cbn [length]. split; [lia|done]. }
    apply String.eqb_neq in Eb. rewrite decide_False by done.
    destruct (str_isdigit (str_strip r)) eqn:Ed; cbn [negb].
    2:{ rewrite decide_True by done.
        match goal with |- context [foldl _ ?s rs] => destruct (IH s) as [Hc He] end.
        cbn [l_adicionados l_duplicados l_erros] in *. cbn [length fmap list_fmap].
        split; [lia|]. rewrite He, <- app_assoc. done. }
    rewrite decide_False by (intros [_ H]; done).
    case_bool_decide as Hdup.
    { match goal with |- context [foldl _ ?s rs] => destruct (IH s) as [Hc He] end.
      cbn [l_adicionados l_duplicados l_erros] in *. cbn [length]. split; [lia|done]. }
    match goal with |- context [foldl _ ?s rs] => destruct (IH s) as [Hc He] end.
    cbn [l_adicionados l_duplicados l_erros] in *. cbn [length]. split; [lia|done].
Qed.

(** X22 ([adicionar_produtos_em_lote]): the saved list is the old one
    followed by one fresh pending product for each new code, where the
    new codes are, each once, exactly the stripped entries that are not
    empty, are all digits and are not yet in the list; [adicionados]
    counts them. *)
Theorem adicionar_produtos_em_lote_novos (eans : list string) (produtos : list produto) :
  exists ns : list string,
    snd (adicionar_produtos_em_lote str_strip str_isdigit eans produtos)
    = produtos ++ (novo_produto <$> ns) /\
    NoDup ns /\
    (forall e, e ∈ ns <->
       (e ∉ ean <$> produtos) /\ e <> "" /\ str_isdigit e = true /\
       exists r, r ∈ eans /\ str_strip r = e) /\
    fst (fst (fst (adicionar_produtos_em_lote str_strip str_isdigit eans produtos)))
    = length ns.
Proof.
  unfold adicionar_produtos_em_lote. cbn [fst snd].
  destruct (lote_fold_novos eans
              {| l_produtos := produtos; l_existentes := list_to_set (ean <$> produtos);
                 l_adicionados := 0; l_duplicados := 0; l_erros := [] |} eq_refl)
    as (ns & Hp & Hnd & Hin & Hc).
  cbn [l_produtos l_existentes l_adicionados] in *.
  exists ns. split; [done|]. split; [done|]. split; [|done].
  intros e. rewrite Hin, elem_of_list_to_set. done.
Qed.

(** X23 ([adicionar_produtos_em_lote]): a list that holds no code twice
    still holds none twice after a batch is added, whatever the batch
    repeats. *)
Theorem adicionar_produtos_em_lote_unico (eans : list string) (produtos : list produto) :
  NoDup (ean <$> produtos) ->
  NoDup (ean <$> snd (adicionar_produtos_em_lote str_strip str_isdigit eans produtos)).
Proof.
  intros Hnd. unfold adicionar_produtos_em_lote. cbn [fst snd].
  destruct (lote_fold_novos eans
              {| l_produtos := produtos; l_existentes := list_to_set (ean <$> produtos);
                 l_adicionados := 0; l_duplicados := 0; l_erros := [] |} eq_refl)
    as (ns & Hp & Hns & Hin & _).
  cbn [l_produtos l_existentes] in *. rewrite Hp, fmap_app.
  assert (Hid : ean <$> (novo_produto <$> ns) = ns).
  { clear. induction ns as [|n ns IH]; [done|]. cbn [fmap list_fmap] in *.
    by rewrite IH. }
  rewrite Hid. apply NoDup_app. split; [done|]. split; [|done].
  intros x Hx Hx'. apply Hin in Hx' as [Hx' _]. apply Hx'.
  by apply elem_of_list_to_set.
Qed.

(** X24 ([adicionar_produtos_em_lote]): every entry of the batch is
    accounted for once: it is blank after stripping (passed over in
    silence), reported in [erros], counted in [duplicados] or counted in
    [adicionados]; [erros] holds, in the order of the batch, one message
    for each entry that is not blank and not all digits. *)
Theorem adicionar_produtos_em_lote_contas (eans : list string) (produtos : list produto) :
  let r := fst (adicionar_produtos_em_lote str_strip str_isdigit eans produtos) in
  fst (fst r) + snd (fst r) + length (snd r)
  + length (filter (fun e => str_strip e = "") eans) = length eans /\
  snd r = (fun e => String.append (str_strip e) " (não é numérico)") <$>
          filter (fun e => str_strip e <> "" /\ str_isdigit (str_strip e) = false) eans.
Proof.
  unfold adicionar_produtos_em_lote. cbn [fst snd].
  destruct (lote_fold_contas eans
              {| l_produtos := produtos; l_existentes := list_to_set (ean <$> produtos);
                 l_adicionados := 0; l_duplicados := 0; l_erros := [] |}) as [Hc He].
  cbn [l_adicionados l_duplicados l_erros] in *.
  rewrite He. cbn [app]. rewrite length_fmap. split; [lia|done].
Qed.

(** X25 ([adicionar_produtos_em_lote] against [adicionar_produto]): for
    one code that stripping leaves as it is, not empty and all digits,
    the batch call saves the same list as the single call, and counts
    one added product exactly when the single call answers [True]. *)
Theorem lote_de_um_codigo (ean0 : string) (produtos : list produto) :
  str_strip ean0 = ean0 -> ean0 <> "" -> str_isdigit ean0 = true ->
  snd (adicionar_produtos_em_lote str_strip str_isdigit [ean0] produtos)
  = snd (adicionar_produto ean0 produtos) /\
  fst (adicionar_produtos_em_lote str_strip str_isdigit [ean0] produtos)
  = (if fst (fst (adicionar_produto ean0 produtos)) : bool
     then (1, 0, []) else (0, 1, [])).
Proof.
  intros Hs Hne Hd. unfold adicionar_produtos_em_lote, adicionar_produto.
  cbn [foldl]. unfold lote_um. cbn [l_produtos l_existentes l_adicionados l_duplicados l_erros].
  rewrite Hs, Hd. cbn [negb].
  apply String.eqb_neq in Hne. rewrite Hne.
  destruct (existsb _ produtos) eqn:E.
  - apply existsb_ean in E. rewrite bool_decide_eq_true_2 by by apply elem_of_list_to_set.
    done.
  - rewrite bool_decide_eq_false_2; [done|].
    intros H. apply elem_of_list_to_set, existsb_ean in H. congruence.
Qed.

End Lote_props.

Lemma adicionar_produto_unico_witness :
  NoDup (ean <$> snd (adicionar_produto "456" lista_exemplo)) /\
  (fst (fst (adicionar_produto "456" lista_exemplo)) = true
   <-> "456" ∉ ean <$> lista_exemplo) /\
  snd (adicionar_produto "456" lista_exemplo)
  = (if fst (fst (adicionar_produto "456" lista_exemplo)) : bool
     then lista_exemplo ++ [novo_produto "456"] else lista_exemplo).
Proof.
  apply (adicionar_produto_unico "456" lista_exemplo).
  apply (bool_decide_unpack _). vm_compute. exact I.
Defined.

Lemma adicionar_remover_witness :
  remover_produto "456" (snd (adicionar_produto "456" lista_exemplo))
  = (true, lista_exemplo).
Proof.
  apply (adicionar_remover "456" lista_exemplo).
  apply (bool_decide_unpack _). vm_compute. exact I.
Defined.

Lemma remover_produto_unico_witness :
  NoDup (ean <$> snd (remover_produto "123" lista_exemplo)).
Proof.
  apply (remover_produto_unico "123" lista_exemplo).
  apply (bool_decide_unpack _). vm_compute. exact I.
Defined.

Lemma adicionar_produtos_em_lote_unico_witness :
  NoDup (ean <$> snd (adicionar_produtos_em_lote strip_nada isdigit_ascii
                        ["456"; "123"; "45a"; ""; "456"] lista_exemplo)).
Proof.
  apply (adicionar_produtos_em_lote_unico strip_nada isdigit_ascii
           ["456"; "123"; "45a"; ""; "456"] lista_exemplo).
  apply (bool_decide_unpack _). vm_compute. exact I.
Defined.

Lemma lote_de_um_codigo_witness :
  snd (adicionar_produtos_em_lote strip_nada isdigit_ascii ["456"] lista_exemplo)
  = snd (adicionar_produto "456" lista_exemplo) /\
  fst (adicionar_produtos_em_lote strip_nada isdigit_ascii ["456"] lista_exemplo)
  = (if fst (fst (adicionar_produto "456" lista_exemplo)) : bool
     then (1, 0, []) else (0, 1, [])).
Proof.
  apply (lote_de_um_codigo strip_nada isdigit_ascii "456" lista_exemplo).
  - reflexivity.
  - discriminate.
  - vm_compute. reflexivity.
Defined.

(** * The rows of the report *)

Lemma SFcompare_refl_nao_Lt (x : spec_float) : SFcompare x x <> Some Lt.
Proof.
  destruct x as [s|s| |s m e]; cbn; try (destruct s; discriminate); try discriminate.
  destruct s; rewrite Z.compare_refl, Pos.compare_cont_refl; discriminate.
Qed.

Lemma ltb_irrefl (x : float) : PrimFloat.ltb x x = false.
Proof.
  rewrite FloatAxioms.ltb_spec. unfold SFltb.
  pose proof (SFcompare_refl_nao_Lt (Prim2SF x)).
  destruct (SFcompare (Prim2SF x) (Prim2SF x)) as [[]|]; congruence.
Qed.

Lemma eqb_zero_SF (x : float) :
  PrimFloat.eqb x 0 = true -> exists s, Prim2SF x = S754_zero s.
Proof.
  rewrite FloatAxioms.eqb_spec. unfold SFeqb.
  change (Prim2SF 0) with (S754_zero false).
  destruct (Prim2SF x) as [s|s| |s m e]; cbn; try discriminate; eauto.
  - destruct s; discriminate.
  - destruct s; discriminate.
Qed.

Lemma ltb_zero_l (x y : float) :
  PrimFloat.eqb x 0 = true -> PrimFloat.ltb x y = PrimFloat.ltb 0 y.
Proof.
  intros H. apply eqb_zero_SF in H as [s Hs]. rewrite !FloatAxioms.ltb_spec, Hs.
  change (Prim2SF 0) with (S754_zero false). unfold SFltb.
  destruct (Prim2SF y) as [s'|s'| |s' m e]; reflexivity.
Qed.

Lemma ltb_zero_r (x y : float) :
  PrimFloat.eqb y 0 = true -> PrimFloat.ltb x y = PrimFloat.ltb x 0.
Proof.
  intros H. apply eqb_zero_SF in H as [s Hs]. rewrite !FloatAxioms.ltb_spec, Hs.
  change (Prim2SF 0) with (S754_zero false). unfold SFltb.
  destruct (Prim2SF x) as [s'|s'| |s' m e]; reflexivity.
Qed.

Lemma celula_preco_lida (x : float) :
  preco_da_celula (celula_preco x)
  = Some (if PrimFloat.eqb x 0 then 0%float else x).
Proof.
  unfold celula_preco. destruct (PrimFloat.eqb x 0) eqn:E; cbn; [reflexivity|].
  by rewrite E.
Qed.

Lemma ltb_celulas (o f : float) :
  PrimFloat.ltb o f = false ->
  PrimFloat.ltb (if PrimFloat.eqb o 0 then 0%float else o)
                (if PrimFloat.eqb f 0 then 0%float else f) = false.
Proof.
  intros H. destruct (PrimFloat.eqb o 0) eqn:Eo, (PrimFloat.eqb f 0) eqn:Ef.
  - reflexivity.
  - by rewrite (ltb_zero_l o f Eo) in H.
  - by rewrite (ltb_zero_r o f Ef) in H.
  - exact H.
Qed.

Ltac passo H :=
  match type of H with
  | mbind _ ?o = _ =>
      let E := fresh "E" in
      destruct o eqn:E; cbn [mbind outcome_bind] in H; [|discriminate H]
  end.

Lemma precos_ordem (v : value) (f o : float) (t : value) :
  precos v = Ok (f, o, t) -> PrimFloat.ltb o f = false.
Proof.
  unfold precos. destruct (truthy v).
  2:{ intros [= <- <- <-]. reflexivity. }
  intros H. repeat passo H. injection H as <- <- <-.
  match goal with
  | |- PrimFloat.ltb (if PrimFloat.ltb ?o ?f then _ else _) _ = false =>
      destruct (PrimFloat.ltb o f) eqn:El; [apply ltb_irrefl|exact El]
  end.
Qed.

Lemma foldM_M_estado {S A B : Type} (f : B -> A -> M S B) (P : S -> Prop)
    (l : list A) : forall (b : B) (s s' : S) (o : outcome B),
  foldM f l b s = (o, s') ->
  P s ->
  (forall b0 x s0 o1 s1, x ∈ l -> P s0 -> f b0 x s0 = (o1, s1) -> P s1) ->
  P s'.
Proof.
  induction l as [|x l IH]; intros b s s' o Hf Hs Hstep.
  - cbn in Hf. unfold mret, M_ret in Hf. by injection Hf as <- <-.
  - cbn [foldM] in Hf. unfold mbind, M_bind in Hf.
    destruct (f b x s) as [[b1|e] s1] eqn:Hx.
    + eapply IH; [exact Hf| |].
      * eapply Hstep; [apply list_elem_of_here|exact Hs|exact Hx].
      * intros b0 y s0 o1 s2 Hy. apply Hstep. by apply list_elem_of_further.
    + injection Hf as <- <-.
      eapply Hstep; [apply list_elem_of_here|exact Hs|exact Hx].
Qed.

Lemma lift_bind {S A B : Type} (o : outcome A) (k : A -> M S B) (s : S) :
  (lift o ≫= k) s = match o with Ok a => k a s | Raise e => (Raise e, s) end.
Proof. unfold mbind, M_bind, lift. by destruct o. Qed.

Section Relatorio_props.
Variable sem_tags : string -> string.
Variable str_isdigit : string -> bool.
Variable data_legivel : string -> outcome string.

Lemma linha_do_item_bem_formada (product target_name base item row : value) :
  linha_do_item sem_tags str_isdigit data_legivel product target_name base item = Ok row ->
  linha_bem_formada row.
Proof.
  unfold linha_do_item. intros H.
  passo H. passo H. passo H. passo H.
  match type of H with
  | mbind _ ?m = _ => destruct m as [rd|] eqn:Erd; cbn [mbind outcome_bind] in H;
                      [|discriminate H]
  end.
  passo H. passo H. passo H.
  match type of H with
  | mbind _ ?m = _ => destruct m as [[[f o] t]|] eqn:Epr; cbn [mbind outcome_bind] in H;
                      [|discriminate H]
  end.
  injection H as <-. cbn [fst snd].
  assert (Hd : exists d, rd = VStr d).
  { match type of Erd with
    | (if truthy ?r then _ else _) = _ => destruct (truthy r); [destruct r|]
    end; try discriminate Erd.
    - destruct (str_isdigit s).
      + destruct (data_legivel s) as [d|]; [|discriminate Erd].
        injection Erd as <-. by eexists.
      + injection Erd as <-. by eexists.
    - injection Erd as <-. by eexists. }
  destruct Hd as [d ->].
  right. do 9 eexists. split; [reflexivity|]. split.
  { match goal with
    | |- truthy (if truthy ?e then _ else _) = true => by destruct (truthy e) eqn:Ee
    end. }
  split; [apply celula_preco_lida|]. split; [apply celula_preco_lida|].
  apply ltb_celulas. by eapply precos_ordem.
Qed.

Lemma corpo_do_produto_linhas (product : value) (rows rows' : list value)
    (o : outcome unit) :
  corpo_do_produto sem_tags str_isdigit data_legivel product rows = (o, rows') ->
  Forall linha_bem_formada rows -> Forall linha_bem_formada rows'.
Proof.
  unfold corpo_do_produto. intros H Hrows.
  rewrite lift_bind in H. destruct (attr_get product "target_name" _) as [tn|];
    [|by injection H as <- <-].
  rewrite lift_bind in H. destruct (attr_get product "name" _) as [n1|];
    [|by injection H as <- <-].
  rewrite lift_bind in H. destruct (attr_get product "productName" _) as [n2|];
    [|by injection H as <- <-].
  rewrite lift_bind in H. destruct (attr_get product "items" _) as [items|];
    [|by injection H as <- <-].
  destruct (negb (truthy items)); [by injection H as <- <-|].
  rewrite lift_bind in H. destruct (py_iter items) as [its|];
    [|by injection H as <- <-].
  eapply (foldM_M_estado _ (Forall linha_bem_formada)); [exact H|exact Hrows|].
  intros [] item s0 o1 s1 _ Hs0 Hstep. rewrite lift_bind in Hstep.
  destruct (linha_do_item _ _ _ _ _ _ item) as [row|] eqn:Hrow.
  - unfold anexar in Hstep. injection Hstep as <- <-.
    apply Forall_app. split; [done|]. constructor; [|constructor].
    by eapply linha_do_item_bem_formada.
  - by injection Hstep as <- <-.
Qed.

Lemma linhas_do_resultado_linhas (product : value) (rows rows' : list value)
    (o : outcome unit) :
  linhas_do_resultado sem_tags str_isdigit data_legivel product rows = (o, rows') ->
  Forall linha_bem_formada rows -> Forall linha_bem_formada rows'.
Proof.
  unfold linhas_do_resultado. intros H Hrows.
  rewrite lift_bind in H. destruct (attr_get product "is_not_found" _) as [nf|];
    [|by injection H as <- <-].
  destruct (truthy nf).
  - rewrite lift_bind in H. destruct (attr_get product "ean" _) as [e|];
      [|by injection H as <- <-].
    unfold anexar in H. injection H as <- <-.
    apply Forall_app. split; [done|]. constructor; [|constructor].
    left. by exists e.
  - destruct (corpo_do_produto _ _ _ product rows) as [o1 rows1] eqn:Hc.
    apply corpo_do_produto_linhas in Hc; [|done].
    destruct o1 as [u|[]]; by injection H as <- <-.
Qed.

(** X26 ([create_excel_report]): when the loop over the results ends,
    every row of [excel_data] is the row of a code not found or the row
    of a SKU; in the row of a SKU the code is never empty, each price is
    ["sem preco"] or a number other than zero, the original price is
    never below the offer price (["sem preco"] read as zero) and the
    date is a string. *)
Theorem excel_data_linhas (results rows : list value) :
  excel_data sem_tags str_isdigit data_legivel results = Ok rows ->
  Forall linha_bem_formada rows.
Proof.
  unfold excel_data.
  match goal with
  | |- match ?m with _ => _ end = _ -> _ => destruct m as [[u|e] rows1] eqn:Hf
  end; [|discriminate].
  intros [= <-].
  eapply (foldM_M_estado _ (Forall linha_bem_formada)); [exact Hf|constructor|].
  intros [] product s0 o1 s1 _ Hs0 Hstep. by eapply linhas_do_resultado_linhas.
Qed.

End Relatorio_props.

(** ** What the report can raise *)

Lemma bind_levanta {A B : Type} (P : exn -> Prop) (o : outcome A) (k : A -> outcome B) :
  (forall e, o = Raise e -> P e) ->
  (forall a, o = Ok a -> forall e, k a = Raise e -> P e) ->
  forall e, o ≫= k = Raise e -> P e.
Proof.
  intros Ho Hk e. destruct o as [a|e0]; cbn [mbind outcome_bind].
  - by apply Hk.
  - intros [= <-]. by apply Ho.
Qed.

Lemma attr_get_levanta (v : value) (k : string) (d : value) (e : exn) :
  attr_get v k d = Raise e -> e = AttributeError.
Proof. destruct v; cbn; congruence. Qed.

Lemma py_iter_levanta (v : value) (e : exn) :
  py_iter v = Raise e -> e = TypeError.
Proof. destruct v; cbn; congruence. Qed.

Lemma py_contains_levanta (c : string) (v : value) (e : exn) :
  py_contains c v = Raise e -> e = TypeError.
Proof. destruct v; cbn; congruence. Qed.

Lemma maior_que_zero_levanta (v : value) (e : exn) :
  maior_que_zero v = Raise e -> e = TypeError.
Proof. unfold maior_que_zero. destruct (as_num v); congruence. Qed.

Lemma round2_levanta (v : value) (e : exn) :
  round2 v = Raise e -> e = TypeError.
Proof. unfold round2. destruct (as_num v); congruence. Qed.

Ltac liga P tac :=
  cbv beta zeta; apply (bind_levanta P); [intros ? ?; tac | intros ? _].

Ltac por_atributo := left; by eapply attr_get_levanta.
Ltac por_tipo :=
  right;
  first [ by eapply py_iter_levanta | by eapply py_contains_levanta
        | by eapply maior_que_zero_levanta | by eapply round2_levanta ].

Lemma oferta_valida_levanta (sellers : list value) :
  forall e, oferta_valida sellers = Raise e -> e = AttributeError \/ e = TypeError.
Proof.
  set (P := fun e => e = AttributeError \/ e = TypeError).
  induction sellers as [|s rest IH]; cbn [oferta_valida]; [discriminate|].
  liga P por_atributo. destruct (truthy a); [|exact IH].
  liga P por_tipo. liga P idtac.
  { destruct a0; [discriminate|]. revert H. generalize e. clear e.
    liga P por_atributo. intros e He. por_tipo. }
  liga P por_atributo. liga P por_tipo. discriminate.
Qed.

Lemma precos_levanta (valid_offer : value) :
  forall e, precos valid_offer = Raise e -> e = AttributeError \/ e = TypeError.
Proof.
  set (P := fun e => e = AttributeError \/ e = TypeError).
  unfold precos. destruct (truthy valid_offer); [|discriminate].
  liga P por_atributo. liga P por_atributo. liga P por_atributo. liga P por_atributo.
  liga P por_tipo. liga P por_tipo. liga P por_atributo. liga P por_tipo.
  liga P idtac; [|discriminate].
  destruct a6 as [|t ?]; [discriminate|]. por_atributo.
Qed.

Lemma foldM_M_levanta {S A B : Type} (f : B -> A -> M S B) (l : list A) :
  forall (b : B) (s s' : S) (e : exn),
  foldM f l b s = (Raise e, s') ->
  exists b0 x s0 s1, x ∈ l /\ f b0 x s0 = (Raise e, s1).
Proof.
  induction l as [|x l IH]; intros b s s' e Hf.
  - cbn in Hf. unfold mret, M_ret in Hf. discriminate.
  - cbn [foldM] in Hf. unfold mbind, M_bind in Hf.
    destruct (f b x s) as [[b1|e1] s1] eqn:Hx.
    + destruct (IH _ _ _ _ Hf) as (b0 & y & s0 & s2 & Hy & Hfy).
      exists b0, y, s0, s2. split; [by apply list_elem_of_further|done].
    + injection Hf as <- <-. exists b, x, s, s1. split; [apply list_elem_of_here|done].
Qed.

Section Relatorio_excecoes.
Variable sem_tags : string -> string.
Variable str_isdigit : string -> bool.
Variable data_legivel : string -> outcome string.

Lemma linha_do_item_levanta (product target_name base item : value) :
  forall e,
  linha_do_item sem_tags str_isdigit data_legivel product target_name base item = Raise e ->
  e = AttributeError \/ e = TypeError \/
  exists s, str_isdigit s = true /\ data_legivel s = Raise e.
Proof.
  set (P := fun e => e = AttributeError \/ e = TypeError \/
                     exists s, str_isdigit s = true /\ data_legivel s = Raise e).
  assert (Hat : forall e, e = AttributeError \/ e = TypeError -> P e).
  { intros e [->| ->]; [by left|by right; left]. }
  unfold linha_do_item.
  liga P ltac:(apply Hat; por_atributo). liga P ltac:(apply Hat; por_atributo).
  liga P ltac:(apply Hat; por_atributo). liga P ltac:(apply Hat; por_atributo).
  liga P idtac.
  { destruct (truthy a2); [|discriminate]. destruct a2; try discriminate;
      try (injection H as <-; by left).
    destruct (str_isdigit s) eqn:Hs; [|discriminate].
    destruct (data_legivel s) as [d|e1] eqn:Hd; [discriminate|].
    injection H as <-. right. right. by exists s. }
  liga P ltac:(apply Hat; por_atributo). liga P ltac:(apply Hat; por_tipo).
  liga P ltac:(apply Hat; by eapply oferta_valida_levanta).
  liga P ltac:(apply Hat; by eapply precos_levanta).
  discriminate.
Qed.

Lemma corpo_do_produto_levanta (product : value) (rows rows' : list value) (e : exn) :
  corpo_do_produto sem_tags str_isdigit data_legivel product rows = (Raise e, rows') ->
  e = AttributeError \/ e = TypeError \/
  exists s, str_isdigit s = true /\ data_legivel s = Raise e.
Proof.
  unfold corpo_do_produto. intros H.
  rewrite lift_bind in H. destruct (attr_get product "target_name" _) as [tn|] eqn:E1.
  2:{ injection H as <- <-. left. by eapply attr_get_levanta. }
  rewrite lift_bind in H. destruct (attr_get product "name" _) as [n1|] eqn:E2.
  2:{ injection H as <- <-. left. by eapply attr_get_levanta. }
  rewrite lift_bind in H. destruct (attr_get product "productName" _) as [n2|] eqn:E3.
  2:{ injection H as <- <-. left. by eapply attr_get_levanta. }
  rewrite lift_bind in H. destruct (attr_get product "items" _) as [items|] eqn:E4.
  2:{ injection H as <- <-. left. by eapply attr_get_levanta. }
  destruct (negb (truthy items)); [discriminate H|].
  rewrite lift_bind in H. destruct (py_iter items) as [its|] eqn:E5.
  2:{ injection H as <- <-. right. left. by eapply py_iter_levanta. }
  apply foldM_M_levanta in H as (b0 & item & s0 & s1 & _ & H).
  rewrite lift_bind in H.
  destruct (linha_do_item _ _ _ _ _ _ item) as [row|e1] eqn:Hrow; [discriminate H|].
  injection H as <- <-. by eapply linha_do_item_levanta.
Qed.

Lemma linhas_do_resultado_levanta (product : value) (rows rows' : list value) (e : exn) :
  linhas_do_resultado sem_tags str_isdigit data_legivel product rows = (Raise e, rows') ->
  e = AttributeError \/
  (e = OtherError /\ exists s, str_isdigit s = true /\ data_legivel s = Raise OtherError).
Proof.
  unfold linhas_do_resultado. intros H.
  rewrite lift_bind in H. destruct (attr_get product "is_not_found" _) as [nf|] eqn:E1.
  2:{ injection H as <- <-. left. by eapply attr_get_levanta. }
  destruct (truthy nf).
  - rewrite lift_bind in H. destruct (attr_get product "ean" _) as [c|] eqn:E2.
    + discriminate H.
    + injection H as <- <-. left. by eapply attr_get_levanta.
  - destruct (corpo_do_produto _ _ _ product rows) as [[u|e1] rows1] eqn:Hc;
      [discriminate H|].
    apply corpo_do_produto_levanta in Hc.
    destruct e1; try discriminate H; injection H as <- <-.
    + by left.
    + right. split; [done|]. destruct Hc as [Hc|[Hc|Hc]]; [discriminate..|done].
Qed.

(** X27 ([create_excel_report]): the loop over the results never ends
    in [IndexError], [KeyError] or [TypeError].  The only exception that
    leaves it is [AttributeError] (a value that is not a dict where
    [.get] is called, or a ['releaseDate'] that is not a string) or an
    error of another kind raised by the conversion of a date. *)
Theorem excel_data_excecoes (results : list value) (e : exn) :
  excel_data sem_tags str_isdigit data_legivel results = Raise e ->
  e = AttributeError \/
  (e = OtherError /\ exists s, str_isdigit s = true /\ data_legivel s = Raise OtherError).
Proof.
  unfold excel_data.
  match goal with
  | |- match ?m with _ => _ end = _ -> _ => destruct m as [[u|e1] rows1] eqn:Hf
  end; [discriminate|].
  intros [= ->]. apply foldM_M_levanta in Hf as (b0 & p & s0 & s1 & _ & H).
  by eapply linhas_do_resultado_levanta.
Qed.

(** ** The seller that gives the price *)

Lemma oferta_valida_sem_oferta (pre rest : list value) :
  Forall (fun seller => exists o, attr_get seller "commertialOffer" VNone = Ok o /\
                                  truthy o = false) pre ->
  oferta_valida (pre ++ rest) = oferta_valida rest.
Proof.
  induction 1 as [|v pre (o & Ho & Hf) _ IH]; [done|].
  cbn [app oferta_valida]. rewrite Ho. cbn [mbind outcome_bind]. by rewrite Hf.
Qed.

Lemma oferta_valida_com_oferta (s : value) (post : list value) (offer : value) :
  attr_get s "commertialOffer" VNone = Ok offer ->
  truthy offer = true ->
  oferta_valida (s :: post) = oferta_valida [s].
Proof.
  intros Hs Ht. cbn [oferta_valida]. rewrite Hs. cbn [mbind outcome_bind].
  by rewrite Ht.
Qed.

(** X28 ([create_excel_report]): the row of a SKU is decided by the
    first seller that has an offer: sellers before it without an offer
    are passed over, and the sellers after it are never looked at, so the
    row is the one the SKU would get with that seller alone (also when
    its offer is not available and a later seller has a price). *)
Theorem linha_do_item_primeiro_vendedor (product target_name base : value)
    (d : gmap string value) (pre post : list value) (s offer : value) :
  Forall (fun seller => exists o, attr_get seller "commertialOffer" VNone = Ok o /\
                                  truthy o = false) pre ->
  attr_get s "commertialOffer" VNone = Ok offer ->
  truthy offer = true ->
  linha_do_item sem_tags str_isdigit data_legivel product target_name base
    (VDict (<["sellers" := VList (pre ++ s :: post)]> d))
  = linha_do_item sem_tags str_isdigit data_legivel product target_name base
      (VDict (<["sellers" := VList [s]]> d)).
Proof.
  intros Hpre Hs Ht. unfold linha_do_item. cbn [attr_get].
  rewrite !lookup_insert_eq. rewrite !lookup_insert_ne by done.
  cbn [default mbind outcome_bind].
  destruct (attr_get product "releaseDate" VNone) as [rdr|]; [|reflexivity].
  cbn [mbind outcome_bind].
  match goal with
  | |- mbind _ ?m = _ => destruct m as [rd|]; cbn [mbind outcome_bind]; [|reflexivity]
  end.
  cbn [id py_iter mbind outcome_bind].
  rewrite (oferta_valida_sem_oferta pre (s :: post) Hpre).
  by rewrite (oferta_valida_com_oferta s post offer Hs Ht).
Qed.

(** ** The rows of the codes not found *)

Lemma linhas_do_resultado_marca (c : string) (rows : list value) :
  linhas_do_resultado sem_tags str_isdigit data_legivel (nao_encontrado c) rows
  = (Ok tt, rows ++ [linha_nao_encontrado (VStr c)]).
Proof. reflexivity. Qed.

Lemma excel_data_marcas_aux (cs : list string) : forall rows : list value,
  foldM (fun _ product => linhas_do_resultado sem_tags str_isdigit data_legivel product)
        (nao_encontrado <$> cs) tt rows
  = (Ok tt, rows ++ ((fun c => linha_nao_encontrado (VStr c)) <$> cs)).
Proof.
  induction cs as [|c cs IH]; intros rows.
  - cbn. unfold mret, M_ret. by rewrite app_nil_r.
  - cbn [fmap list_fmap foldM]. unfold mbind at 1, M_bind at 1.
    rewrite linhas_do_resultado_marca. cbn [fmap list_fmap] in IH. rewrite IH.
    by rewrite <- app_assoc.
Qed.

(** X29 ([scrape_by_eans] then [create_excel_report]): when every term
    search returns [None], the report of what [scrape_by_eans] returns
    has exactly one row per code of at most 13 characters, the
    13-character codes first, each with the code under ['EAN'],
    ['NÃO ENCONTRADO'] as category and every other column empty. *)
Theorem relatorio_fora_do_ar (w : world) (eans : list string) :
  fora_do_ar w ->
  exists rs tr,
    scrape_by_eans w eans [] = (Ok rs, tr) /\
    excel_data sem_tags str_isdigit data_legivel rs
    = Ok ((fun c => linha_nao_encontrado (VStr c)) <$>
          (filter (fun ean => py_len ean = 13) eans ++
           filter (fun ean => py_len ean < 13) eans)).
Proof.
  intros Hw. pose proof (scrape_by_eans_fora_do_ar_aux w eans [] Hw) as Hs.
  cbv zeta in Hs. eexists _, _. split; [exact Hs|].
  unfold excel_data. by rewrite excel_data_marcas_aux.
Qed.

End Relatorio_excecoes.

Lemma excel_data_linhas_witness :
  exists rows,
    excel_data tira_tags isdigit_ascii data_crua
      [VDict resultado_relatorio; nao_encontrado "123"; VDict resultado_exemplo] = Ok rows /\
    Forall linha_bem_formada rows.
Proof.
  eexists. split; [vm_compute; reflexivity|].
  eapply (excel_data_linhas tira_tags isdigit_ascii data_crua
            [VDict resultado_relatorio; nao_encontrado "123"; VDict resultado_exemplo]).
  vm_compute. reflexivity.
Defined.

Lemma excel_data_excecoes_witness :
  AttributeError = AttributeError \/
  (AttributeError = OtherError /\
   exists s, isdigit_ascii s = true /\ data_crua s = Raise OtherError).
Proof.
  apply (excel_data_excecoes tira_tags isdigit_ascii data_crua
           [nao_encontrado "123"; VStr "7891000000010"] AttributeError).
  reflexivity.
Defined.

Lemma linha_do_item_primeiro_vendedor_witness :
  linha_do_item tira_tags isdigit_ascii data_crua (VDict resultado_relatorio)
    (VStr "Busca EAN: 7891000000010") (VStr "Dipirona")
    (VDict (<["sellers" := VList ([vendedor_sem_oferta] ++
                                  vendedor_com_oferta :: [vendedor_mais_barato])]>
              sku_relatorio))
  = linha_do_item tira_tags isdigit_ascii data_crua (VDict resultado_relatorio)
      (VStr "Busca EAN: 7891000000010") (VStr "Dipirona")
      (VDict (<["sellers" := VList [vendedor_com_oferta]]> sku_relatorio)).
Proof.
  apply (linha_do_item_primeiro_vendedor tira_tags isdigit_ascii data_crua
           (VDict resultado_relatorio) (VStr "Busca EAN: 7891000000010") (VStr "Dipirona")
           sku_relatorio [vendedor_sem_oferta] [vendedor_mais_barato] vendedor_com_oferta
           (VDict (<["price" := VNum 12.5]> (<["listPrice" := VNum 10]> ∅)))).
  - constructor; [|constructor]. exists VNone. split; reflexivity.
  - reflexivity.
  - reflexivity.
Defined.

Lemma relatorio_fora_do_ar_witness :
  exists rs tr,
    scrape_by_eans w0 codigos_mistos [] = (Ok rs, tr) /\
    excel_data tira_tags isdigit_ascii data_crua rs
    = Ok ((fun c => linha_nao_encontrado (VStr c)) <$>
          (filter (fun ean => py_len ean = 13) codigos_mistos ++
           filter (fun ean => py_len ean < 13) codigos_mistos)).
Proof.
  apply (relatorio_fora_do_ar tira_tags isdigit_ascii data_crua w0 codigos_mistos).
  intros tr t. reflexivity.
Defined.
